(** * Call-record reconstruction: a shallow embedding of [app/main.py]

    The development models the event-log-to-call-record engine of the
    repository: [_parse_payload], [_payload_as_dict], [_normalize_sentiment],
    [safe_number_convert] and [_build_call_record] of [app/main.py], together
    with the three reads of [app/storage.py] they rely on
    ([get_events_by_call_id], [get_carrier_profile], [get_call_search_prefs]).

    Conventions.
    - A Python value is a [pyval]; a Python [dict] is an insertion-ordered
      association list with at most one binding per key in values built by the
      model; [dict.get] reads the first binding.
    - A Python [str] is a Rocq [string] holding its UTF-8 bytes.
    - A raised exception is [Raise e]; [try/except] is a match on the result.
    - Library code that is not part of the repository (the JSON decoder,
      [float], [int], [datetime.fromisoformat], the text form SQLite gives a
      REAL) is an operation of the class [PyLib]; every general theorem holds
      for every implementation of that interface.  [cpython] at the end of the
      file is a reference implementation used to run concrete inputs. *)

From Stdlib Require Import ZArith NArith String Ascii List Bool Lia DecimalString SpecFloat.
From stdpp Require Import base option list gmap strings.

Set Warnings "-register-all".

Local Open Scope string_scope.
Local Open Scope Z_scope.

(** ** Exceptions *)

Inductive exn : Type :=
| AttributeError   (* attribute access on a value that has no such attribute *)
| TypeError
| ValueError
| OverflowError
| SqliteBindError. (* sqlite3 cannot adapt the parameter *)

Inductive res (A : Type) : Type :=
| Ok (a : A)
| Raise (e : exn).
Arguments Ok {A} a.
Arguments Raise {A} e.

Definition res_bind {A B} (m : res A) (f : A -> res B) : res B :=
  match m with
  | Ok a => f a
  | Raise e => Raise e
  end.

#[global] Instance res_mret : MRet res := fun A a => Ok a.
#[global] Instance res_mbind : MBind res := fun A B f m => res_bind m f.

(** ** Python values *)

Inductive pyval_ (F : Type) : Type :=
| VNone
| VBool (b : bool)
| VInt (z : Z)
| VFloat (f : F)
| VStr (s : string)
| VList (l : list (pyval_ F))
| VDict (d : list (string * pyval_ F)).
Arguments VNone {F}.
Arguments VBool {F} b.
Arguments VInt {F} z.
Arguments VFloat {F} f.
Arguments VStr {F} s.
Arguments VList {F} l.
Arguments VDict {F} d.

(** A size of a value that bounds the text of every JSON document encoding it:
    a string weighs its length plus one, a container one more than its
    content. *)
Fixpoint pyweight {F : Type} (v : pyval_ F) : nat :=
  match v with
  | VStr s => S (String.length s)
  | VList l => S (list_sum (map pyweight l))
  | VDict d =>
      S (list_sum (map (fun kv => (S (String.length (fst kv)) + pyweight (snd kv))%nat) d))
  | _ => 1%nat
  end.

(** The part of the Python runtime and standard library the engine calls.
    [json_loads] is [json.loads] on a [str] ([None] when it raises);
    [float_of_str], [float_of_int], [int_of_float], [int_of_str] are the
    built-ins [float] and [int]; [float_eq_int x n] is [x == n] and
    [float_gt_zero x] is [x > 0] for a float [x];
    [iso_span_seconds a b] is
    [int((datetime.fromisoformat(a) - datetime.fromisoformat(b)).total_seconds())],
    [None] when any step raises; [float_sql_text] is the text SQLite compares
    a REAL parameter by against a TEXT column, [None] for the NaN it binds as
    NULL.

    [json_loads_weight] is the one fact about the decoder the engine's
    termination rests on: a document is at least as long as the value it
    decodes to weighs (it writes out every string and every container of the
    value). *)
Class PyLib : Type := {
  pyfloat : Type;
  json_loads : string -> option (pyval_ pyfloat);
  float_of_str : string -> option pyfloat;
  float_of_int : Z -> option pyfloat;
  int_of_float : pyfloat -> res Z;
  int_of_str : string -> option Z;
  float_eq_int : pyfloat -> Z -> bool;
  float_gt_zero : pyfloat -> bool;
  float_sql_text : pyfloat -> option string;
  iso_span_seconds : string -> string -> option Z;
  json_loads_weight : forall s v,
    json_loads s = Some v -> (pyweight v <= String.length s)%nat
}.

(** ** Python strings *)

Module PyStr.

Definition code (c : ascii) : N := N_of_ascii c.

Definition dquote : ascii := "034"%char.

(** [str.isspace] on one character, given as the bytes of its UTF-8
    encoding: the ASCII white space, U+0085, U+00A0, U+1680, U+2000 to
    U+200A, U+2028, U+2029, U+202F, U+205F and U+3000. *)
Definition is_space_seq (l : list N) : bool :=
  match l with
  | [x] => ((9 <=? x) && (x <=? 13) || (28 <=? x) && (x <=? 32))%N
  | [x; y] => ((x =? 194) && ((y =? 133) || (y =? 160)))%N
  | [x; y; z] =>
      ((x =? 225) && (y =? 154) && (z =? 128)
       || (x =? 226) && (y =? 128)
          && ((128 <=? z) && (z <=? 138) || (z =? 168) || (z =? 169) || (z =? 175))
       || (x =? 226) && (y =? 129) && (z =? 159)
       || (x =? 227) && (y =? 128) && (z =? 128))%N
  | _ => false
  end.

(** Number of bytes of the white-space character [s] starts with, 0 if it
    starts with none. *)
Definition space_prefix (s : string) : nat :=
  match s with
  | String a r =>
      if is_space_seq [code a] then 1%nat
      else match r with
           | String b r' =>
               if is_space_seq [code a; code b] then 2%nat
               else match r' with
                    | String c _ =>
                        if is_space_seq [code a; code b; code c] then 3%nat else 0%nat
                    | EmptyString => 0%nat
                    end
           | EmptyString => 0%nat
           end
  | EmptyString => 0%nat
  end.

(** The same from the end: [l] is the reversed list of bytes. *)
Definition space_suffix (l : list ascii) : nat :=
  match l with
  | a :: r =>
      if is_space_seq [code a] then 1%nat
      else match r with
           | b :: r' =>
               if is_space_seq [code b; code a] then 2%nat
               else match r' with
                    | c :: _ =>
                        if is_space_seq [code c; code b; code a] then 3%nat else 0%nat
                    | [] => 0%nat
                    end
           | [] => 0%nat
           end
  | [] => 0%nat
  end.

Fixpoint drop_str (n : nat) (s : string) : string :=
  match n, s with
  | S n', String _ r => drop_str n' r
  | _, _ => s
  end.

Fixpoint lstrip_fuel (fuel : nat) (s : string) : string :=
  match fuel with
  | O => s
  | S fuel' =>
      match space_prefix s with
      | O => s
      | k => lstrip_fuel fuel' (drop_str k s)
      end
  end.

Fixpoint rstrip_fuel (fuel : nat) (l : list ascii) : list ascii :=
  match fuel with
  | O => l
  | S fuel' =>
      match space_suffix l with
      | O => l
      | k => rstrip_fuel fuel' (drop k l)
      end
  end.

Definition lstrip (s : string) : string := lstrip_fuel (String.length s) s.

Definition rstrip (s : string) : string :=
  string_of_list_ascii
    (rev (rstrip_fuel (String.length s) (rev (list_ascii_of_string s)))).

(** [s.strip()] *)
Definition strip (s : string) : string := rstrip (lstrip s).

Fixpoint lstrip_char (c : ascii) (s : string) : string :=
  match s with
  | String a r => if Ascii.eqb a c then lstrip_char c r else s
  | EmptyString => s
  end.

Fixpoint lstrip_char_list (c : ascii) (l : list ascii) : list ascii :=
  match l with
  | a :: r => if Ascii.eqb a c then lstrip_char_list c r else l
  | [] => l
  end.

(** [s.strip(c)] for a one-character argument *)
Definition strip_char (c : ascii) (s : string) : string :=
  string_of_list_ascii
    (rev (lstrip_char_list c (rev (list_ascii_of_string (lstrip_char c s))))).

Definition lower_ascii (c : ascii) : ascii :=
  let x := code c in
  if ((65 <=? x) && (x <=? 90))%N then ascii_of_N (x + 32) else c.

(** [s.lower()] on the ASCII letters; characters outside ASCII are left as
    they are.  The source tests the result against ASCII literals only, and
    the two characters outside ASCII whose lower case holds an ASCII letter
    (U+0130, which gives i followed by U+0307, and U+212A, which gives k)
    cannot complete one of them: the tests come out the same. *)
Fixpoint lower (s : string) : string :=
  match s with
  | String a r => String (lower_ascii a) (lower r)
  | EmptyString => EmptyString
  end.

(** [needle in s] *)
Fixpoint contains (needle s : string) : bool :=
  String.prefix needle s
  || match s with
     | String _ r => contains needle r
     | EmptyString => false
     end.

(** [s.replace(c, by)] for a one-character [c] *)
Fixpoint replace_char (c : ascii) (by_ : string) (s : string) : string :=
  match s with
  | String a r =>
      if Ascii.eqb a c then by_ +:+ replace_char c by_ r
      else String a (replace_char c by_ r)
  | EmptyString => EmptyString
  end.

(** Number of bytes of the character a UTF-8 lead byte starts. *)
Definition char_width (c : ascii) : nat :=
  let x := code c in
  if (x <? 192)%N then 1%nat
  else if (x <? 224)%N then 2%nat
  else if (x <? 240)%N then 3%nat
  else 4%nat.

Fixpoint take_str (n : nat) (s : string) : string :=
  match n, s with
  | S n', String a r => String a (take_str n' r)
  | _, _ => EmptyString
  end.

(** Iterating over a [str]: its characters, each a one-character [str]. *)
Fixpoint chars_fuel (fuel : nat) (s : string) : list string :=
  match fuel, s with
  | S fuel', String a _ =>
      let w := char_width a in
      take_str w s :: chars_fuel fuel' (drop_str w s)
  | _, _ => []
  end.

Definition chars (s : string) : list string := chars_fuel (String.length s) s.

Definition is_empty (s : string) : bool :=
  match s with EmptyString => true | _ => false end.

End PyStr.

(** ** The engine, over any implementation of the library interface *)

Section Engine.
Context {L : PyLib}.

Abbreviation pyval := (pyval_ pyfloat).
Abbreviation pydict := (list (string * pyval_ pyfloat)).

(** Truth value of a Python object ([bool(v)]). *)
Definition truthy (v : pyval) : bool :=
  match v with
  | VNone => false
  | VBool b => b
  | VInt z => negb (z =? 0)
  | VFloat f => negb (float_eq_int f 0)
  | VStr s => negb (PyStr.is_empty s)
  | VList l => match l with [] => false | _ => true end
  | VDict d => match d with [] => false | _ => true end
  end.

(** [a or b] *)
Definition py_or (a b : pyval) : pyval := if truthy a then a else b.

Fixpoint dict_lookup (d : pydict) (k : string) : option pyval :=
  match d with
  | [] => None
  | (k', v) :: d' => if String.eqb k' k then Some v else dict_lookup d' k
  end.

(** [d.get(k)] on a dict *)
Definition dict_get (d : pydict) (k : string) : pyval :=
  default VNone (dict_lookup d k).

(** [d[k] = v] *)
Fixpoint dict_set (d : pydict) (k : string) (v : pyval) : pydict :=
  match d with
  | [] => [(k, v)]
  | (k', v') :: d' =>
      if String.eqb k' k then (k', v) :: d' else (k', v') :: dict_set d' k v
  end.

(** [isinstance(v, int)]; a [bool] is an [int]. *)
Definition is_int (v : pyval) : bool :=
  match v with VInt _ | VBool _ => true | _ => false end.

(** [v == True] *)
Definition py_eq_true (v : pyval) : bool :=
  match v with
  | VBool b => b
  | VInt z => z =? 1
  | VFloat f => float_eq_int f 1
  | _ => false
  end.

(** [v == s] for a string literal [s] *)
Definition py_eq_str (v : pyval) (s : string) : bool :=
  match v with
  | VStr t => String.eqb t s
  | _ => false
  end.

(** [v == 0] *)
Definition py_eq_zero (v : pyval) : bool :=
  match v with
  | VBool b => negb b
  | VInt z => z =? 0
  | VFloat f => float_eq_int f 0
  | _ => false
  end.

(** [v > 0] *)
Definition py_gt_zero (v : pyval) : res bool :=
  match v with
  | VBool b => Ok b
  | VInt z => Ok (0 <? z)
  | VFloat f => Ok (float_gt_zero f)
  | _ => Raise TypeError
  end.

(** *** [safe_number_convert] (main.py, lines 62-75) *)

Inductive target := TInt | TFloat.

(** [target_type(z)] for an [int] [z] *)
Definition convert_int (target_type : target) (z : Z) : res pyval :=
  match target_type with
  | TInt => Ok (VInt z)
  | TFloat =>
      match float_of_int z with
      | Some f => Ok (VFloat f)
      | None => Raise OverflowError
      end
  end.

Definition safe_number_convert (value : pyval) (target_type : target) : res pyval :=
  match value with
  | VNone => Ok VNone
  | VBool b => convert_int target_type (if b then 1 else 0)
  | VInt z => convert_int target_type z
  | VFloat f =>
      match target_type with
      | TInt => z ← int_of_float f; Ok (VInt z)
      | TFloat => Ok (VFloat f)
      end
  | VStr s =>
      let value := PyStr.strip s in
      if PyStr.is_empty value then Ok VNone
      else
        (* try: return target_type(value)  except (ValueError, TypeError): return None *)
        match target_type with
        | TInt => Ok (from_option VInt VNone (int_of_str value))
        | TFloat => Ok (from_option VFloat VNone (float_of_str value))
        end
  | _ => Ok VNone
  end.

(** *** [_parse_payload] (main.py, lines 317-323)

    Every exception of [json.loads] is caught; a value that is not a [str]
    makes it raise [TypeError], which is caught as well. *)
Definition _parse_payload (payload_str : pyval) : pyval :=
  if negb (truthy payload_str) then VNone
  else
    match payload_str with
    | VStr s => default VNone (json_loads s)
    | _ => VNone
    end.

(** *** [_payload_as_dict] (main.py, lines 326-339)

    The source recurses on the decoded string with no counter of its own;
    [fuel] counts the nested calls and [None] means it ran out.  The
    interpreter's limit on the depth of its call stack is not modelled. *)
Fixpoint payload_as_dict_fuel (fuel : nat) (raw : pyval) : option pydict :=
  match raw with
  | VNone => Some []
  | VDict d => Some d
  | VStr s =>
      match _parse_payload (VStr s) with
      | VDict d => Some d
      | VStr parsed =>
          match fuel with
          | O => None
          | S fuel' => payload_as_dict_fuel fuel' (VStr parsed)
          end
      | _ => Some []
      end
  | _ => Some []
  end.

(** Nested calls a value can cause: none unless it is a string. *)
Definition payload_depth (raw : pyval) : nat :=
  match raw with
  | VStr s => String.length s
  | _ => O
  end.

Definition _payload_as_dict (raw : pyval) : pydict :=
  default [] (payload_as_dict_fuel (payload_depth raw) raw).

(** *** [_normalize_sentiment] (main.py, lines 418-436) *)

(** [s in (k1, ..., kn)] for string literals *)
Definition str_in (s : string) (ks : list string) : bool :=
  existsb (String.eqb s) ks.

Definition _normalize_sentiment (raw : pyval) : res string :=
  if negb (truthy raw) then Ok "neutral"
  else
    match raw with
    | VStr r =>
        let s := PyStr.lower (PyStr.strip r) in
        if str_in s ["positive"; "professional & satisfied"; "friendly & cooperative";
                     "really positive"; "very positive"] then Ok "positive"
        else if str_in s ["neutral"] then Ok "neutral"
        else if str_in s ["negative"; "unprofessional"; "really negative"; "very negative"]
        then Ok "negative"
        else if str_in s ["frustrated"; "impatient"; "dismissive"; "angry"]
        then Ok "frustrated"
        else if PyStr.contains "positive" s then Ok "positive"
        else if PyStr.contains "negative" s then Ok "negative"
        else if PyStr.contains "frustrat" s || PyStr.contains "angry" s
                || PyStr.contains "impatient" s then Ok "frustrated"
        else Ok "neutral"
    | _ => Raise AttributeError  (* [.strip] on a value that is not a str *)
    end.


(** ** The stores (storage.py)

    The three SQLite tables.  [events] lists the rows of the table of that
    name in ascending [id] order, the order the AUTOINCREMENT key gives the
    inserts; a row of [carrier_profiles] or [call_search_prefs] is the dict
    [dict(row)] makes of it, its keys the column names. *)

Record event_row := {
  ev_call_id : string;          (* call_id TEXT NOT NULL *)
  ev_event_type : string;       (* event_type TEXT NOT NULL *)
  ev_payload : option string;   (* payload TEXT *)
  ev_timestamp : string         (* timestamp TEXT NOT NULL *)
}.

Record store := {
  events : list event_row;
  carrier_profiles : list pydict;
  call_search_prefs : list pydict
}.

(** A computation that may read or write the stores and may raise. *)
Definition M (A : Type) : Type := store -> res A * store.

#[global] Instance M_mret : MRet M := fun A a st => (Ok a, st).
#[global] Instance M_mbind : MBind M := fun A B f m st =>
  match m st with
  | (Ok a, st') => f a st'
  | (Raise e, st') => (Raise e, st')
  end.

Definition lift {A} (r : res A) : M A := fun st => (r, st).

(** A Python value as sqlite3 binds it to a statement parameter. *)
Inductive sqlval :=
| SqlNull
| SqlInteger (z : Z)
| SqlReal (f : pyfloat)
| SqlText (s : string).

(** The binding.  A [str] is its UTF-8 bytes here, so the one sqlite3
    cannot encode, with a lone surrogate, does not arise. *)
Definition sqlite_adapt (v : pyval) : res sqlval :=
  match v with
  | VNone => Ok SqlNull
  | VBool b => Ok (SqlInteger (if b then 1 else 0))
  | VInt z =>
      if (- 2 ^ 63 <=? z) && (z <? 2 ^ 63) then Ok (SqlInteger z)
      else Raise OverflowError
  | VFloat f => Ok (SqlReal f)
  | VStr s => Ok (SqlText s)
  | _ => Raise SqliteBindError
  end.

(** [column = ?] for a column of TEXT affinity: the parameter is compared
    as text, and NULL equals nothing. *)
Definition sql_text_eq (column : pyval) (param : sqlval) : bool :=
  match column, param with
  | VStr c, SqlText s => String.eqb c s
  | VStr c, SqlInteger z => String.eqb c (NilZero.string_of_int (Z.to_int z))
  | VStr c, SqlReal f => from_option (String.eqb c) false (float_sql_text f)
  | _, _ => false
  end.

(** The dict of one row of [get_events_by_call_id]. *)
Record event := {
  event_type : string;
  payload : option string;
  timestamp : string
}.

(** [get_events_by_call_id] (storage.py, lines 236-252):
    SELECT event_type, payload, timestamp FROM events
    WHERE call_id = ? ORDER BY id ASC *)
Definition select_events (call_id : string) (rows : list event_row) : list event :=
  map (fun r => {| event_type := ev_event_type r;
                   payload := ev_payload r;
                   timestamp := ev_timestamp r |})
      (List.filter (fun r => String.eqb (ev_call_id r) call_id) rows).

Definition get_events_by_call_id (call_id : string) : M (list event) :=
  fun st => (Ok (select_events call_id (events st)), st).

(** [get_carrier_profile] (storage.py, lines 152-160):
    SELECT * FROM carrier_profiles WHERE mc_number = ? *)
Definition get_carrier_profile (mc_number : pyval) : M (option pydict) :=
  fun st =>
    (param ← sqlite_adapt mc_number;
     Ok (List.find (fun row => sql_text_eq (dict_get row "mc_number") param)
                   (carrier_profiles st)),
     st).

(** [get_call_search_prefs] (storage.py, lines 210-218):
    SELECT * FROM call_search_prefs WHERE call_id = ? *)
Definition get_call_search_prefs (call_id : string) : M (option pydict) :=
  fun st =>
    (Ok (List.find (fun row => sql_text_eq (dict_get row "call_id") (SqlText call_id))
                   (call_search_prefs st)),
     st).


(** ** [_build_call_record] (main.py, lines 439-559) *)

(** The receiver of a [.get] call must be a dict. *)
Definition as_dict (v : pyval) : res pydict :=
  match v with
  | VDict d => Ok d
  | _ => Raise AttributeError
  end.

(** A nullable TEXT column as the Python value sqlite3 returns. *)
Definition text_column (c : option string) : pyval := from_option VStr VNone c.

(** [(e[event_type] or empty).strip().strip(quote)], line 445 *)
Definition event_key (e : event) : string :=
  PyStr.strip_char PyStr.dquote (PyStr.strip (event_type e)).

(** Lines 443-447.  An entry of [by_type] is the pair of the parsed payload
    and the timestamp of the event. *)
Definition group_step (by_type : gmap string (pyval * string)) (e : event)
  : gmap string (pyval * string) :=
  let key := event_key e in
  if PyStr.is_empty key then by_type
  else <[key := (_parse_payload (text_column (payload e)), timestamp e)]> by_type.

Definition group_by_type (events : list event) : gmap string (pyval * string) :=
  foldl group_step ∅ events.

(** [(by_type.get(key) or {}).get(payload)] *)
Definition entry_payload (by_type : gmap string (pyval * string)) (key : string) : pyval :=
  match by_type !! key with
  | Some (p, _) => p
  | None => VNone
  end.

(** [(by_type.get(key) or {}).get(payload) or {}] *)
Definition payload_or_empty (by_type : gmap string (pyval * string)) (key : string) : pyval :=
  py_or (entry_payload by_type key) (VDict []).

(** Lines 448-453: the span between the first and the last event. *)
Definition span_seconds (first_ts last_ts : string) : Z :=
  match iso_span_seconds (PyStr.replace_char "Z" "+00:00" last_ts)
                         (PyStr.replace_char "Z" "+00:00" first_ts) with
  | Some d => Z.max 0 d
  | None => 0
  end.

(** Lines 455-459: the duration the workflow reported wins over the span. *)
Definition reported_duration (classified : pydict) (duration_seconds : Z) : res Z :=
  let v := dict_get classified "call_duration_seconds" in
  match v with
  | VNone => Ok duration_seconds
  | _ =>
      reported ← safe_number_convert v TInt;
      match reported with
      | VInt r => if 0 <=? r then Ok r else Ok duration_seconds
      | _ => Ok duration_seconds
      end
  end.

(** [v is True], [v is False] *)
Definition is_True (v : pyval) : bool :=
  match v with VBool true => true | _ => false end.
Definition is_False (v : pyval) : bool :=
  match v with VBool false => true | _ => false end.

(** Line 469 *)
Definition verification_status_of (eligible : pyval) : string :=
  if is_False eligible then "failed"
  else if is_True eligible then "verified" else "pending".

(** Lines 475-489: the dict literal of [load_matched]. *)
Definition load_snapshot (load_data : pydict) : res pydict :=
  let get := dict_get load_data in
  loadboard_rate ← safe_number_convert (py_or (get "loadboard_rate") (get "rate")) TFloat;
  weight ← safe_number_convert (get "weight") TFloat;
  miles ← safe_number_convert (get "miles") TFloat;
  num_of_pieces ← safe_number_convert (get "num_of_pieces") TInt;
  Ok [ ("load_id", py_or (get "load_id") (VStr "—"));
       ("origin", py_or (get "origin") (VStr "Unknown"));
       ("destination", py_or (get "destination") (VStr "Unknown"));
       ("pickup_datetime", py_or (get "pickup_datetime") (VStr ""));
       ("delivery_datetime", py_or (get "delivery_datetime") (VStr ""));
       ("equipment_type", py_or (get "equipment_type") (VStr "Van"));
       ("loadboard_rate", py_or loadboard_rate (VInt 0));
       ("weight", py_or weight (VInt 0));
       ("commodity_type",
         py_or (py_or (get "commodity_type") (get "commodity")) (VStr ""));
       ("miles", py_or miles (VInt 0));
       ("notes", py_or (get "notes") (VStr ""));
       ("num_of_pieces", num_of_pieces);
       ("dimensions", py_or (get "dimensions") (VStr "")) ].

(** Lines 472-489: [load_matched], [None] or the snapshot. *)
Definition match_load (neg : pydict) (best_load : pyval) : res pyval :=
  let load_data :=
    if truthy (py_or (dict_get neg "load_id") (dict_get neg "origin"))
    then VDict neg else best_load in
  if truthy load_data then
    d ← as_dict load_data;
    if truthy (py_or (dict_get d "load_id") (dict_get d "origin"))
    then snapshot ← load_snapshot d; Ok (VDict snapshot)
    else Ok VNone
  else Ok VNone.

(** [int(v)] *)
Definition py_int (v : pyval) : res Z :=
  match v with
  | VBool b => Ok (if b then 1 else 0)
  | VInt z => Ok z
  | VFloat f => int_of_float f
  | VStr s => from_option Ok (Raise ValueError) (int_of_str s)
  | _ => Raise TypeError
  end.

(** Lines 490-495 *)
Definition negotiation_rounds (neg : pydict) : res pyval :=
  let rounds := py_or (dict_get neg "negotiation_rounds") (VInt 0) in
  if is_int rounds then Ok rounds
  else
    match py_int rounds with
    | Ok z => Ok (VInt z)
    | Raise ValueError | Raise TypeError => Ok (VInt 0)
    | Raise e => Raise e
    end.

(** [for x in v]: the elements of a list, the characters of a str, the keys
    of a dict; nothing else met here is iterable. *)
Definition py_iter (v : pyval) : res (list pyval) :=
  match v with
  | VList l => Ok l
  | VStr s => Ok (map VStr (PyStr.chars s))
  | VDict d => Ok (map (fun kv => VStr (fst kv)) d)
  | _ => Raise TypeError
  end.

Fixpoint mapM_res {A B} (f : A -> res B) (l : list A) : res (list B) :=
  match l with
  | [] => Ok []
  | x :: l' => y ← f x; ys ← mapM_res f l'; Ok (y :: ys)
  end.

(** [(load_matched or {}).get(loadboard_rate)] *)
Definition matched_rate (load_matched : pyval) : pyval :=
  match load_matched with
  | VDict d => dict_get d "loadboard_rate"
  | _ => VNone
  end.

(** [v in (True, true, True)] with the two strings, line 499: membership
    in a tuple is by identity or [==], and [1 == True] holds in Python. *)
Definition accepted_of (v : pyval) : bool :=
  py_eq_true v || py_eq_str v "true" || py_eq_str v "True".

(** Lines 496-500: [negotiation], [None] or the dict. *)
Definition negotiation_of (neg : pydict) (load_matched : pyval) : res pyval :=
  rounds ← negotiation_rounds neg;
  initial_offer ←
    safe_number_convert
      (py_or (py_or (dict_get neg "loadboard_rate") (dict_get neg "original_rate"))
             (matched_rate load_matched)) TFloat;
  xs ← py_iter (py_or (dict_get neg "counter_offers") (VList []));
  counter_offers ←
    mapM_res (fun x => y ← safe_number_convert x TFloat; Ok (py_or y (VInt 0))) xs;
  final_rate ←
    safe_number_convert (py_or (dict_get neg "final_price") (dict_get neg "final_rate")) TFloat;
  let accepted := accepted_of (dict_get neg "accepted") in
  if truthy load_matched || truthy (VDict neg) then
    Ok (VDict [ ("rounds", rounds);
                ("initial_offer",
                  py_or (py_or initial_offer (matched_rate load_matched)) (VInt 0));
                ("counter_offers", VList counter_offers);
                ("final_rate", final_rate);
                ("agreed", VBool accepted) ])
  else Ok VNone.

(** Lines 502-505: a load shown with rate 0 takes the offered rate. *)
Definition backfill_rate (load_matched negotiation : pyval) : res pyval :=
  match load_matched, negotiation with
  | VDict lm, VDict ng =>
      if truthy load_matched
         && py_eq_zero (py_or (dict_get lm "loadboard_rate") (VInt 0))
         && truthy negotiation
      then
        let fallback_rate := py_or (dict_get ng "initial_offer") (dict_get ng "final_rate") in
        match fallback_rate with
        | VNone => Ok load_matched
        | _ =>
            above ← py_gt_zero fallback_rate;
            if (above : bool) then Ok (VDict (dict_set lm "loadboard_rate" fallback_rate))
            else Ok load_matched
        end
      else Ok load_matched
  | _, _ => Ok load_matched
  end.

(** Lines 506-513 *)
Definition outcome_of (fmcsa_verified : bool) (eligible : pyval) (neg : pydict)
           (accepted : bool) : string :=
  if negb fmcsa_verified && is_False eligible then "failed_verification"
  else if negb (truthy (VDict neg)) then "dropped"
  else if accepted then "booked"
  else "no_deal".

(** Lines 524-553: [_first_reasoning].

    The source recurses into nested dicts and into dicts decoded from
    nested strings; [fuel] bounds the depth of the nested calls, and a call
    that has none left finds nothing. *)
Definition _reasoning_keys : list string :=
  [ "sentiment_reasoning"; "reasoning"; "response_reasoning"; "sentimentReasoning";
    "reason"; "why"; "explanation"; "Response Reasoning"; "Sentiment_Reasoning" ].

(** The first loop: the first key holding a str that is not blank. *)
Fixpoint first_key_hit (d : pydict) (keys : list string) : option string :=
  match keys with
  | [] => None
  | k :: keys' =>
      match dict_get d k with
      | VStr v =>
          if PyStr.is_empty (PyStr.strip v) then first_key_hit d keys'
          else Some (PyStr.strip v)
      | _ => first_key_hit d keys'
      end
  end.

(** One round of the second loop: the reasoning found under the key
    [nested], in a dict or in the text of one. *)
Definition nested_search (search : pyval -> option string) (d : pydict) (nested : string)
  : option string :=
  match dict_get d nested with
  | VDict sub => search (VDict sub)
  | VStr sub =>
      match json_loads sub with
      | Some (VDict parsed) => search (VDict parsed)
      | _ => None
      end
  | _ => None
  end.

(** The first round of a loop that finds something. *)
Fixpoint first_found (round : string -> option string) (names : list string)
  : option string :=
  match names with
  | [] => None
  | name :: names' =>
      match round name with
      | Some found => Some found
      | None => first_found round names'
      end
  end.

Fixpoint first_reasoning_fuel (fuel : nat) (d : pyval) : option string :=
  match d with
  | VDict dd =>
      match first_key_hit dd _reasoning_keys with
      | Some v => Some v
      | None =>
          match fuel with
          | O => None
          | S fuel' =>
              first_found (nested_search (first_reasoning_fuel fuel') dd)
                          ["payload"; "data"; "body"]
          end
      end
  | _ => None
  end.

Definition _first_reasoning (d : pydict) : option string :=
  first_reasoning_fuel (pyweight (VDict d)) (VDict d).

(** [found] as the Python value: [None] or the str. *)
Definition opt_str (o : option string) : pyval := from_option VStr VNone o.

(** Lines 515-554: sentiment, tone and reasoning. *)
Definition sentiment_of (by_type : gmap string (pyval * string))
  : res (string * pyval * pyval) :=
  let sentiment_row := _payload_as_dict (entry_payload by_type "sentiment_classified") in
  let classified_row := _payload_as_dict (entry_payload by_type "call_classified") in
  sentiment ←
    _normalize_sentiment
      (py_or (py_or (dict_get sentiment_row "sentiment_classification")
                    (dict_get sentiment_row "sentiment"))
             (dict_get classified_row "sentiment"));
  let sentiment_tone := py_or (dict_get sentiment_row "tone") (dict_get classified_row "tone") in
  let sentiment_reasoning :=
    match _first_reasoning sentiment_row with
    | Some found => Some found
    | None => _first_reasoning classified_row
    end in
  Ok (sentiment, sentiment_tone, opt_str sentiment_reasoning).

(** Line 558: the snapshot of the preferences row. *)
Definition prefs_snapshot (prefs_row : pydict) : res pyval :=
  let get := dict_get prefs_row in
  weight_capacity ← safe_number_convert (get "weight_capacity") TInt;
  min_temp ← safe_number_convert (get "min_temp") TFloat;
  max_temp ← safe_number_convert (get "max_temp") TFloat;
  Ok (VDict [ ("origin_city", get "origin_city");
              ("origin_state", get "origin_state");
              ("destination_city", get "destination_city");
              ("destination_state", get "destination_state");
              ("equipment_type", get "equipment_type");
              ("weight_capacity", weight_capacity);
              ("min_temp", min_temp);
              ("max_temp", max_temp);
              ("notes", get "notes");
              ("pickup_date", get "pickup_date");
              ("departure_date", get "departure_date");
              ("latest_departure_date", get "latest_departure_date") ]).

(** Lines 460-467: eligibility, MC number and carrier name. *)
Definition carrier_identity (verify : pydict) : M (pyval * pyval * pyval) :=
  carrier ← lift (as_dict (py_or (dict_get verify "carrier") (VDict [])));
  let eligible := dict_get verify "eligible" in
  let mc_number :=
    py_or (py_or (dict_get carrier "mc_number") (dict_get verify "mc_number")) (VStr "") in
  let carrier_name :=
    py_or (py_or (dict_get carrier "name") (dict_get carrier "legal_name")) (VStr "") in
  carrier_name ←
    (if negb (truthy carrier_name) && truthy mc_number then
       profile ← get_carrier_profile mc_number;
       mret (py_or (dict_get (default [] profile) "legal_name") (VStr ""))
     else mret carrier_name);
  mret (eligible, mc_number, py_or carrier_name (VStr "Unknown")).

Definition _build_call_record (call_id : string) : M pyval :=
  events ← get_events_by_call_id call_id;
  match events with
  | [] => mret VNone
  | first_event :: _ =>
      let by_type := group_by_type events in
      let first_ts := timestamp first_event in
      let last_ts := timestamp (List.last events first_event) in
      let duration_seconds := span_seconds first_ts last_ts in
      classified ← lift (as_dict (payload_or_empty by_type "call_classified"));
      duration_seconds ← lift (reported_duration classified duration_seconds);
      verify ← lift (as_dict (payload_or_empty by_type "verify_mc_result"));
      '(eligible, mc_number, carrier_name) ← carrier_identity verify;
      let fmcsa_verified := is_True eligible in
      let verification_status := verification_status_of eligible in
      let best_load := payload_or_empty by_type "best_load_retrieved" in
      neg ← lift (as_dict (payload_or_empty by_type "negotiation_complete"));
      load_matched ← lift (match_load neg best_load);
      negotiation ← lift (negotiation_of neg load_matched);
      let accepted := accepted_of (dict_get neg "accepted") in
      load_matched ← lift (backfill_rate load_matched negotiation);
      let outcome := outcome_of fmcsa_verified eligible neg accepted in
      '(sentiment, sentiment_tone, sentiment_reasoning) ← lift (sentiment_of by_type);
      prefs_row ← get_call_search_prefs call_id;
      call_search_prefs ←
        lift (match prefs_row with
              | Some row => if truthy (VDict row) then prefs_snapshot row else Ok VNone
              | None => Ok VNone
              end);
      mret (VDict [ ("id", VStr call_id);
                    ("timestamp", VStr first_ts);
                    ("mc_number", py_or mc_number (VStr "—"));
                    ("carrier_name", carrier_name);
                    ("fmcsa_verified", VBool fmcsa_verified);
                    ("verification_status", VStr verification_status);
                    ("load_matched", load_matched);
                    ("negotiation", negotiation);
                    ("outcome", VStr outcome);
                    ("sentiment", VStr sentiment);
                    ("sentiment_tone", sentiment_tone);
                    ("sentiment_reasoning", sentiment_reasoning);
                    ("call_duration_seconds", VInt duration_seconds);
                    ("sales_rep_notes", VNone);
                    ("call_search_prefs", call_search_prefs) ])
  end.


(** ** The sentiment policy as the specification words it

    Empty or absent is neutral; the trimmed, lower-cased label is looked up
    in the synonym table; failing that the first substring rule that applies
    decides; failing that the label is neutral. *)

Definition synonym_table : list (string * string) :=
  [ ("positive", "positive"); ("professional & satisfied", "positive");
    ("friendly & cooperative", "positive"); ("really positive", "positive");
    ("very positive", "positive");
    ("neutral", "neutral");
    ("negative", "negative"); ("unprofessional", "negative");
    ("really negative", "negative"); ("very negative", "negative");
    ("frustrated", "frustrated"); ("impatient", "frustrated");
    ("dismissive", "frustrated"); ("angry", "frustrated") ].

Definition substring_rules : list (string * string) :=
  [ ("positive", "positive"); ("negative", "negative");
    ("frustrat", "frustrated"); ("angry", "frustrated"); ("impatient", "frustrated") ].

Fixpoint exact_match (table : list (string * string)) (s : string) : option string :=
  match table with
  | [] => None
  | (k, c) :: table' => if String.eqb s k then Some c else exact_match table' s
  end.

Fixpoint first_substring (rules : list (string * string)) (s : string) : option string :=
  match rules with
  | [] => None
  | (k, c) :: rules' => if PyStr.contains k s then Some c else first_substring rules' s
  end.

Definition classify_policy (label : option string) : string :=
  match label with
  | None => "neutral"
  | Some raw =>
      if PyStr.is_empty raw then "neutral"
      else
        let s := PyStr.lower (PyStr.strip raw) in
        match exact_match synonym_table s with
        | Some c => c
        | None => default "neutral" (first_substring substring_rules s)
        end
  end.

Definition sentiment_categories : list string :=
  ["positive"; "neutral"; "negative"; "frustrated"].

Lemma normalize_sentiment_policy (label : option string) :
  _normalize_sentiment (opt_str label) = Ok (classify_policy label).
Proof.
  destruct label as [raw|]; [|reflexivity].
  unfold _normalize_sentiment, classify_policy, opt_str; simpl.
  destruct (PyStr.is_empty raw); simpl; [reflexivity|].
  set (s := PyStr.lower (PyStr.strip raw)).
  unfold str_in; simpl.
  repeat (destruct (String.eqb s _); simpl; [reflexivity|]).
  repeat (destruct (PyStr.contains _ s); simpl; try reflexivity).
Qed.

Lemma classify_policy_category (label : option string) :
  In (classify_policy label) sentiment_categories.
Proof.
  destruct label as [raw|]; simpl; [|tauto].
  destruct (PyStr.is_empty raw); simpl; [tauto|].
  set (s := PyStr.lower (PyStr.strip raw)).
  repeat (destruct (String.eqb s _); simpl; [tauto|]).
  repeat (destruct (PyStr.contains _ s); simpl; try tauto).
Qed.

(** A value that is neither falsy nor a str has no [strip]: the classifier
    raises on it. *)
Lemma normalize_sentiment_not_str (raw : pyval) :
  truthy raw = true -> (forall s, raw <> VStr s) ->
  _normalize_sentiment raw = Raise AttributeError.
Proof.
  intros Ht Hs. unfold _normalize_sentiment. rewrite Ht. simpl.
  destruct raw as [| | | |r| |]; try reflexivity. now destruct (Hs r).
Qed.

(** ** The payload normalizer terminates *)

Lemma parse_payload_str_shorter (s t : string) :
  _parse_payload (VStr s) = VStr t -> (String.length t < String.length s)%nat.
Proof.
  unfold _parse_payload. simpl.
  destruct (PyStr.is_empty s); simpl; [discriminate|].
  destruct (json_loads s) as [v|] eqn:E; simpl; [|discriminate].
  intros ->. apply json_loads_weight in E. simpl in E. lia.
Qed.

Lemma payload_as_dict_fuel_total (fuel : nat) :
  forall raw, (payload_depth raw <= fuel)%nat ->
  exists d, payload_as_dict_fuel fuel raw = Some d.
Proof.
  induction fuel as [|fuel IH]; intros raw Hd;
    destruct raw as [| | | |s| |d]; simpl; eauto.
  - destruct (_parse_payload (VStr s)) eqn:E; eauto.
    apply parse_payload_str_shorter in E. simpl in Hd. lia.
  - destruct (_parse_payload (VStr s)) as [| | | |t| |] eqn:E; eauto.
    apply IH. apply parse_payload_str_shorter in E. simpl in *. lia.
Qed.

Lemma payload_as_dict_fuel_more (fuel : nat) :
  forall raw d extra,
  payload_as_dict_fuel fuel raw = Some d ->
  payload_as_dict_fuel (fuel + extra) raw = Some d.
Proof.
  induction fuel as [|fuel IH]; intros raw d extra H.
  - destruct extra as [|extra]; [exact H|].
    destruct raw as [| | | |s| |d']; simpl in *; try exact H.
    destruct (_parse_payload (VStr s)); try exact H; discriminate.
  - destruct raw as [| | | |s| |d']; simpl in *; try exact H.
    destruct (_parse_payload (VStr s)); try exact H. now apply IH.
Qed.

Lemma payload_as_dict_enough (fuel : nat) (raw : pyval) :
  (payload_depth raw <= fuel)%nat ->
  payload_as_dict_fuel fuel raw = Some (_payload_as_dict raw).
Proof.
  intros Hd. unfold _payload_as_dict.
  destruct (payload_as_dict_fuel_total (payload_depth raw) raw) as [d Hd']; [lia|].
  rewrite Hd'. simpl.
  replace fuel with (payload_depth raw + (fuel - payload_depth raw))%nat by lia.
  now apply payload_as_dict_fuel_more.
Qed.

(** The source's recursive definition, read as an equation. *)
Lemma payload_as_dict_unfold (raw : pyval) :
  _payload_as_dict raw =
  match raw with
  | VNone => []
  | VDict d => d
  | VStr s =>
      match _parse_payload (VStr s) with
      | VDict d => d
      | VStr parsed => _payload_as_dict (VStr parsed)
      | _ => []
      end
  | _ => []
  end.
Proof.
  destruct raw as [| | | |s| |d]; try reflexivity.
  unfold _payload_as_dict at 1. simpl payload_depth.
  destruct (String.length s) as [|n] eqn:Hn; simpl;
    destruct (_parse_payload (VStr s)) as [| | | |t| |] eqn:E; try reflexivity.
  - apply parse_payload_str_shorter in E. lia.
  - rewrite (payload_as_dict_enough n (VStr t)); [reflexivity|].
    apply parse_payload_str_shorter in E. simpl. lia.
Qed.

(** [encoded t d]: the text [t] is the JSON text of the object [d], or the
    JSON text of a string that is in turn an encoding of [d]. *)
Inductive encoded : string -> pydict -> Prop :=
| encoded_object (t : string) (d : pydict) :
    json_loads t = Some (VDict d) -> encoded t d
| encoded_string (t t' : string) (d : pydict) :
    json_loads t = Some (VStr t') -> encoded t' d -> encoded t d.

Lemma json_loads_nonempty (t : string) (v : pyval) :
  json_loads t = Some v -> PyStr.is_empty t = false.
Proof.
  intros H. apply json_loads_weight in H. destruct t; [|reflexivity].
  destruct v; simpl in H; lia.
Qed.


(** ** The search for a reasoning terminates *)

Definition member_weight (kv : string * pyval) : nat :=
  (S (String.length (fst kv)) + pyweight (snd kv))%nat.

Lemma pyweight_dict (d : pydict) :
  pyweight (VDict d) = S (list_sum (map member_weight d)).
Proof. reflexivity. Qed.

Lemma dict_lookup_weight (d : pydict) (k : string) (v : pyval) :
  dict_lookup d k = Some v -> (pyweight v < pyweight (VDict d))%nat.
Proof.
  rewrite pyweight_dict.
  induction d as [|[k' v'] d IH]; [discriminate|].
  cbn [dict_lookup map].
  change (list_sum (member_weight (k', v') :: map member_weight d))
    with (member_weight (k', v') + list_sum (map member_weight d))%nat.
  destruct (String.eqb k' k).
  - intros H. inversion H; subst. unfold member_weight at 1. simpl. lia.
  - intros H. apply IH in H. lia.
Qed.

Lemma dict_get_weight (d : pydict) (k : string) :
  dict_get d k <> VNone -> (pyweight (dict_get d k) < pyweight (VDict d))%nat.
Proof.
  unfold dict_get. destruct (dict_lookup d k) as [v|] eqn:E; simpl; [|congruence].
  intros _. now apply dict_lookup_weight in E.
Qed.

Lemma nested_search_ext (f g : pyval -> option string) (d : pydict) (nested : string) :
  (forall v, (pyweight v < pyweight (VDict d))%nat -> f v = g v) ->
  nested_search f d nested = nested_search g d nested.
Proof.
  intros Hfg. unfold nested_search.
  pose proof (dict_get_weight d nested) as Hw.
  destruct (dict_get d nested) as [| | | |sub| |sub]; try reflexivity.
  - specialize (Hw ltac:(discriminate)).
    destruct (json_loads sub) as [[| | | | | |parsed]|] eqn:E; try reflexivity.
    apply json_loads_weight in E.
    change (pyweight (VStr sub)) with (S (String.length sub)) in Hw.
    apply Hfg. lia.
  - apply Hfg, Hw. discriminate.
Qed.

Lemma first_found_ext (f g : string -> option string) (names : list string) :
  (forall name, f name = g name) -> first_found f names = first_found g names.
Proof.
  intros Hfg. induction names as [|name names IH]; [reflexivity|].
  simpl. now rewrite Hfg, IH.
Qed.

(** Fuel from the weight of the value on changes nothing: the depth of the
    nested calls of [_first_reasoning] never exceeds it. *)
Lemma first_reasoning_fuel_enough (n : nat) :
  forall (m : nat) (d : pyval),
  (pyweight d <= n)%nat -> (pyweight d <= m)%nat ->
  first_reasoning_fuel n d = first_reasoning_fuel m d.
Proof.
  induction n as [|n IH]; intros m d Hn Hm.
  { destruct d; simpl in Hn; lia. }
  destruct d as [| | | | | |dd]; try (destruct m; reflexivity).
  destruct m as [|m]; [simpl in Hm; lia|].
  cbn [first_reasoning_fuel].
  destruct (first_key_hit dd _reasoning_keys); [reflexivity|].
  apply first_found_ext. intros name. apply nested_search_ext.
  intros v Hv. apply IH; lia.
Qed.

Lemma first_reasoning_enough (fuel : nat) (d : pydict) :
  (pyweight (VDict d) <= fuel)%nat ->
  first_reasoning_fuel fuel (VDict d) = _first_reasoning d.
Proof. intros H. unfold _first_reasoning. now apply first_reasoning_fuel_enough. Qed.

(** ** What the builder reads: the latest event of each type *)

(** The events of a call, oldest first. *)
Definition call_events (st : store) (call_id : string) : list event :=
  select_events call_id (events st).

(** The last stored event whose normalised type is [key]. *)
Definition latest_event (evs : list event) (key : string) : option event :=
  List.find (fun e => String.eqb (event_key e) key) (rev evs).

(** Its decoded payload, [None] when there is no such event. *)
Definition latest_payload (evs : list event) (key : string) : pyval :=
  match latest_event evs key with
  | Some e => _parse_payload (text_column (payload e))
  | None => VNone
  end.

(** A field of a payload; a payload that is no mapping has none. *)
Definition payload_field (p : pyval) (k : string) : pyval :=
  match p with
  | VDict d => dict_get d k
  | _ => VNone
  end.

Lemma is_empty_eqb (s : string) : PyStr.is_empty s = String.eqb s "".
Proof. now destruct s. Qed.

Lemma group_by_type_snoc (evs : list event) (e : event) :
  group_by_type (evs ++ [e]) = group_step (group_by_type evs) e.
Proof. unfold group_by_type. now rewrite foldl_app. Qed.

Lemma latest_event_snoc (evs : list event) (e : event) (key : string) :
  latest_event (evs ++ [e]) key =
  if String.eqb (event_key e) key then Some e else latest_event evs key.
Proof. unfold latest_event. rewrite rev_app_distr. reflexivity. Qed.

(** Last write wins: the entry of [by_type] under a key is the last stored
    event of that type. *)
Lemma entry_payload_latest (evs : list event) (key : string) :
  PyStr.is_empty key = false ->
  entry_payload (group_by_type evs) key = latest_payload evs key.
Proof.
  intros Hk. unfold entry_payload, latest_payload.
  induction evs as [|e evs IH] using rev_ind; [reflexivity|].
  rewrite group_by_type_snoc, latest_event_snoc. unfold group_step.
  destruct (String.eqb (event_key e) key) eqn:E.
  - apply String.eqb_eq in E. rewrite E, Hk. now rewrite lookup_insert_eq.
  - apply String.eqb_neq in E.
    destruct (PyStr.is_empty (event_key e)); [exact IH|].
    now rewrite lookup_insert_ne.
Qed.

Lemma as_dict_or_empty_field (p : pyval) (d : pydict) (k : string) :
  as_dict (py_or p (VDict [])) = Ok d -> dict_get d k = payload_field p k.
Proof.
  intros H. unfold py_or in H. destruct (truthy p) eqn:T.
  - destruct p; simpl in H; try discriminate. now inversion H.
  - simpl in H. inversion H; subst.
    destruct p as [| | | | | |d0]; try reflexivity.
    destruct d0; [reflexivity|discriminate].
Qed.

Lemma as_dict_or_empty_truthy (p : pyval) (d : pydict) :
  as_dict (py_or p (VDict [])) = Ok d -> truthy (VDict d) = truthy p.
Proof.
  intros H. unfold py_or in H. destruct (truthy p) eqn:T.
  - destruct p; simpl in H; try discriminate. inversion H; subst. exact T.
  - simpl in H. now inversion H.
Qed.


(** ** The builder, step by step *)

Lemma carrier_identity_state (verify : pydict) (st : store) :
  snd (carrier_identity verify st) = st.
Proof.
  unfold carrier_identity, mbind, M_mbind, lift, mret, M_mret, get_carrier_profile.
  destruct (as_dict _); simpl; [|reflexivity].
  destruct (_ && _); simpl; [|reflexivity].
  destruct (sqlite_adapt _); reflexivity.
Qed.

Lemma carrier_identity_eligible (verify : pydict) (st : store) eligible mc_number carrier_name :
  fst (carrier_identity verify st) = Ok (eligible, mc_number, carrier_name) ->
  eligible = dict_get verify "eligible".
Proof.
  unfold carrier_identity, mbind, M_mbind, lift, mret, M_mret, get_carrier_profile.
  destruct (as_dict _); simpl; [|discriminate].
  destruct (_ && _); simpl; [|now inversion 1].
  destruct (sqlite_adapt _); simpl; [|discriminate]. now inversion 1.
Qed.

(** The preferences snapshot of a call (lines 555-558). *)
Definition prefs_of (call_id : string) (st : store) : res pyval :=
  match fst (get_call_search_prefs call_id st) with
  | Ok (Some row) => if truthy (VDict row) then prefs_snapshot row else Ok VNone
  | Ok None => Ok VNone
  | Raise e => Raise e
  end.

(** [record_built call_id st evs first_event v]: the steps of the builder on
    the events [evs], the first of which is [first_event], all succeed and
    assemble the record [v]. *)
Definition record_built (call_id : string) (st : store) (evs : list event)
           (first_event : event) (v : pyval) : Prop :=
  let by_type := group_by_type evs in
  exists classified duration verify eligible mc_number carrier_name neg
         load0 negotiation load_matched sentiment tone reasoning prefs,
    as_dict (payload_or_empty by_type "call_classified") = Ok classified /\
    reported_duration classified
      (span_seconds (timestamp first_event) (timestamp (List.last evs first_event)))
      = Ok duration /\
    as_dict (payload_or_empty by_type "verify_mc_result") = Ok verify /\
    fst (carrier_identity verify st) = Ok (eligible, mc_number, carrier_name) /\
    as_dict (payload_or_empty by_type "negotiation_complete") = Ok neg /\
    match_load neg (payload_or_empty by_type "best_load_retrieved") = Ok load0 /\
    negotiation_of neg load0 = Ok negotiation /\
    backfill_rate load0 negotiation = Ok load_matched /\
    sentiment_of by_type = Ok (sentiment, tone, reasoning) /\
    prefs_of call_id st = Ok prefs /\
    v = VDict [ ("id", VStr call_id);
                ("timestamp", VStr (timestamp first_event));
                ("mc_number", py_or mc_number (VStr "—"));
                ("carrier_name", carrier_name);
                ("fmcsa_verified", VBool (is_True eligible));
                ("verification_status", VStr (verification_status_of eligible));
                ("load_matched", load_matched);
                ("negotiation", negotiation);
                ("outcome",
                  VStr (outcome_of (is_True eligible) eligible neg
                                   (accepted_of (dict_get neg "accepted"))));
                ("sentiment", VStr sentiment);
                ("sentiment_tone", tone);
                ("sentiment_reasoning", reasoning);
                ("call_duration_seconds", VInt duration);
                ("sales_rep_notes", VNone);
                ("call_search_prefs", prefs) ].

Local Arguments List.last : simpl never.

Ltac build_dead_end :=
  cbn [fst snd]; split;
  [ discriminate
  | intros (?&?&?&?&?&?&?&?&?&?&?&?&?&?&?&?&?&?&?&?&?&?&?&?&?); congruence ].

Lemma build_ok_iff (call_id : string) (st : store) (v : pyval) :
  fst (_build_call_record call_id st) = Ok v <->
  match call_events st call_id with
  | [] => v = VNone
  | first_event :: _ => record_built call_id st (call_events st call_id) first_event v
  end.
Proof.
  unfold _build_call_record, mbind, M_mbind, get_events_by_call_id, lift, mret, M_mret.
  fold (call_events st call_id).
  destruct (call_events st call_id) as [|first_event rest] eqn:Hev; cbn [fst].
  { split; [now inversion 1|now intros ->]. }
  unfold record_built, prefs_of.
  set (evs := first_event :: rest). set (by_type := group_by_type evs).
  destruct (as_dict (payload_or_empty by_type "call_classified")) as [classified|e] eqn:Hc;
    [|build_dead_end].
  destruct (reported_duration classified _) as [duration|e] eqn:Hd; [|build_dead_end].
  destruct (as_dict (payload_or_empty by_type "verify_mc_result")) as [verify|e] eqn:Hv;
    [|build_dead_end].
  pose proof (carrier_identity_state verify st) as Hst.
  destruct (carrier_identity verify st) as [r st'] eqn:Hci. cbn in Hst. subst st'.
  assert (Hci' : fst (carrier_identity verify st) = r) by now rewrite Hci.
  clear Hci.
  destruct r as [[[eligible mc_number] carrier_name]|e]; [|build_dead_end].
  destruct (as_dict (payload_or_empty by_type "negotiation_complete")) as [neg|e] eqn:Hn;
    [|build_dead_end].
  destruct (match_load neg _) as [load0|e] eqn:Hl; [|build_dead_end].
  destruct (negotiation_of neg load0) as [negotiation|e] eqn:Hg; [|build_dead_end].
  destruct (backfill_rate load0 negotiation) as [load_matched|e] eqn:Hb; [|build_dead_end].
  destruct (sentiment_of by_type) as [[[sentiment tone] reasoning]|e] eqn:Hs;
    [|build_dead_end].
  unfold get_call_search_prefs. cbn [fst snd].
  match goal with
  | |- context [match ?p with Ok _ => _ | Raise _ => _ end] =>
      destruct p as [prefs|e] eqn:Hp; [|build_dead_end]
  end.
  cbn [fst snd]. split.
  - intros H. inversion H. repeat eexists; eauto.
  - intros (?&?&?&?&?&?&?&?&?&?&?&?&?&?&?&?&?&?&?&?&?&?&?&?&?). congruence.
Qed.

(** ** The builder only reads *)

Definition reads_only {A} (m : M A) : Prop := forall st, snd (m st) = st.

Lemma reads_only_ret {A} (a : A) : reads_only (mret a).
Proof. intros st. reflexivity. Qed.

Lemma reads_only_lift {A} (r : res A) : reads_only (lift r).
Proof. intros st. reflexivity. Qed.

Lemma reads_only_bind {A B} (m : M A) (f : A -> M B) :
  reads_only m -> (forall a, reads_only (f a)) -> reads_only (m ≫= f).
Proof.
  intros Hm Hf st. unfold mbind, M_mbind.
  specialize (Hm st). destruct (m st) as [[a|e] st']; simpl in *; subst; [apply Hf|reflexivity].
Qed.

Lemma reads_only_get_events (call_id : string) :
  reads_only (get_events_by_call_id call_id).
Proof. intros st. reflexivity. Qed.

Lemma reads_only_get_profile (mc_number : pyval) :
  reads_only (get_carrier_profile mc_number).
Proof. intros st. reflexivity. Qed.

Lemma reads_only_get_prefs (call_id : string) :
  reads_only (get_call_search_prefs call_id).
Proof. intros st. reflexivity. Qed.

Lemma reads_only_carrier_identity (verify : pydict) :
  reads_only (carrier_identity verify).
Proof. intros st. apply carrier_identity_state. Qed.

Lemma reads_only_build (call_id : string) :
  reads_only (_build_call_record call_id).
Proof.
  unfold _build_call_record.
  apply reads_only_bind; [apply reads_only_get_events|].
  intros [|first_event rest]; [apply reads_only_ret|]. cbv zeta.
  repeat first
    [ apply reads_only_ret
    | apply reads_only_lift
    | apply reads_only_get_prefs
    | apply reads_only_carrier_identity
    | apply reads_only_bind; [|intros]
    | match goal with a : (_ * _ * _)%type |- _ => destruct a as [[? ?] ?] end ].
Qed.

(** ** Claims about the built record *)

(** The eligibility value of the latest [verify_mc_result] payload. *)
Definition eligibility (evs : list event) : pyval :=
  payload_field (latest_payload evs "verify_mc_result") "eligible".

(** The payload of the latest [negotiation_complete] event and its
    [accepted] field. *)
Definition negotiation_payload (evs : list event) : pyval :=
  latest_payload evs "negotiation_complete".

Definition accepted_value (evs : list event) : pyval :=
  payload_field (negotiation_payload evs) "accepted".

(** The duration the latest [call_classified] payload reports. *)
Definition reported_seconds (evs : list event) : pyval :=
  payload_field (latest_payload evs "call_classified") "call_duration_seconds".

(** Inversion of a successful build into the facts the claims are about. *)
Lemma build_record_facts (call_id : string) (st : store) (rec : pydict) :
  fst (_build_call_record call_id st) = Ok (VDict rec) ->
  let evs := call_events st call_id in
  exists first_event neg load0 negotiation duration,
    hd_error evs = Some first_event /\
    as_dict (py_or (negotiation_payload evs) (VDict [])) = Ok neg /\
    match_load neg (py_or (latest_payload evs "best_load_retrieved") (VDict [])) = Ok load0 /\
    negotiation_of neg load0 = Ok negotiation /\
    backfill_rate load0 negotiation = Ok (dict_get rec "load_matched") /\
    (exists classified,
       as_dict (py_or (latest_payload evs "call_classified") (VDict [])) = Ok classified /\
       reported_duration classified
         (span_seconds (timestamp first_event) (timestamp (List.last evs first_event)))
         = Ok duration) /\
    dict_get rec "timestamp" = VStr (timestamp first_event) /\
    dict_get rec "fmcsa_verified" = VBool (is_True (eligibility evs)) /\
    dict_get rec "verification_status" = VStr (verification_status_of (eligibility evs)) /\
    dict_get rec "negotiation" = negotiation /\
    dict_get rec "outcome" =
      VStr (outcome_of (is_True (eligibility evs)) (eligibility evs) neg
                       (accepted_of (accepted_value evs))) /\
    dict_get rec "call_duration_seconds" = VInt duration.
Proof.
  intros H evs. apply build_ok_iff in H. fold evs in H.
  destruct evs as [|first_event rest] eqn:Hev; [discriminate|].
  destruct H as (classified & duration & verify & eligible & mc_number & carrier_name & neg
                 & load0 & negotiation & load_matched & sentiment & tone & reasoning & prefs
                 & Hc & Hd & Hv & Hci & Hn & Hl & Hg & Hb & Hs & Hp & Hrec).
  inversion Hrec; subst rec; clear Hrec.
  apply carrier_identity_eligible in Hci.
  unfold payload_or_empty in *.
  rewrite !entry_payload_latest in * by reflexivity.
  assert (He : eligible = eligibility (first_event :: rest)).
  { rewrite Hci. unfold eligibility. eapply as_dict_or_empty_field, Hv. }
  assert (Ha : dict_get neg "accepted" = accepted_value (first_event :: rest)).
  { unfold accepted_value. eapply as_dict_or_empty_field, Hn. }
  exists first_event, neg, load0, negotiation, duration.
  rewrite <- He, <- Ha.
  repeat split; try reflexivity; try assumption.
  exists classified. split; assumption.
Qed.

(** C2.  In every record the builder returns, [verification_status] is
    [failed] exactly when the eligibility value of the latest
    [verify_mc_result] payload is the boolean False, [verified] exactly when it
    is the boolean True and [pending] in every other case, and
    [fmcsa_verified] is true exactly when it is the boolean True. *)
Theorem verification_status_by_eligibility (call_id : string) (st : store) (rec : pydict) :
  fst (_build_call_record call_id st) = Ok (VDict rec) ->
  let eligible := eligibility (call_events st call_id) in
  (dict_get rec "verification_status" = VStr "failed" <-> eligible = VBool false) /\
  (dict_get rec "verification_status" = VStr "verified" <-> eligible = VBool true) /\
  (dict_get rec "verification_status" = VStr "pending" <->
     eligible <> VBool false /\ eligible <> VBool true) /\
  (dict_get rec "fmcsa_verified" = VBool true <-> eligible = VBool true) /\
  (dict_get rec "fmcsa_verified" = VBool false <-> eligible <> VBool true).
Proof.
  intros H eligible.
  destruct (build_record_facts _ _ _ H)
    as (first_event & neg & load0 & negotiation & duration & _ & _ & _ & _ & _ & _ & _
        & Hf & Hs & _).
  fold eligible in Hf, Hs. rewrite Hf, Hs. clear.
  unfold verification_status_of.
  destruct eligible as [|[|]|z|f|s|l|d]; simpl;
    repeat split; intros; try discriminate; try congruence; try tauto;
    try (split; discriminate);
    match goal with H : _ /\ _ |- _ => destruct H; congruence end.
Qed.

Lemma negotiation_of_inv (neg : pydict) (load0 negotiation : pyval) :
  negotiation_of neg load0 = Ok negotiation ->
  (truthy load0 || truthy (VDict neg) = false /\ negotiation = VNone) \/
  (truthy load0 || truthy (VDict neg) = true /\
   exists rounds initial_offer counter_offers final_rate,
     negotiation_rounds neg = Ok rounds /\
     negotiation = VDict [ ("rounds", rounds);
                           ("initial_offer", initial_offer);
                           ("counter_offers", counter_offers);
                           ("final_rate", final_rate);
                           ("agreed", VBool (accepted_of (dict_get neg "accepted"))) ]).
Proof.
  unfold negotiation_of, mbind, res_mbind, res_bind.
  destruct (negotiation_rounds neg) as [rounds|]; [|discriminate].
  destruct (safe_number_convert _ TFloat) as [io|]; [|discriminate].
  destruct (py_iter _) as [xs|]; [|discriminate].
  destruct (mapM_res _ xs) as [co|]; [|discriminate].
  destruct (safe_number_convert _ TFloat) as [fr|]; [|discriminate].
  destruct (truthy load0 || truthy (VDict neg)); intros H; inversion H; subst.
  - right. split; [reflexivity|]. now repeat eexists.
  - left. now split.
Qed.

Lemma match_load_shape (neg : pydict) (best_load load0 : pyval) :
  match_load neg best_load = Ok load0 -> load0 <> VNone -> truthy load0 = true.
Proof.
  intros H Hn. unfold match_load in H. cbv zeta in H.
  set (load_data := if truthy (py_or (dict_get neg "load_id") (dict_get neg "origin"))
                    then VDict neg else best_load) in H.
  clearbody load_data.
  unfold load_snapshot, mbind, res_mbind, res_bind in H.
  destruct (truthy load_data); [|now inversion H; subst].
  destruct (as_dict load_data) as [d|]; [|discriminate].
  destruct (truthy (py_or _ _)); [|now inversion H; subst].
  repeat (destruct (safe_number_convert _ _); [|discriminate]).
  now inversion H.
Qed.

Lemma backfill_rate_none (load0 negotiation load_matched : pyval) :
  backfill_rate load0 negotiation = Ok load_matched ->
  load_matched <> VNone -> load0 <> VNone.
Proof.
  intros H Hn ->. simpl in H. congruence.
Qed.

Lemma record_negotiation_agreed (call_id : string) (st : store) (rec ng : pydict) :
  fst (_build_call_record call_id st) = Ok (VDict rec) ->
  dict_get rec "negotiation" = VDict ng ->
  dict_get ng "agreed" = VBool (accepted_of (accepted_value (call_events st call_id))).
Proof.
  intros H Heq.
  destruct (build_record_facts _ _ _ H)
    as (first_event & neg & load0 & negotiation & duration & _ & Hn & _ & Hg & _ & _ & _
        & _ & _ & Hng & _).
  rewrite Hng in Heq. subst negotiation.
  apply negotiation_of_inv in Hg.
  destruct Hg as [[_ Hg]|[_ (r & io & co & fr & _ & Hg)]]; [discriminate|].
  inversion Hg; subst ng. cbn.
  unfold accepted_value. now rewrite <- (as_dict_or_empty_field _ _ "accepted" Hn).
Qed.

Lemma accepted_of_cases (a : pyval) :
  accepted_of a = true <->
  a = VBool true \/ a = VInt 1 \/ (exists f, a = VFloat f /\ float_eq_int f 1 = true)
  \/ a = VStr "true" \/ a = VStr "True".
Proof.
  unfold accepted_of, py_eq_true, py_eq_str. split.
  - destruct a as [|b|z|f|s|l|d]; rewrite ?orb_false_r; try discriminate.
    + intros ->. now left.
    + intros E%Z.eqb_eq. subst. right. now left.
    + intros E. right. right. left. now exists f.
    + intros E. apply orb_true_iff in E as [E|E]; apply String.eqb_eq in E; subst; tauto.
  - intros [->|[->|[(f & -> & E)|[->| ->]]]]; try reflexivity.
    now rewrite E.
Qed.

(** The decision table of the outcome: its inputs are whether eligibility
    is the boolean False, whether a negotiation payload was reported, and
    whether the negotiation was accepted. *)
Definition decision_table (eligibility_false negotiation_reported accepted : bool) : string :=
  if eligibility_false then "failed_verification"
  else if negb negotiation_reported then "dropped"
  else if accepted then "booked"
  else "no_deal".

(** C1, as amended.  The outcome of every record the builder returns is
    read off the decision table in order: [failed_verification] when the
    eligibility value of the latest [verify_mc_result] payload is the boolean
    False; otherwise [dropped] when the latest [negotiation_complete] payload
    is missing or empty (no such event, or one whose payload is null, empty
    or does not decode); otherwise [booked] when the negotiation is accepted
    and [no_deal] when it is not.  The outcome is a function of these three
    inputs alone, and the third is the [agreed] flag of the record's
    negotiation. *)
Theorem outcome_decision_table (call_id : string) (st : store) (rec : pydict) :
  fst (_build_call_record call_id st) = Ok (VDict rec) ->
  let evs := call_events st call_id in
  dict_get rec "outcome" =
    VStr (decision_table (is_False (eligibility evs))
                         (truthy (negotiation_payload evs))
                         (accepted_of (accepted_value evs))) /\
  (forall ng, dict_get rec "negotiation" = VDict ng ->
              dict_get ng "agreed" = VBool (accepted_of (accepted_value evs))).
Proof.
  intros H evs.
  destruct (build_record_facts _ _ _ H)
    as (first_event & neg & load0 & negotiation & duration & _ & Hn & _ & Hg & _ & _ & _
        & _ & _ & Hng & Ho & _).
  fold evs in Hn, Hng, Ho. split.
  - rewrite Ho. f_equal. unfold outcome_of, decision_table.
    rewrite (as_dict_or_empty_truthy _ _ Hn).
    now destruct (eligibility evs) as [|[|]| | | | |].
  - intros ng Heq. now apply (record_negotiation_agreed call_id st rec).
Qed.

(** C6, as amended.  The [agreed] flag of the record's negotiation is true
    exactly when the [accepted] field of the latest [negotiation_complete]
    payload is the boolean True, a number equal to 1 (the integer 1 or the
    float 1.0, which Python's tuple membership equates with True), or one of
    the strings [true] and [True]; every other value, absence included, is
    not accepted. *)
Theorem negotiation_agreed_values (call_id : string) (st : store) (rec ng : pydict) :
  fst (_build_call_record call_id st) = Ok (VDict rec) ->
  dict_get rec "negotiation" = VDict ng ->
  let a := accepted_value (call_events st call_id) in
  (dict_get ng "agreed" = VBool true <->
     a = VBool true \/ a = VInt 1 \/ (exists f, a = VFloat f /\ float_eq_int f 1 = true)
     \/ a = VStr "true" \/ a = VStr "True") /\
  (dict_get ng "agreed" = VBool true \/ dict_get ng "agreed" = VBool false).
Proof.
  intros H Hng a.
  rewrite (record_negotiation_agreed call_id st rec ng H Hng). fold a.
  split; [|destruct (accepted_of a); auto].
  rewrite <- accepted_of_cases. split; [now inversion 1|now intros ->].
Qed.

(** The duration of a record, where the builder returns one: it defaults to
    the span from the first to the last event of the call in whole seconds,
    floored at zero and 0 when a timestamp does not parse; a non-negative
    integer [call_duration_seconds] in the latest [call_classified] payload
    replaces it exactly, a negative one does not; a float or a numeric string
    is converted to an int first ([safe_number_convert]), and it is the int
    that is tested and recorded. *)
Theorem call_duration_rule (call_id : string) (st : store) (rec : pydict) :
  fst (_build_call_record call_id st) = Ok (VDict rec) ->
  let evs := call_events st call_id in
  exists first_event span,
    hd_error evs = Some first_event /\
    span = match iso_span_seconds
                   (PyStr.replace_char "Z" "+00:00" (timestamp (List.last evs first_event)))
                   (PyStr.replace_char "Z" "+00:00" (timestamp first_event)) with
           | Some d => Z.max 0 d
           | None => 0
           end /\
    0 <= span /\
    (reported_seconds evs = VNone -> dict_get rec "call_duration_seconds" = VInt span) /\
    (forall n, reported_seconds evs = VInt n -> 0 <= n ->
               dict_get rec "call_duration_seconds" = VInt n) /\
    (forall n, reported_seconds evs = VInt n -> n < 0 ->
               dict_get rec "call_duration_seconds" = VInt span) /\
    (forall x n, reported_seconds evs = VFloat x -> int_of_float x = Ok n -> 0 <= n ->
                 dict_get rec "call_duration_seconds" = VInt n) /\
    (forall s n, reported_seconds evs = VStr s -> PyStr.is_empty (PyStr.strip s) = false ->
                 int_of_str (PyStr.strip s) = Some n -> 0 <= n ->
                 dict_get rec "call_duration_seconds" = VInt n) /\
    (exists d, dict_get rec "call_duration_seconds" = VInt d /\ 0 <= d).
Proof.
  intros H evs.
  destruct (build_record_facts _ _ _ H)
    as (first_event & neg & load0 & negotiation & duration & Hhd & _ & _ & _ & _
        & (classified & Hc & Hd) & _ & _ & _ & _ & _ & Hdur).
  fold evs in Hhd, Hc, Hd.
  exists first_event, (span_seconds (timestamp first_event) (timestamp (List.last evs first_event))).
  assert (Hspan : 0 <= span_seconds (timestamp first_event)
                                    (timestamp (List.last evs first_event))).
  { unfold span_seconds. destruct (iso_span_seconds _ _); lia. }
  rewrite Hdur. unfold reported_duration in Hd.
  rewrite (as_dict_or_empty_field _ _ "call_duration_seconds" Hc) in Hd.
  fold (reported_seconds evs) in Hd.
  split; [exact Hhd|]. split; [reflexivity|]. split; [exact Hspan|].
  repeat split.
  - intros E. rewrite E in Hd. congruence.
  - intros n E Hn. rewrite E in Hd. simpl in Hd.
    destruct (0 <=? n) eqn:En; [congruence|]. apply Z.leb_gt in En. lia.
  - intros n E Hn. rewrite E in Hd. simpl in Hd.
    destruct (0 <=? n) eqn:En; [|congruence]. apply Z.leb_le in En. lia.
  - intros x n E Hx Hn. rewrite E in Hd. simpl in Hd. rewrite Hx in Hd. simpl in Hd.
    destruct (0 <=? n) eqn:En; [congruence|]. apply Z.leb_gt in En. lia.
  - intros s n E He Hs Hn. rewrite E in Hd. simpl in Hd.
    rewrite He, Hs in Hd. simpl in Hd.
    destruct (0 <=? n) eqn:En; [congruence|]. apply Z.leb_gt in En. lia.
  - exists duration. split; [reflexivity|].
    destruct (reported_seconds evs) eqn:E; simpl in Hd;
      try (inversion Hd; subst; exact Hspan).
    all: unfold mbind, res_mbind, res_bind in Hd.
    all: repeat match type of Hd with
           | context [match ?x with _ => _ end] => destruct x eqn:?; try discriminate
           end.
    all: inversion Hd; subst; try exact Hspan; try (apply Z.leb_le; assumption).
Qed.

(** C10, as amended.  When the latest [negotiation_complete] event of a
    call has a payload that decodes to an empty mapping or does not decode,
    the builder chooses the outcome as if the call had no negotiation event:
    the outcome is [dropped] whenever eligibility is not the boolean False,
    and a record with a matched load still carries a negotiation with
    [agreed] false and [rounds] 0.  An earlier such event is superseded. *)
Theorem empty_negotiation_is_dropped (call_id : string) (st : store) (rec : pydict)
        (e : event) :
  fst (_build_call_record call_id st) = Ok (VDict rec) ->
  let evs := call_events st call_id in
  latest_event evs "negotiation_complete" = Some e ->
  _parse_payload (text_column (payload e)) = VDict []
    \/ _parse_payload (text_column (payload e)) = VNone ->
  eligibility evs <> VBool false ->
  dict_get rec "outcome" = VStr "dropped" /\
  (dict_get rec "load_matched" <> VNone ->
   exists ng, dict_get rec "negotiation" = VDict ng /\
              dict_get ng "agreed" = VBool false /\
              dict_get ng "rounds" = VInt 0).
Proof.
  intros H evs He Hp Hel.
  destruct (build_record_facts _ _ _ H)
    as (first_event & neg & load0 & negotiation & duration & _ & Hn & Hl & Hg & Hb & _ & _
        & _ & _ & Hng & Ho & _).
  fold evs in Hn, Hl, Hg, Ho.
  assert (Hneg : neg = []).
  { unfold negotiation_payload, latest_payload in Hn. rewrite He in Hn.
    destruct Hp as [Hp|Hp]; rewrite Hp in Hn; now inversion Hn. }
  subst neg. split.
  - rewrite Ho. unfold outcome_of. simpl.
    destruct (eligibility evs) as [|[|]| | | | |]; try reflexivity. now destruct Hel.
  - intros Hm. rewrite Hng.
    pose proof (match_load_shape _ _ _ Hl (backfill_rate_none _ _ _ Hb Hm)) as Ht.
    apply negotiation_of_inv in Hg. rewrite Ht in Hg.
    destruct Hg as [[Hg _]|[_ (r & io & co & fr & Hr & Hg)]]; [discriminate|].
    subst negotiation. eexists. split; [reflexivity|]. split; [reflexivity|].
    cbn. unfold negotiation_rounds, py_or, dict_get in Hr. simpl in Hr. now inversion Hr.
Qed.

(** C9.  The builder is deterministic and writes nothing: a build leaves the
    three stores as they were, so a second build on the same call returns the
    same result, record or exception alike. *)
Theorem build_idempotent (call_id : string) (st : store) :
  let '(r1, st1) := _build_call_record call_id st in
  let '(r2, st2) := _build_call_record call_id st1 in
  st1 = st /\ st2 = st /\ r2 = r1.
Proof.
  pose proof (reads_only_build call_id st) as H1.
  destruct (_build_call_record call_id st) as [r1 st1] eqn:E1. simpl in H1. subst st1.
  rewrite E1. auto.
Qed.

(** ** Last write wins *)

(** A later row of the same call and event type exists. *)
Definition superseded (r : event_row) (later : list event_row) : bool :=
  existsb (fun r' => String.eqb (ev_call_id r') (ev_call_id r)
                     && String.eqb (ev_event_type r') (ev_event_type r)) later.

(** The events table with every row deleted that a later row of the same
    call and event type supersedes. *)
Fixpoint keep_last_of_type (rows : list event_row) : list event_row :=
  match rows with
  | [] => []
  | r :: later =>
      if superseded r later then keep_last_of_type later
      else r :: keep_last_of_type later
  end.

Definition prune_events (st : store) : store :=
  {| events := keep_last_of_type (events st);
     carrier_profiles := carrier_profiles st;
     call_search_prefs := call_search_prefs st |}.

(** The same on the events of one call. *)
Definition superseded_event (e : event) (later : list event) : bool :=
  existsb (fun e' => String.eqb (event_type e') (event_type e)) later.

Fixpoint keep_last_events (evs : list event) : list event :=
  match evs with
  | [] => []
  | e :: later =>
      if superseded_event e later then keep_last_events later
      else e :: keep_last_events later
  end.

Lemma superseded_select (call_id : string) (r : event_row) (later : list event_row) :
  ev_call_id r = call_id ->
  superseded r later =
  superseded_event {| event_type := ev_event_type r; payload := ev_payload r;
                      timestamp := ev_timestamp r |} (select_events call_id later).
Proof.
  intros <-. unfold superseded, superseded_event, select_events.
  induction later as [|r' later IH]; [reflexivity|]. simpl.
  destruct (String.eqb (ev_call_id r') (ev_call_id r)); simpl; [now rewrite IH|exact IH].
Qed.

Lemma select_events_cons (call_id : string) (r : event_row) (rows : list event_row) :
  select_events call_id (r :: rows) =
  if String.eqb (ev_call_id r) call_id
  then {| event_type := ev_event_type r; payload := ev_payload r;
          timestamp := ev_timestamp r |} :: select_events call_id rows
  else select_events call_id rows.
Proof.
  unfold select_events. simpl. now destruct (String.eqb (ev_call_id r) call_id).
Qed.

Lemma select_keep_last (call_id : string) (rows : list event_row) :
  select_events call_id (keep_last_of_type rows) =
  keep_last_events (select_events call_id rows).
Proof.
  induction rows as [|r later IH]; [reflexivity|].
  simpl keep_last_of_type. rewrite select_events_cons.
  destruct (String.eqb (ev_call_id r) call_id) eqn:E.
  - simpl keep_last_events.
    rewrite <- (superseded_select call_id r later) by now apply String.eqb_eq.
    destruct (superseded r later); [exact IH|].
    rewrite select_events_cons, E. now rewrite IH.
  - destruct (superseded r later); [exact IH|].
    rewrite select_events_cons, E. exact IH.
Qed.

Lemma find_append {A} (p : A -> bool) (l1 l2 : list A) :
  List.find p (l1 ++ l2) =
  match List.find p l1 with
  | Some x => Some x
  | None => List.find p l2
  end.
Proof.
  induction l1 as [|a l1 IH]; [reflexivity|]. simpl. now destruct (p a).
Qed.

Lemma latest_event_cons (e : event) (evs : list event) (key : string) :
  latest_event (e :: evs) key =
  match latest_event evs key with
  | Some x => Some x
  | None => if String.eqb (event_key e) key then Some e else None
  end.
Proof.
  unfold latest_event. simpl. rewrite find_append.
  destruct (List.find _ (rev evs)); [reflexivity|]. simpl.
  now destruct (String.eqb (event_key e) key).
Qed.

Lemma latest_event_none (evs : list event) (key : string) (e : event) :
  latest_event evs key = None -> In e evs -> String.eqb (event_key e) key = false.
Proof.
  unfold latest_event. intros H Hin.
  apply (find_none _ _ H). now apply in_rev in Hin.
Qed.

Lemma latest_event_keep_last (evs : list event) (key : string) :
  latest_event (keep_last_events evs) key = latest_event evs key.
Proof.
  induction evs as [|e later IH]; [reflexivity|].
  simpl. rewrite latest_event_cons.
  destruct (superseded_event e later) eqn:E.
  - rewrite IH. destruct (latest_event later key) eqn:El; [reflexivity|].
    unfold superseded_event in E. apply existsb_exists in E as (e' & Hin & He').
    apply String.eqb_eq in He'.
    pose proof (latest_event_none _ _ _ El Hin) as Hk.
    unfold event_key in *. rewrite He' in Hk. now rewrite Hk.
  - rewrite latest_event_cons, IH. reflexivity.
Qed.

Lemma group_by_type_lookup (evs : list event) (key : string) :
  group_by_type evs !! key =
  if PyStr.is_empty key then None
  else (fun e => (_parse_payload (text_column (payload e)), timestamp e))
         <$> latest_event evs key.
Proof.
  induction evs as [|e evs IH] using rev_ind.
  - unfold group_by_type. simpl. rewrite lookup_empty. now destruct (PyStr.is_empty key).
  - rewrite group_by_type_snoc, latest_event_snoc. unfold group_step.
    destruct (String.eqb (event_key e) key) eqn:E.
    + apply String.eqb_eq in E. rewrite E.
      destruct (PyStr.is_empty key); [exact IH|]. now rewrite lookup_insert_eq.
    + apply String.eqb_neq in E.
      destruct (PyStr.is_empty (event_key e)); [exact IH|].
      now rewrite lookup_insert_ne.
Qed.

Lemma group_by_type_keep_last (evs : list event) :
  group_by_type (keep_last_events evs) = group_by_type evs.
Proof.
  apply map_eq. intros key.
  now rewrite !group_by_type_lookup, latest_event_keep_last.
Qed.

Lemma keep_last_events_last (evs : list event) (d d' : event) :
  evs <> [] ->
  keep_last_events evs <> [] /\
  List.last (keep_last_events evs) d' = List.last evs d.
Proof.
  induction evs as [|e later IH]; [congruence|]. intros _.
  destruct later as [|e' later'].
  - simpl. split; [discriminate|reflexivity].
  - destruct IH as [IH1 IH2]; [discriminate|].
    change (keep_last_events (e :: e' :: later'))
      with (if superseded_event e (e' :: later') then keep_last_events (e' :: later')
            else e :: keep_last_events (e' :: later')).
    change (List.last (e :: e' :: later') d) with (List.last (e' :: later') d).
    destruct (superseded_event e (e' :: later')); [now split|].
    split; [discriminate|].
    destruct (keep_last_events (e' :: later')) eqn:Ek; [congruence|exact IH2].
Qed.

Lemma dict_get_cons (k' : string) (v : pyval) (d : pydict) (k : string) :
  dict_get ((k', v) :: d) k = if String.eqb k' k then v else dict_get d k.
Proof. unfold dict_get. simpl. now destruct (String.eqb k' k). Qed.

Lemma carrier_identity_prune (verify : pydict) (st : store) :
  fst (carrier_identity verify (prune_events st)) = fst (carrier_identity verify st).
Proof.
  unfold carrier_identity, mbind, M_mbind, lift, mret, M_mret, get_carrier_profile.
  destruct (as_dict _); simpl; [|reflexivity].
  destruct (_ && _); simpl; [|reflexivity].
  destruct (sqlite_adapt _); reflexivity.
Qed.

Lemma reported_duration_any_span (classified : pydict) (span span' duration : Z) :
  reported_duration classified span = Ok duration ->
  exists duration', reported_duration classified span' = Ok duration'.
Proof.
  unfold reported_duration, mbind, res_mbind, res_bind.
  destruct (dict_get classified "call_duration_seconds"); eauto;
    destruct (safe_number_convert _ TInt) as [[| |r| | | |]|]; eauto; try discriminate;
    destruct (0 <=? r); eauto.
Qed.

(** C4, as amended.  For every event type the builder reads only the
    payload of the most recently stored event of that type, by store order
    and whatever the timestamps say.  Deleting the superseded events of each
    type therefore leaves every field of the record as it was, except the two
    that are read off the first and last events of the whole sequence:
    [timestamp], and [call_duration_seconds]; these are unchanged as well
    when the first event of the call is not one of the deleted ones. *)
Theorem last_write_wins (call_id : string) (st : store) (rec : pydict) :
  fst (_build_call_record call_id st) = Ok (VDict rec) ->
  let evs := call_events st call_id in
  (forall key, PyStr.is_empty key = false ->
     entry_payload (group_by_type evs) key = latest_payload evs key) /\
  exists rec',
    fst (_build_call_record call_id (prune_events st)) = Ok (VDict rec') /\
    (forall k, k <> "timestamp" -> k <> "call_duration_seconds" ->
               dict_get rec' k = dict_get rec k) /\
    (hd_error (call_events (prune_events st) call_id) = hd_error evs -> rec' = rec).
Proof.
  intros H evs. split; [intros key Hk; now apply entry_payload_latest|].
  apply build_ok_iff in H. fold evs in H.
  assert (Hpr : call_events (prune_events st) call_id = keep_last_events evs)
    by apply select_keep_last.
  destruct evs as [|first_event rest] eqn:Hev; [discriminate|].
  destruct H as (classified & duration & verify & eligible & mc_number & carrier_name & neg
                 & load0 & negotiation & load_matched & sentiment & tone & reasoning & prefs
                 & Hc & Hd & Hv & Hci & Hn & Hl & Hg & Hb & Hs & Hp & Hrec).
  destruct (keep_last_events (first_event :: rest)) as [|first' rest'] eqn:Hk.
  { now destruct (keep_last_events_last (first_event :: rest) first_event first_event). }
  destruct (reported_duration_any_span _ _
              (span_seconds (timestamp first')
                 (timestamp (List.last (first' :: rest') first'))) _ Hd)
    as [duration' Hd'].
  eexists. split; [|split].
  - apply build_ok_iff. rewrite Hpr.
    unfold record_built. rewrite <- Hk, group_by_type_keep_last, Hk.
    exists classified, duration', verify, eligible, mc_number, carrier_name, neg,
           load0, negotiation, load_matched, sentiment, tone, reasoning, prefs.
    rewrite carrier_identity_prune.
    repeat (split; [eassumption|]). reflexivity.
  - intros k Hk1 Hk2. inversion Hrec; subst rec.
    apply String.eqb_neq in Hk1, Hk2. rewrite String.eqb_sym in Hk1, Hk2.
    rewrite !dict_get_cons, Hk1, Hk2. reflexivity.
  - intros Hhd. rewrite Hpr in Hhd. simpl in Hhd. inversion Hhd; subst first'.
    inversion Hrec; subst rec.
    destruct (keep_last_events_last (first_event :: rest) first_event first_event)
      as [_ Hlast]; [discriminate|].
    rewrite Hk in Hlast. rewrite Hlast in Hd'. rewrite Hd in Hd'.
    inversion Hd'; subst. reflexivity.
Qed.
End Engine.


(** * A reference implementation of the library interface

    [cpython] implements [PyLib] the way CPython behaves on ASCII input:
    floats are IEEE binary64 values ([spec_float] at precision 53), decimal
    text is rounded to the nearest float by exact integer arithmetic, the
    JSON decoder follows the grammar of the [json] module's scanner, and
    time stamps follow the format [datetime.isoformat] writes.  It is what
    concrete inputs are run on; no general theorem depends on it. *)

Module Ref.

Abbreviation value := (pyval_ spec_float).

Definition prec : Z := 53.
Definition emax : Z := 1024.

(** *** Floats *)

Definition float_of_Z (z : Z) : spec_float := binary_normalize prec emax z 0 false.

(** [float(z)]: an int too large for a float raises. *)
Definition float_of_int (z : Z) : option spec_float :=
  match float_of_Z z with
  | S754_infinity _ => None
  | f => Some f
  end.

(** [int(x)]: truncation towards zero. *)
Definition int_of_float (x : spec_float) : res Z :=
  match x with
  | S754_zero _ => Ok 0
  | S754_infinity _ => Raise OverflowError
  | S754_nan => Raise ValueError
  | S754_finite s m e =>
      let a := if 0 <=? e then Zpos m * 2 ^ e else Zpos m / 2 ^ (- e) in
      Ok (if s then - a else a)
  end.

Definition float_eq_int (x : spec_float) (z : Z) : bool :=
  match x with
  | S754_zero _ => z =? 0
  | S754_finite s m e =>
      let v := if s then Zneg m else Zpos m in
      if 0 <=? e then v * 2 ^ e =? z else v =? z * 2 ^ (- e)
  | _ => false
  end.

Definition float_gt_zero (x : spec_float) : bool :=
  match x with
  | S754_finite false _ _ | S754_infinity false => true
  | _ => false
  end.

(** The float nearest to [m * 10 ^ e10] ([m] not negative), sign [neg]:
    exact for a non-negative exponent, and by a quotient of at least 64 bits
    with the position of the remainder otherwise. *)
Definition decimal_to_float (neg : bool) (m : Z) (e10 : Z) : spec_float :=
  if m <=? 0 then S754_zero neg
  else if 0 <=? e10 then
    if 400 <? e10 then S754_infinity neg
    else binary_normalize prec emax ((if neg then - m else m) * 10 ^ e10) 0 false
  else
    let k := - e10 in
    if 1100 <? 3 * k - Z.log2 m then S754_zero neg
    else
      let d := 10 ^ k in
      let s := Z.max 0 (65 + Z.log2 d - Z.log2 m) in
      let n := m * 2 ^ s in
      let q := n / d in
      let r := n mod d in
      let loc := if r =? 0 then loc_Exact else loc_Inexact (2 * r ?= d) in
      binary_round_aux prec emax neg q (- s) loc.

(** *** Decimal text *)

Definition is_digit (c : ascii) : bool :=
  let x := PyStr.code c in ((48 <=? x) && (x <=? 57))%N.

Definition digit_val (c : ascii) : Z := Z.of_N (PyStr.code c) - 48.

(** Digits after a first one, single underscores allowed between digits:
    the value, the number of digits and the rest. *)
Fixpoint digits_acc (acc : Z) (n : Z) (s : string) : Z * Z * string :=
  match s with
  | String c r =>
      if is_digit c then digits_acc (10 * acc + digit_val c) (n + 1) r
      else if Ascii.eqb c "_" then
        match r with
        | String c' r' =>
            if is_digit c' then digits_acc (10 * acc + digit_val c') (n + 1) r'
            else (acc, n, s)
        | EmptyString => (acc, n, s)
        end
      else (acc, n, s)
  | EmptyString => (acc, n, s)
  end.

Definition scan_digits (s : string) : option (Z * Z * string) :=
  match s with
  | String c r => if is_digit c then Some (digits_acc (digit_val c) 1 r) else None
  | EmptyString => None
  end.

(** An optional sign: whether it is a minus, and the rest. *)
Definition scan_sign (s : string) : bool * string :=
  match s with
  | String c r =>
      if Ascii.eqb c "-" then (true, r)
      else if Ascii.eqb c "+" then (false, r)
      else (false, s)
  | EmptyString => (false, s)
  end.

(** [int(s)] for a str, base 10, on ASCII digits.  The digits of other
    scripts and the underscores [int] also reads, and its limit on the number
    of digits, are left out: the texts concerned are not read here. *)
Definition int_of_str (s : string) : option Z :=
  let '(neg, r) := scan_sign (PyStr.strip s) in
  match scan_digits r with
  | Some (v, _, EmptyString) => Some (if neg then - v else v)
  | _ => None
  end.

(** An optional exponent part: its value and the rest, [None] when the text
    after the letter is no exponent. *)
Definition scan_exponent (s : string) : option (Z * string) :=
  match s with
  | String c r =>
      if Ascii.eqb c "e" || Ascii.eqb c "E" then
        let '(neg, r') := scan_sign r in
        match scan_digits r' with
        | Some (v, _, rest) => Some (if neg then - v else v, rest)
        | None => None
        end
      else Some (0, s)
  | EmptyString => Some (0, s)
  end.

(** [float(s)] for a str. *)
Definition float_of_str (s : string) : option spec_float :=
  let '(neg, r) := scan_sign (PyStr.strip s) in
  let low := PyStr.lower r in
  if String.eqb low "inf" || String.eqb low "infinity" then Some (S754_infinity neg)
  else if String.eqb low "nan" then Some S754_nan
  else
    let '(int_part, r1) :=
      match scan_digits r with
      | Some (v, _, r1) => (Some v, r1)
      | None => (None, r)
      end in
    let '(frac_part, r2) :=
      match r1 with
      | String c r' =>
          if Ascii.eqb c "." then
            match scan_digits r' with
            | Some (v, n, r2) => (Some (v, n), r2)
            | None => (Some (0, 0), r')
            end
          else (None, r1)
      | EmptyString => (None, r1)
      end in
    match int_part, frac_part with
    | None, None | None, Some (_, 0) => None
    | _, _ =>
        let i := default 0 int_part in
        let '(f, n) := default (0, 0) frac_part in
        match scan_exponent r2 with
        | Some (e, EmptyString) => Some (decimal_to_float neg (i * 10 ^ n + f) (e - n))
        | _ => None
        end
    end.

(** *** The JSON decoder

    The grammar of [json.loads] as the scanner of the [json] module reads
    it: white space is space, tab, line feed and carriage return; a string
    may not hold a raw control character; [NaN], [Infinity] and [-Infinity]
    are numbers; a number with a fraction or an exponent is a float, any
    other an int; a repeated key keeps its first position and its last
    value.  The interpreter's bound on nesting depth is not modelled. *)

Definition is_ws (c : ascii) : bool :=
  let x := PyStr.code c in ((x =? 32) || (x =? 9) || (x =? 10) || (x =? 13))%N.

Fixpoint skip_ws (s : string) : string :=
  match s with
  | String c r => if is_ws c then skip_ws r else s
  | EmptyString => s
  end.

Definition hex_val (c : ascii) : option N :=
  let x := PyStr.code c in
  if ((48 <=? x) && (x <=? 57))%N then Some (x - 48)%N
  else if ((97 <=? x) && (x <=? 102))%N then Some (x - 87)%N
  else if ((65 <=? x) && (x <=? 70))%N then Some (x - 55)%N
  else None.

Definition hex4 (a b c d : ascii) : option N :=
  match hex_val a, hex_val b, hex_val c, hex_val d with
  | Some x, Some y, Some z, Some w => Some (((x * 16 + y) * 16 + z) * 16 + w)%N
  | _, _, _, _ => None
  end.

Definition byte_str (n : N) : string := String (ascii_of_N n) EmptyString.

(** The UTF-8 bytes of a code point (a lone surrogate is written like any
    other three-byte character). *)
Definition utf8_encode (cp : N) : string :=
  (if cp <? 128 then byte_str cp
   else if cp <? 2048 then byte_str (192 + cp / 64) +:+ byte_str (128 + cp mod 64)
   else if cp <? 65536 then
     byte_str (224 + cp / 4096) +:+ byte_str (128 + (cp / 64) mod 64)
     +:+ byte_str (128 + cp mod 64)
   else
     byte_str (240 + cp / 262144) +:+ byte_str (128 + (cp / 4096) mod 64)
     +:+ byte_str (128 + (cp / 64) mod 64) +:+ byte_str (128 + cp mod 64))%N.

(** The character a one-letter escape stands for. *)
Definition simple_escape (c : ascii) : option ascii :=
  let x := PyStr.code c in
  (if (x =? 34) || (x =? 92) || (x =? 47) then Some c
   else if x =? 98 then Some (ascii_of_N 8)
   else if x =? 102 then Some (ascii_of_N 12)
   else if x =? 110 then Some (ascii_of_N 10)
   else if x =? 114 then Some (ascii_of_N 13)
   else if x =? 116 then Some (ascii_of_N 9)
   else None)%N.

Definition prepend (p : string) (o : option (string * string)) : option (string * string) :=
  match o with
  | Some (t, rest) => Some (p +:+ t, rest)
  | None => None
  end.

Definition is_high_surrogate (cp : N) : bool := ((55296 <=? cp) && (cp <=? 56319))%N.
Definition is_low_surrogate (cp : N) : bool := ((56320 <=? cp) && (cp <=? 57343))%N.

(** The body of a string literal, after its opening quote: the decoded
    string and the text after the closing quote. *)
Fixpoint parse_string (s : string) : option (string * string) :=
  match s with
  | EmptyString => None
  | String c r =>
      if Ascii.eqb c PyStr.dquote then Some (EmptyString, r)
      else if Ascii.eqb c "\" then
        match r with
        | EmptyString => None
        | String e r1 =>
            if Ascii.eqb e "u" then
              match r1 with
              | String h1 (String h2 (String h3 (String h4 r2))) =>
                  match hex4 h1 h2 h3 h4 with
                  | None => None
                  | Some cp =>
                      if is_high_surrogate cp then
                        match r2 with
                        | String b (String u (String g1 (String g2 (String g3 (String g4 r3))))) =>
                            if Ascii.eqb b "\" && Ascii.eqb u "u" then
                              match hex4 g1 g2 g3 g4 with
                              | None => None
                              | Some cp2 =>
                                  if is_low_surrogate cp2 then
                                    prepend
                                      (utf8_encode (65536 + (cp - 55296) * 1024 + (cp2 - 56320))%N)
                                      (parse_string r3)
                                  else prepend (utf8_encode cp) (parse_string r2)
                              end
                            else prepend (utf8_encode cp) (parse_string r2)
                        | _ => prepend (utf8_encode cp) (parse_string r2)
                        end
                      else prepend (utf8_encode cp) (parse_string r2)
                  end
              | _ => None
              end
            else
              match simple_escape e with
              | Some ch => prepend (String ch EmptyString) (parse_string r1)
              | None => None
              end
        end
      else if (PyStr.code c <? 32)%N then None
      else prepend (String c EmptyString) (parse_string r)
  end.

(** A number: an optional minus, an integer part with no leading zero, an
    optional fraction and an optional exponent. *)
Fixpoint plain_digits (acc n : Z) (s : string) : Z * Z * string :=
  match s with
  | String c r => if is_digit c then plain_digits (10 * acc + digit_val c) (n + 1) r
                  else (acc, n, s)
  | EmptyString => (acc, n, s)
  end.

Definition scan_plain_digits (s : string) : option (Z * Z * string) :=
  match s with
  | String c r => if is_digit c then Some (plain_digits (digit_val c) 1 r) else None
  | EmptyString => None
  end.

Definition parse_number (s : string) : option (value * string) :=
  let '(neg, r) :=
    match s with
    | String c r => if Ascii.eqb c "-" then (true, r) else (false, s)
    | EmptyString => (false, s)
    end in
  let int_part :=
    match r with
    | String c r' =>
        if Ascii.eqb c "0" then Some (0, r')
        else match scan_plain_digits r with
             | Some (v, _, r1) => Some (v, r1)
             | None => None
             end
    | EmptyString => None
    end in
  match int_part with
  | None => None
  | Some (i, r1) =>
      let '(frac, r2) :=
        match r1 with
        | String c r' =>
            if Ascii.eqb c "." then
              match scan_plain_digits r' with
              | Some (v, n, r2) => (Some (v, n), r2)
              | None => (None, r1)
              end
            else (None, r1)
        | EmptyString => (None, r1)
        end in
      let '(exp, r3) :=
        match r2 with
        | String c r' =>
            if Ascii.eqb c "e" || Ascii.eqb c "E" then
              let '(eneg, r'') := scan_sign r' in
              match scan_plain_digits r'' with
              | Some (v, _, r3) => (Some (if eneg then - v else v), r3)
              | None => (None, r2)
              end
            else (None, r2)
        | EmptyString => (None, r2)
        end in
      match frac, exp with
      | None, None => Some (VInt (if neg then - i else i), r3)
      | _, _ =>
          let '(f, n) := default (0, 0) frac in
          Some (VFloat (decimal_to_float neg (i * 10 ^ n + f) (default 0 exp - n)), r3)
      end
  end.

(** [d[k] = v] on the pairs of an object being decoded. *)
Fixpoint set_member (d : list (string * value)) (k : string) (v : value)
  : list (string * value) :=
  match d with
  | [] => [(k, v)]
  | (k', v') :: d' =>
      if String.eqb k' k then (k', v) :: d' else (k', v') :: set_member d' k v
  end.

Fixpoint parse_value (fuel : nat) (s : string) : option (value * string) :=
  match fuel with
  | O => None
  | S fuel' =>
      match s with
      | EmptyString => None
      | String c r =>
          if Ascii.eqb c PyStr.dquote then
            match parse_string r with
            | Some (t, rest) => Some (VStr t, rest)
            | None => None
            end
          else if Ascii.eqb c "{" then
            match skip_ws r with
            | String c' r' =>
                if Ascii.eqb c' "}" then Some (VDict [], r')
                else match parse_members fuel' [] (skip_ws r) with
                     | Some (d, rest) => Some (VDict d, rest)
                     | None => None
                     end
            | EmptyString => None
            end
          else if Ascii.eqb c "[" then
            match skip_ws r with
            | String c' r' =>
                if Ascii.eqb c' "]" then Some (VList [], r')
                else match parse_elements fuel' (skip_ws r) with
                     | Some (l, rest) => Some (VList l, rest)
                     | None => None
                     end
            | EmptyString => None
            end
          else if String.prefix "null" s then Some (VNone, PyStr.drop_str 4 s)
          else if String.prefix "true" s then Some (VBool true, PyStr.drop_str 4 s)
          else if String.prefix "false" s then Some (VBool false, PyStr.drop_str 5 s)
          else if String.prefix "NaN" s then Some (VFloat S754_nan, PyStr.drop_str 3 s)
          else if String.prefix "Infinity" s
               then Some (VFloat (S754_infinity false), PyStr.drop_str 8 s)
          else if String.prefix "-Infinity" s
               then Some (VFloat (S754_infinity true), PyStr.drop_str 9 s)
          else parse_number s
      end
  end
with parse_elements (fuel : nat) (s : string) : option (list value * string) :=
  match fuel with
  | O => None
  | S fuel' =>
      match parse_value fuel' s with
      | None => None
      | Some (v, r1) =>
          match skip_ws r1 with
          | String c r2 =>
              if Ascii.eqb c "," then
                match parse_elements fuel' (skip_ws r2) with
                | Some (l, rest) => Some (v :: l, rest)
                | None => None
                end
              else if Ascii.eqb c "]" then Some ([v], r2)
              else None
          | EmptyString => None
          end
      end
  end
with parse_members (fuel : nat) (acc : list (string * value)) (s : string)
  : option (list (string * value) * string) :=
  match fuel with
  | O => None
  | S fuel' =>
      match s with
      | String q r =>
          if Ascii.eqb q PyStr.dquote then
            match parse_string r with
            | None => None
            | Some (k, r1) =>
                match skip_ws r1 with
                | String c r2 =>
                    if Ascii.eqb c ":" then
                      match parse_value fuel' (skip_ws r2) with
                      | None => None
                      | Some (v, r3) =>
                          let acc' := set_member acc k v in
                          match skip_ws r3 with
                          | String c' r4 =>
                              if Ascii.eqb c' "," then parse_members fuel' acc' (skip_ws r4)
                              else if Ascii.eqb c' "}" then Some (acc', r4)
                              else None
                          | EmptyString => None
                          end
                      end
                    else None
                | EmptyString => None
                end
            end
          else None
      | EmptyString => None
      end
  end.

(** [json.loads(s)] *)
Definition json_loads (s : string) : option value :=
  match parse_value (2 * String.length s + 2) (skip_ws s) with
  | Some (v, rest) =>
      match skip_ws rest with
      | EmptyString => Some v
      | _ => None
      end
  | None => None
  end.

(** [json.dumps(s)] for a str of printable ASCII: the text between quotes,
    a quote or a backslash in it escaped. *)
Fixpoint escape_body (s : string) : string :=
  match s with
  | String c r =>
      if Ascii.eqb c PyStr.dquote || Ascii.eqb c "\" then String "\" (String c (escape_body r))
      else String c (escape_body r)
  | EmptyString => EmptyString
  end.

Definition json_dumps_str (s : string) : string :=
  String PyStr.dquote (escape_body s) +:+ String PyStr.dquote EmptyString.

(** JSON text is written with apostrophes for its quotes. *)
Definition json (text : string) : string :=
  PyStr.replace_char "'" (String PyStr.dquote EmptyString) text.

(** *** Time stamps

    [datetime.fromisoformat] on the format [isoformat] writes:
    YYYY-MM-DD, then optionally one separator character and
    HH[:MM[:SS[.fff[fff]]]], then optionally an offset [+-]HH:MM[:SS[.ffffff]]. *)

Definition two_digits (s : string) : option (Z * string) :=
  match s with
  | String a (String b r) =>
      if is_digit a && is_digit b then Some (10 * digit_val a + digit_val b, r) else None
  | _ => None
  end.

Definition expect_char (c : ascii) (s : string) : option string :=
  match s with
  | String a r => if Ascii.eqb a c then Some r else None
  | EmptyString => None
  end.

(** HH[:MM[:SS[.fff[fff]]]] to the end of [s]: hours, minutes, seconds and
    microseconds. *)
Definition parse_hh_mm_ss_ff (s : string) : option (Z * Z * Z * Z) :=
  match two_digits s with
  | None => None
  | Some (hh, EmptyString) => Some (hh, 0, 0, 0)
  | Some (hh, r) =>
      match option_bind _ _ two_digits (expect_char ":" r) with
      | None => None
      | Some (mm, EmptyString) => Some (hh, mm, 0, 0)
      | Some (mm, r1) =>
          match option_bind _ _ two_digits (expect_char ":" r1) with
          | None => None
          | Some (ss, EmptyString) => Some (hh, mm, ss, 0)
          | Some (ss, r2) =>
              match expect_char "." r2 with
              | None => None
              | Some r3 =>
                  match scan_plain_digits r3 with
                  | Some (v, 3, EmptyString) => Some (hh, mm, ss, v * 1000)
                  | Some (v, 6, EmptyString) => Some (hh, mm, ss, v)
                  | _ => None
                  end
              end
          end
      end
  end.

Definition is_leap (y : Z) : bool :=
  (y mod 4 =? 0) && (negb (y mod 100 =? 0) || (y mod 400 =? 0)).

Definition days_in_month (y m : Z) : Z :=
  if m =? 2 then (if is_leap y then 29 else 28)
  else if (m =? 4) || (m =? 6) || (m =? 9) || (m =? 11) then 30 else 31.

(** Days from 1970-01-01 to the given date of the proleptic Gregorian
    calendar. *)
Definition days_from_civil (y m d : Z) : Z :=
  let y' := if m <=? 2 then y - 1 else y in
  let era := y' / 400 in
  let yoe := y' - era * 400 in
  let mp := (m + 9) mod 12 in
  let doy := (153 * mp + 2) / 5 + d - 1 in
  let doe := yoe * 365 + yoe / 4 - yoe / 100 + doy in
  era * 146097 + doe - 719468.

(** The position of the first sign character, splitting the time from the
    offset. *)
Fixpoint split_offset (s : string) : string * option (bool * string) :=
  match s with
  | EmptyString => (EmptyString, None)
  | String c r =>
      if Ascii.eqb c "+" then (EmptyString, Some (false, r))
      else if Ascii.eqb c "-" then (EmptyString, Some (true, r))
      else let '(t, o) := split_offset r in (String c t, o)
  end.

(** A parsed time stamp: whether it carries an offset, and its microseconds
    since the epoch (in UTC when it does).  The forms read are a date, or a
    date and a time with no fraction or a fraction of three or six digits,
    with or without an offset; the other forms [fromisoformat] reads are
    left out. *)
Definition fromisoformat (s : string) : option (bool * Z) :=
  match two_digits s with
  | None => None
  | Some (cc, r0) =>
  match two_digits r0 with
  | None => None
  | Some (yy, r1) =>
  match option_bind _ _ two_digits (expect_char "-" r1) with
  | None => None
  | Some (month, r2) =>
  match option_bind _ _ two_digits (expect_char "-" r2) with
  | None => None
  | Some (day, r3) =>
      let year := 100 * cc + yy in
      if negb ((1 <=? year) && (1 <=? month) && (month <=? 12)
               && (1 <=? day) && (day <=? days_in_month year month)) then None
      else
        let date_us := days_from_civil year month day * 86400000000 in
        match r3 with
        | EmptyString => Some (false, date_us)
        | String _ tstr =>
            match tstr with
            | EmptyString => Some (false, date_us)
            | _ =>
                let '(time_part, offset) := split_offset tstr in
                match parse_hh_mm_ss_ff time_part with
                | None => None
                | Some (hh, mm, ss, us) =>
                    if negb ((hh <=? 23) && (mm <=? 59) && (ss <=? 59)) then None
                    else
                      let local := date_us + ((hh * 60 + mm) * 60 + ss) * 1000000 + us in
                      match offset with
                      | None => Some (false, local)
                      | Some (neg, ostr) =>
                          if negb ((String.length ostr =? 5)%nat
                                   || (String.length ostr =? 8)%nat
                                   || (String.length ostr =? 15)%nat) then None
                          else
                            match parse_hh_mm_ss_ff ostr with
                            | None => None
                            | Some (oh, om, os, ous) =>
                                let off := ((oh * 60 + om) * 60 + os) * 1000000 + ous in
                                if 86400000000 <=? off then None
                                else Some (true, local - (if neg then - off else off))
                            end
                      end
                end
            end
        end
  end end end end.

(** [int((fromisoformat(a) - fromisoformat(b)).total_seconds())]: the
    difference needs both or neither to carry an offset; [total_seconds] is
    the float nearest to the microseconds over a million. *)
Definition iso_span_seconds (a b : string) : option Z :=
  match fromisoformat a, fromisoformat b with
  | Some (aware_a, ua), Some (aware_b, ub) =>
      if Bool.eqb aware_a aware_b then
        let us := ua - ub in
        match int_of_float (decimal_to_float (us <? 0) (Z.abs us) (-6)) with
        | Ok z => Some z
        | Raise _ => None
        end
      else None
  | _, _ => None
  end.

(** *** The text of a REAL

    SQLite writes a REAL with fifteen significant digits, always with a
    decimal point, in exponent form when the decimal exponent is below -4 or
    above 14; a NaN is bound as NULL. *)

Definition Z_to_string (z : Z) : string := NilZero.string_of_int (Z.to_int z).

(** [floor (m * 2 ^ e / 10 ^ p)] and whether to round it up to the nearest,
    ties to even. *)
Definition scaled (m e p : Z) : Z :=
  let n := m * 2 ^ (Z.max e 0) * 10 ^ (Z.max (- p) 0) in
  let d := 2 ^ (Z.max (- e) 0) * 10 ^ (Z.max p 0) in
  let q := n / d in
  match 2 * (n mod d) ?= d with
  | Lt => q
  | Eq => if Z.even q then q else q + 1
  | Gt => q + 1
  end.

Definition floor_scaled (m e p : Z) : Z :=
  (m * 2 ^ (Z.max e 0) * 10 ^ (Z.max (- p) 0)) / (2 ^ (Z.max (- e) 0) * 10 ^ (Z.max p 0)).

(** The decimal exponent of [m * 2 ^ e]. *)
Definition decimal_exponent (m e : Z) : Z :=
  let x := ((Z.log2 m + e) * 30103) / 100000 in
  if floor_scaled m e (x + 1) >=? 1 then x + 1
  else if floor_scaled m e x >=? 1 then x
  else x - 1.

Fixpoint strip_zeros (fuel : nat) (digits : Z) : Z :=
  match fuel with
  | O => digits
  | S fuel' => if (digits mod 10 =? 0) && negb (digits =? 0)
               then strip_zeros fuel' (digits / 10) else digits
  end.

Fixpoint zeros (n : nat) : string :=
  match n with
  | O => EmptyString
  | S n' => String "0" (zeros n')
  end.

Definition float_sql_text (x : spec_float) : option string :=
  match x with
  | S754_nan => None
  | S754_zero s => Some (if s then "-0.0" else "0.0")
  | S754_infinity s => Some (if s then "-Inf" else "Inf")
  | S754_finite s m e =>
      let x0 := decimal_exponent (Zpos m) e in
      let d0 := scaled (Zpos m) e (x0 - 14) in
      let '(d, x) := if d0 >=? 10 ^ 15 then (10 ^ 14, x0 + 1) else (d0, x0) in
      let sig := Z_to_string (strip_zeros 15 d) in
      let body :=
        if (x <? -4) || (14 <? x) then
          PyStr.take_str 1 sig +:+ "."
          +:+ (match PyStr.drop_str 1 sig with EmptyString => "0" | t => t end)
          +:+ "e" +:+ (if x <? 0 then "-" else "+")
          +:+ (if Z.abs x <? 10 then "0" else "") +:+ Z_to_string (Z.abs x)
        else if x <? 0 then
          "0." +:+ zeros (Z.to_nat (- x - 1)) +:+ sig
        else
          let int_len := Z.to_nat (x + 1) in
          PyStr.take_str int_len (sig +:+ zeros int_len) +:+ "."
          +:+ (match PyStr.drop_str int_len sig with EmptyString => "0" | t => t end)
      in
      Some ((if s then "-" else "") +:+ body)
  end.

(** *** The decoder shortens strings *)

Lemma utf8_encode_length (cp : N) : (String.length (utf8_encode cp) <= 4)%nat.
Proof.
  unfold utf8_encode, byte_str.
  repeat match goal with |- context [if ?b then _ else _] => destruct b end;
    simpl; lia.
Qed.

Lemma append_length (a b : string) :
  String.length (a +:+ b) = (String.length a + String.length b)%nat.
Proof. induction a as [|c a IH]; simpl; [reflexivity|now rewrite IH]. Qed.

Lemma prepend_some (p : string) (o : option (string * string)) (t rest : string) :
  prepend p o = Some (t, rest) ->
  exists t', o = Some (t', rest) /\ t = p +:+ t'.
Proof.
  destruct o as [[t' rest']|]; simpl; [|discriminate].
  intros H. inversion H; subst. eauto.
Qed.

Lemma parse_string_length (n : nat) :
  forall s t rest,
  (String.length s <= n)%nat ->
  parse_string s = Some (t, rest) ->
  (String.length t + String.length rest + 1 <= String.length s)%nat.
Proof.
  induction n as [|n IH]; intros s t rest Hn H.
  { destruct s; simpl in *; [discriminate|lia]. }
  destruct s as [|c r]; [discriminate|]. simpl in H.
  destruct (Ascii.eqb c PyStr.dquote).
  { inversion H; subst. simpl. lia. }
  destruct (Ascii.eqb c "\").
  - destruct r as [|e r1]; [discriminate|].
    destruct (Ascii.eqb e "u").
    + destruct r1 as [|h1 [|h2 [|h3 [|h4 r2]]]]; try discriminate.
      destruct (hex4 h1 h2 h3 h4) as [cp|]; [|discriminate].
      assert (Hplain : forall t rest,
                 prepend (utf8_encode cp) (parse_string r2) = Some (t, rest) ->
                 (String.length t + String.length rest + 1
                  <= String.length (String c (String e (String h1 (String h2
                                     (String h3 (String h4 r2)))))))%nat).
      { intros t0 rest0 H0. apply prepend_some in H0 as (t' & H0 & ->).
        apply IH in H0; [|simpl in *; lia].
        rewrite append_length. pose proof (utf8_encode_length cp). simpl. lia. }
      destruct (is_high_surrogate cp); [|now apply Hplain].
      destruct r2 as [|b [|u [|g1 [|g2 [|g3 [|g4 r3]]]]]]; try now apply Hplain.
      destruct (Ascii.eqb b "\" && Ascii.eqb u "u"); [|now apply Hplain].
      destruct (hex4 g1 g2 g3 g4) as [cp2|]; [|discriminate].
      destruct (is_low_surrogate cp2); [|now apply Hplain].
      apply prepend_some in H as (t' & H & ->).
      apply IH in H; [|simpl in *; lia].
      rewrite append_length.
      pose proof (utf8_encode_length (65536 + (cp - 55296) * 1024 + (cp2 - 56320))).
      simpl. lia.
    + destruct (simple_escape e); [|discriminate].
      apply prepend_some in H as (t' & H & ->).
      apply IH in H; [|simpl in *; lia]. rewrite append_length. simpl. lia.
  - destruct (PyStr.code c <? 32)%N; [discriminate|].
    apply prepend_some in H as (t' & H & ->).
    apply IH in H; [|simpl in *; lia]. rewrite append_length. simpl. lia.
Qed.

Definition elements_weight (l : list value) : nat := list_sum (map pyweight l).

Definition members_weight (d : list (string * value)) : nat :=
  list_sum (map (fun kv => (S (String.length (fst kv)) + pyweight (snd kv))%nat) d).

Lemma members_weight_cons (k : string) (v : value) (d : list (string * value)) :
  members_weight ((k, v) :: d)
  = (S (String.length k) + pyweight v + members_weight d)%nat.
Proof. reflexivity. Qed.

Lemma elements_weight_cons (v : value) (l : list value) :
  elements_weight (v :: l) = (pyweight v + elements_weight l)%nat.
Proof. reflexivity. Qed.

Lemma set_member_weight (d : list (string * value)) (k : string) (v : value) :
  (members_weight (set_member d k v)
   <= members_weight d + S (String.length k) + pyweight v)%nat.
Proof.
  induction d as [|[k' v'] d IH].
  - change (set_member [] k v) with [(k, v)]. rewrite members_weight_cons.
    change (members_weight []) with 0%nat. lia.
  - change (set_member ((k', v') :: d) k v)
      with (if String.eqb k' k then (k', v) :: d else (k', v') :: set_member d k v).
    destruct (String.eqb k' k) eqn:E; rewrite !members_weight_cons.
    + apply String.eqb_eq in E. subst. lia.
    + lia.
Qed.

Lemma skip_ws_length (s : string) : (String.length (skip_ws s) <= String.length s)%nat.
Proof.
  induction s as [|c r IH]; simpl; [lia|]. destruct (is_ws c); simpl; lia.
Qed.

Lemma skip_ws_cons (s : string) (c : ascii) (r : string) :
  skip_ws s = String c r -> (S (String.length r) <= String.length s)%nat.
Proof. intros H. pose proof (skip_ws_length s) as Hl. rewrite H in Hl. exact Hl. Qed.

Lemma plain_digits_length (s : string) :
  forall acc n v k rest,
  plain_digits acc n s = (v, k, rest) -> (String.length rest <= String.length s)%nat.
Proof.
  induction s as [|c r IH]; intros acc n v k rest H; simpl in H.
  - inversion H; subst. simpl. lia.
  - destruct (is_digit c).
    + apply IH in H. simpl. lia.
    + inversion H; subst. lia.
Qed.

Lemma scan_plain_digits_length (s : string) (v k : Z) (rest : string) :
  scan_plain_digits s = Some (v, k, rest) -> (S (String.length rest) <= String.length s)%nat.
Proof.
  destruct s as [|c r]; simpl; [discriminate|].
  destruct (is_digit c); [|discriminate].
  intros H. inversion H as [H']. apply plain_digits_length in H'. lia.
Qed.

Lemma scan_sign_length (s : string) (b : bool) (r : string) :
  scan_sign s = (b, r) -> (String.length r <= String.length s)%nat.
Proof.
  destruct s as [|c s']; simpl.
  - intros H. inversion H; subst. simpl. lia.
  - destruct (Ascii.eqb c "-"); [intros H; inversion H; subst; lia|].
    destruct (Ascii.eqb c "+"); intros H; inversion H; subst; simpl; lia.
Qed.

(** A number is read off at least one character and weighs one. *)
Lemma parse_number_weight (s : string) (v : value) (rest : string) :
  parse_number s = Some (v, rest) ->
  (pyweight v + String.length rest <= String.length s)%nat.
Proof.
  unfold parse_number.
  destruct (match s with
            | String c r => if Ascii.eqb c "-" then (true, r) else (false, s)
            | EmptyString => (false, s)
            end) as [neg r] eqn:Hsign.
  assert (Hr : (String.length r <= String.length s)%nat).
  { destruct s as [|c s']; [inversion Hsign; subst; lia|].
    destruct (Ascii.eqb c "-"); inversion Hsign; subst; simpl; lia. }
  destruct (match r with
            | String c r' =>
                if Ascii.eqb c "0" then Some (0, r')
                else match scan_plain_digits r with
                     | Some (v, _, r1) => Some (v, r1)
                     | None => None
                     end
            | EmptyString => None
            end) as [[i r1]|] eqn:Hint; [|discriminate].
  assert (Hr1 : (S (String.length r1) <= String.length r)%nat).
  { destruct r as [|c r']; [discriminate|].
    destruct (Ascii.eqb c "0"); [inversion Hint; subst; simpl; lia|].
    destruct (scan_plain_digits (String c r')) as [[[v0 k0] r0]|] eqn:E; [|discriminate].
    inversion Hint; subst. now apply scan_plain_digits_length in E. }
  destruct (match r1 with
            | String c r' =>
                if Ascii.eqb c "." then
                  match scan_plain_digits r' with
                  | Some (v, n, r2) => (Some (v, n), r2)
                  | None => (None, r1)
                  end
                else (None, r1)
            | EmptyString => (None, r1)
            end) as [frac r2] eqn:Hfrac.
  assert (Hr2 : (String.length r2 <= String.length r1)%nat).
  { destruct r1 as [|c r']; [inversion Hfrac; subst; lia|].
    destruct (Ascii.eqb c "."); [|inversion Hfrac; subst; lia].
    destruct (scan_plain_digits r') as [[[v0 k0] r0]|] eqn:E;
      inversion Hfrac; subst; [|lia].
    apply scan_plain_digits_length in E. simpl. lia. }
  destruct (match r2 with
            | String c r' =>
                if Ascii.eqb c "e" || Ascii.eqb c "E" then
                  let '(eneg, r'') := scan_sign r' in
                  match scan_plain_digits r'' with
                  | Some (v, _, r3) => (Some (if eneg then - v else v), r3)
                  | None => (None, r2)
                  end
                else (None, r2)
            | EmptyString => (None, r2)
            end) as [exp r3] eqn:Hexp.
  assert (Hr3 : (String.length r3 <= String.length r2)%nat).
  { destruct r2 as [|c r']; [inversion Hexp; subst; lia|].
    destruct (Ascii.eqb c "e" || Ascii.eqb c "E"); [|inversion Hexp; subst; lia].
    destruct (scan_sign r') as [eneg r''] eqn:Es.
    apply scan_sign_length in Es.
    destruct (scan_plain_digits r'') as [[[v0 k0] r0]|] eqn:E;
      inversion Hexp; subst; [|lia].
    apply scan_plain_digits_length in E. simpl. lia. }
  destruct frac as [[f n]|]; destruct exp as [e|]; intros H; inversion H; subst;
    simpl; lia.
Qed.

Lemma prefix_length (p s : string) :
  String.prefix p s = true -> (String.length p <= String.length s)%nat.
Proof.
  revert s. induction p as [|a p IH]; intros s H; [simpl; lia|].
  destruct s as [|b s]; simpl in H; [discriminate|].
  destruct (ascii_dec a b); [|discriminate]. apply IH in H. simpl. lia.
Qed.

Lemma drop_str_length (n : nat) (s : string) :
  String.length (PyStr.drop_str n s) = (String.length s - n)%nat.
Proof.
  revert s. induction n as [|n IH]; intros s; simpl.
  - destruct s; simpl; lia.
  - destruct s as [|c r]; simpl; [reflexivity|apply IH].
Qed.

Lemma literal_weight (p s : string) (n : nat) :
  String.prefix p s = true -> String.length p = n -> (1 <= n)%nat ->
  (1 + String.length (PyStr.drop_str n s) <= String.length s)%nat.
Proof.
  intros H Hn Hpos. apply prefix_length in H. rewrite drop_str_length. lia.
Qed.

#[local] Arguments PyStr.drop_str : simpl never.
#[local] Arguments String.prefix : simpl never.

(** What the decoder reads is at least as long as what it returns weighs. *)
Lemma parse_weight (fuel : nat) :
  (forall s v rest,
     parse_value fuel s = Some (v, rest) ->
     (pyweight v + String.length rest <= String.length s)%nat) /\
  (forall s l rest,
     parse_elements fuel s = Some (l, rest) ->
     (elements_weight l + String.length rest + 1 <= String.length s)%nat) /\
  (forall acc s d rest,
     parse_members fuel acc s = Some (d, rest) ->
     (members_weight d + String.length rest + 1
      <= members_weight acc + String.length s)%nat).
Proof.
  induction fuel as [|fuel (IHv & IHe & IHm)];
    [repeat split; intros; discriminate|].
  split; [|split].
  - intros s v rest. simpl. destruct s as [|c r]; [discriminate|].
    destruct (Ascii.eqb c PyStr.dquote).
    { destruct (parse_string r) as [[t rest']|] eqn:E; [|discriminate].
      intros Hp. inversion Hp; subst.
      apply (parse_string_length (String.length r)) in E; [|lia]. simpl. lia. }
    destruct (Ascii.eqb c "{").
    { destruct (skip_ws r) as [|c' r'] eqn:Ews; [discriminate|].
      pose proof (skip_ws_cons _ _ _ Ews).
      destruct (Ascii.eqb c' "}"); [intros Hp; inversion Hp; subst; simpl; lia|].
      destruct (parse_members fuel [] (String c' r')) as [[d rest']|] eqn:E; [|discriminate].
      intros Hp. inversion Hp; subst. apply IHm in E.
      change (pyweight (VDict d)) with (S (members_weight d)).
      change (members_weight []) with 0%nat in E. simpl in *. lia. }
    destruct (Ascii.eqb c "[").
    { destruct (skip_ws r) as [|c' r'] eqn:Ews; [discriminate|].
      pose proof (skip_ws_cons _ _ _ Ews).
      destruct (Ascii.eqb c' "]"); [intros Hp; inversion Hp; subst; simpl; lia|].
      destruct (parse_elements fuel (String c' r')) as [[l rest']|] eqn:E; [|discriminate].
      intros Hp. inversion Hp; subst. apply IHe in E.
      change (pyweight (VList l)) with (S (elements_weight l)). simpl in *. lia. }
    repeat match goal with
           | |- context [if String.prefix ?p ?t then _ else _] =>
               destruct (String.prefix p t) eqn:?;
               [intros Hp; inversion Hp; subst;
                eapply (literal_weight p); [eassumption|reflexivity|simpl; lia] |]
           end.
    apply parse_number_weight.
  - intros s l rest. simpl.
    destruct (parse_value fuel s) as [[v r1]|] eqn:Ev; [|discriminate].
    apply IHv in Ev.
    destruct (skip_ws r1) as [|c r2] eqn:Ews; [discriminate|].
    pose proof (skip_ws_cons _ _ _ Ews).
    destruct (Ascii.eqb c ",").
    { destruct (parse_elements fuel (skip_ws r2)) as [[l' rest']|] eqn:E; [|discriminate].
      intros Hp. inversion Hp; subst. apply IHe in E.
      pose proof (skip_ws_length r2). rewrite elements_weight_cons. lia. }
    destruct (Ascii.eqb c "]"); [|discriminate].
    intros Hp. inversion Hp; subst. rewrite elements_weight_cons.
    change (elements_weight []) with 0%nat. lia.
  - intros acc s d rest. simpl. destruct s as [|q r]; [discriminate|].
    destruct (Ascii.eqb q PyStr.dquote); [|discriminate].
    destruct (parse_string r) as [[k r1]|] eqn:Ek; [|discriminate].
    apply (parse_string_length (String.length r)) in Ek; [|lia].
    destruct (skip_ws r1) as [|c r2] eqn:Ews1; [discriminate|].
    pose proof (skip_ws_cons _ _ _ Ews1).
    destruct (Ascii.eqb c ":"); [|discriminate].
    destruct (parse_value fuel (skip_ws r2)) as [[v r3]|] eqn:Ev; [|discriminate].
    apply IHv in Ev. pose proof (skip_ws_length r2).
    pose proof (set_member_weight acc k v).
    destruct (skip_ws r3) as [|c' r4] eqn:Ews3; [discriminate|].
    pose proof (skip_ws_cons _ _ _ Ews3).
    destruct (Ascii.eqb c' ",").
    { intros E. apply IHm in E. pose proof (skip_ws_length r4). simpl. lia. }
    destruct (Ascii.eqb c' "}"); [|discriminate].
    intros Hp. inversion Hp; subst. simpl. lia.
Qed.

Lemma json_loads_weight (s : string) (v : value) :
  json_loads s = Some v -> (pyweight v <= String.length s)%nat.
Proof.
  unfold json_loads.
  destruct (parse_value _ _) as [[v' rest]|] eqn:E; [|discriminate].
  destruct (skip_ws rest); [|discriminate].
  intros H. inversion H; subst.
  apply (proj1 (parse_weight _)) in E. pose proof (skip_ws_length s). lia.
Qed.

End Ref.

(** The reference implementation. *)
#[global] Instance cpython : PyLib := {|
  pyfloat := spec_float;
  json_loads := Ref.json_loads;
  float_of_str := Ref.float_of_str;
  float_of_int := Ref.float_of_int;
  int_of_float := Ref.int_of_float;
  int_of_str := Ref.int_of_str;
  float_eq_int := Ref.float_eq_int;
  float_gt_zero := Ref.float_gt_zero;
  float_sql_text := Ref.float_sql_text;
  iso_span_seconds := Ref.iso_span_seconds;
  json_loads_weight := Ref.json_loads_weight
|}.

(** * Concrete calls

    Stores for the scenarios of the specification, run on [cpython]. *)

Abbreviation value := (pyval_ spec_float).

Definition stored (call_id event_type payload_text timestamp : string) : event_row :=
  {| ev_call_id := call_id;
     ev_event_type := event_type;
     ev_payload := Some (Ref.json payload_text);
     ev_timestamp := timestamp |}.

Definition events_only (rows : list event_row) : store :=
  {| events := rows; carrier_profiles := []; call_search_prefs := [] |}.

(** The record of a build, the empty dict when it built none. *)
Definition record_of (r : res value * store) : list (string * value) :=
  match fst r with
  | Ok (VDict rec) => rec
  | _ => []
  end.

(** A call whose carrier failed verification. *)
Definition failed_store : store :=
  events_only
    [ stored "c1" "verify_mc_result" "{'eligible': false}" "2024-01-01T00:00:00.000000Z" ].

Definition failed_record : list (string * value) :=
  Eval vm_compute in record_of (_build_call_record "c1" failed_store).

(** A verified carrier, a retrieved load, an accepted negotiation and a
    classification that reports 90 seconds. *)
Definition booked_store : store :=
  {| events :=
       [ stored "c1" "verify_mc_result" "{'eligible': true, 'mc_number': '123'}"
                "2024-01-01T00:00:00.000000Z";
         stored "c1" "best_load_retrieved"
                "{'load_id': 'L1', 'origin': 'LA', 'destination': 'NY'}"
                "2024-01-01T00:00:10.000000Z";
         stored "c1" "negotiation_complete" "{'accepted': true, 'final_price': 1500}"
                "2024-01-01T00:01:10.000000Z";
         stored "c1" "call_classified"
                "{'sentiment': 'Really Positive', 'call_duration_seconds': 90}"
                "2024-01-01T00:05:00.000000Z" ];
     carrier_profiles := [ [("mc_number", VStr "123"); ("legal_name", VStr "ACME")] ];
     call_search_prefs := [] |}.

Definition booked_record : list (string * value) :=
  Eval vm_compute in record_of (_build_call_record "c1" booked_store).

(** A retrieved load and a negotiation event with an empty payload. *)
Definition empty_negotiation_store : store :=
  events_only
    [ stored "c1" "best_load_retrieved"
             "{'load_id': 'L1', 'origin': 'LA', 'destination': 'NY'}"
             "2024-01-01T00:00:00.000000Z";
      stored "c1" "negotiation_complete" "{}" "2024-01-01T00:00:20.000000Z" ].

Definition empty_negotiation_record : list (string * value) :=
  Eval vm_compute in record_of (_build_call_record "c1" empty_negotiation_store).

(** A negotiation whose [accepted] field is the number 1. *)
Definition accepted_one_store : store :=
  events_only
    [ stored "c1" "negotiation_complete" "{'accepted': 1}" "2024-01-01T00:00:00.000000Z" ].

Definition accepted_one_record : list (string * value) :=
  Eval vm_compute in record_of (_build_call_record "c1" accepted_one_store).

Definition accepted_one_negotiation : list (string * value) :=
  Eval vm_compute in
    match dict_get accepted_one_record "negotiation" with
    | VDict ng => ng
    | _ => []
    end.

(** Two verification results thirty seconds apart. *)
Definition reverified_store : store :=
  events_only
    [ stored "c1" "verify_mc_result" "{'eligible': false}" "2024-01-01T00:00:00.000000Z";
      stored "c1" "verify_mc_result" "{'eligible': true}" "2024-01-01T00:00:30.000000Z" ].

Definition reverified_record : list (string * value) :=
  Eval vm_compute in record_of (_build_call_record "c1" reverified_store).

Definition reverified_pruned_record : list (string * value) :=
  Eval vm_compute in record_of (_build_call_record "c1" (prune_events reverified_store)).

(** The same verification result stored as an object and, the way the
    [call_output] endpoint stores a payload it received as a string, as a
    JSON string holding the object's text. *)
Definition native_verify_store : store :=
  events_only
    [ stored "c1" "verify_mc_result" "{'eligible': false}" "2024-01-01T00:00:00.000000Z" ].

Definition encoded_verify_store : store :=
  events_only
    [ stored "c1" "verify_mc_result" "'{\'eligible\': false}'" "2024-01-01T00:00:00.000000Z" ].

(** The same for a sentiment classification. *)
Definition native_sentiment_store : store :=
  events_only
    [ stored "c1" "sentiment_classified" "{'sentiment': 'angry'}"
             "2024-01-01T00:00:00.000000Z" ].

Definition encoded_sentiment_store : store :=
  events_only
    [ stored "c1" "sentiment_classified" "'{\'sentiment\': \'angry\'}'"
             "2024-01-01T00:00:00.000000Z" ].

(** A sentiment classification whose label is a number. *)
Definition numeric_sentiment_store : store :=
  events_only
    [ stored "c1" "sentiment_classified" "{'sentiment': 5}" "2024-01-01T00:00:00.000000Z" ].

(** A call of two events seven seconds apart, the second a classification
    that reports the duration [reported], a JSON number. *)
Definition duration_store (reported : string) : store :=
  events_only
    [ stored "c1" "call_started" "{}" "2024-01-01T00:00:00.000000Z";
      stored "c1" "call_classified" ("{'call_duration_seconds': " +:+ reported +:+ "}")
             "2024-01-01T00:00:07.000000Z" ].

(** The same call with a classification that reports no duration, the same
    with its two timestamps exchanged, and the same with a first timestamp
    that is no date. *)
Definition unreported_duration_store : store :=
  events_only
    [ stored "c1" "call_started" "{}" "2024-01-01T00:00:00.000000Z";
      stored "c1" "call_classified" "{'sentiment': 'neutral'}"
             "2024-01-01T00:00:07.000000Z" ].

Definition reversed_duration_store : store :=
  events_only
    [ stored "c1" "call_started" "{}" "2024-01-01T00:00:07.000000Z";
      stored "c1" "call_classified" "{'sentiment': 'neutral'}"
             "2024-01-01T00:00:00.000000Z" ].

Definition undated_duration_store : store :=
  events_only
    [ stored "c1" "call_started" "{}" "yesterday";
      stored "c1" "call_classified" "{'sentiment': 'neutral'}"
             "2024-01-01T00:00:07.000000Z" ].

(** A retrieved load, a negotiation event with an empty payload and a later
    one that was accepted. *)
Definition superseded_negotiation_store : store :=
  events_only
    [ stored "c1" "best_load_retrieved"
             "{'load_id': 'L1', 'origin': 'LA', 'destination': 'NY'}"
             "2024-01-01T00:00:00.000000Z";
      stored "c1" "negotiation_complete" "{}" "2024-01-01T00:00:20.000000Z";
      stored "c1" "negotiation_complete" "{'accepted': true, 'final_price': 1500}"
             "2024-01-01T00:00:40.000000Z" ].

Definition superseded_negotiation_record : list (string * value) :=
  Eval vm_compute in record_of (_build_call_record "c1" superseded_negotiation_store).

(** * The claims on concrete calls *)

(** Closed goals are settled by running the model. *)
Ltac run := vm_compute; reflexivity.
Ltac run_each := repeat match goal with |- _ /\ _ => split end; run.


(** C3, as amended.  The payload normalizer is total and returns a mapping:
    the nested calls it makes are at most as many as the string is long, so
    any fuel from there on gives its result, and nothing else bounds them: an
    object encoded as JSON text any number of times over is decoded to the
    object.  A mapping is returned as it is; a string is decoded, a decoded
    mapping returned and a decoded string normalized in turn; [None], a
    string that does not decode, a decoded value of any other type and an
    input of any other type give the empty mapping.  On [cpython] the text of
    an object and the doubly encoded text of the same object both give the
    object, and [None] and text that is no JSON give the empty mapping. *)
Theorem payload_normalizer_total :
  (forall (L : PyLib) (raw : pyval_ pyfloat),
     (forall fuel, (payload_depth raw <= fuel)%nat ->
                   payload_as_dict_fuel fuel raw = Some (_payload_as_dict raw)) /\
     _payload_as_dict raw =
       match raw with
       | VNone => []
       | VDict d => d
       | VStr s =>
           match _parse_payload (VStr s) with
           | VDict d => d
           | VStr parsed => _payload_as_dict (VStr parsed)
           | _ => []
           end
       | _ => []
       end) /\
  (forall (L : PyLib) (t : string) (d : list (string * pyval_ pyfloat)),
     encoded t d -> _payload_as_dict (VStr t) = d) /\
  _payload_as_dict (L := cpython) (VStr (Ref.json "{'a':1}")) = [("a", VInt 1)] /\
  _payload_as_dict (L := cpython) (VStr (Ref.json "'{\'a\':1}'")) = [("a", VInt 1)] /\
  _payload_as_dict (L := cpython) VNone = [] /\
  _payload_as_dict (L := cpython) (VStr "not json") = [].
Proof.
  split; [|split].
  - intros L raw. split.
    + intros fuel. apply payload_as_dict_enough.
    + apply payload_as_dict_unfold.
  - intros L t d.
    induction 1 as [t d H|t t' d H _ IH]; rewrite payload_as_dict_unfold;
      unfold _parse_payload; simpl truthy;
      rewrite (json_loads_nonempty _ _ H); simpl; rewrite H; simpl.
    + reflexivity.
    + exact IH.
  - run_each.
Qed.

(** The policy of the sentiment classifier where it returns.  It is a
    function of its input alone into the four categories, defined on every
    label that is absent, falsy or a string, and there it is the policy of
    the specification: empty or absent is neutral, then the exact match of
    the trimmed lower-cased label in the synonym table, then the substring
    rules in order, then neutral.  On a value that is neither falsy nor a
    string it raises. *)
Theorem sentiment_classifier_policy :
  (forall (L : PyLib) (label : option string),
     _normalize_sentiment (opt_str label) = Ok (classify_policy label) /\
     In (classify_policy label) sentiment_categories) /\
  (forall (L : PyLib) (raw : pyval_ pyfloat),
     (truthy raw = false -> _normalize_sentiment raw = Ok "neutral") /\
     (truthy raw = true -> (forall s, raw <> VStr s) ->
      _normalize_sentiment raw = Raise AttributeError)) /\
  Forall (fun kc => classify_policy (Some (fst kc)) = snd kc)
         [ ("professional & satisfied", "positive"); ("friendly & cooperative", "positive");
           ("unprofessional", "negative"); ("impatient", "frustrated");
           ("dismissive", "frustrated"); ("angry", "frustrated") ] /\
  (forall L : PyLib,
     _normalize_sentiment (VStr "Really Positive") = Ok "positive" /\
     _normalize_sentiment (VStr "") = Ok "neutral" /\
     _normalize_sentiment VNone = Ok "neutral" /\
     _normalize_sentiment (VStr "impatient") = Ok "frustrated" /\
     _normalize_sentiment (VStr "mildly negative vibe") = Ok "negative").
Proof.
  split; [|split; [|split]].
  - intros L label. split.
    + apply normalize_sentiment_policy.
    + apply classify_policy_category.
  - intros L raw. split.
    + intros Hf. unfold _normalize_sentiment. now rewrite Hf.
    + apply normalize_sentiment_not_str.
  - repeat constructor.
  - intros L. run_each.
Qed.

(** C8 fails on the code.  The classifier is to be total and never fail,
    whatever the shape of its input; line 421 calls [strip] on every truthy
    label.  A label that is neither falsy nor a string makes it raise: the
    number 5 does, and with it the build of the call whose latest sentiment
    classification carries that label. *)
Theorem numeric_label_raises :
  (forall (L : PyLib) (raw : pyval_ pyfloat),
     truthy raw = true -> (forall s, raw <> VStr s) ->
     _normalize_sentiment raw = Raise AttributeError) /\
  _normalize_sentiment (L := cpython) (VInt 5) = Raise AttributeError /\
  latest_payload (call_events numeric_sentiment_store "c1") "sentiment_classified"
  = VDict [("sentiment", VInt 5)] /\
  fst (_build_call_record "c1" numeric_sentiment_store) = Raise AttributeError.
Proof.
  split; [intros L raw; apply normalize_sentiment_not_str|run_each].
Qed.

(** C3 as the specification states it fails: the recursion has no cap on
    its depth, at 5 or anywhere.  The text of an object encoded as a string
    six times over takes six nested calls, and is decoded to the object. *)
Example six_fold_encoded_payload :
  encoded (L := cpython) (Nat.iter 6 Ref.json_dumps_str (Ref.json "{'a':1}"))
          [("a", VInt 1)] /\
  payload_as_dict_fuel (L := cpython) 5
    (VStr (Nat.iter 6 Ref.json_dumps_str (Ref.json "{'a':1}"))) = None /\
  _payload_as_dict (L := cpython)
    (VStr (Nat.iter 6 Ref.json_dumps_str (Ref.json "{'a':1}")))
  = [("a", VInt 1)].
Proof.
  split; [|run_each].
  do 6 (eapply encoded_string; [run|]). apply encoded_object. run.
Qed.

Lemma verification_status_witness :
  fst (_build_call_record "c1" failed_store) = Ok (VDict failed_record) /\
  (dict_get failed_record "verification_status" = VStr "failed" <->
   eligibility (call_events failed_store "c1") = VBool false).
Proof.
  assert (H : fst (_build_call_record "c1" failed_store) = Ok (VDict failed_record))
    by run.
  split; [exact H|].
  exact (proj1 (verification_status_by_eligibility "c1" failed_store failed_record H)).
Defined.

Lemma outcome_decision_table_witness :
  fst (_build_call_record "c1" booked_store) = Ok (VDict booked_record) /\
  dict_get booked_record "outcome" =
    VStr (decision_table
            (is_False (eligibility (call_events booked_store "c1")))
            (truthy (negotiation_payload (call_events booked_store "c1")))
            (accepted_of (accepted_value (call_events booked_store "c1")))).
Proof.
  assert (H : fst (_build_call_record "c1" booked_store) = Ok (VDict booked_record))
    by run.
  split; [exact H|].
  exact (proj1 (outcome_decision_table "c1" booked_store booked_record H)).
Defined.

(** C1 as the specification states it fails: the second row of its table
    asks whether a negotiation event exists at all.  Here one exists, with an
    empty payload, and eligibility is absent; the stated table gives
    [no_deal], the builder gives [dropped]. *)
Lemma outcome_table_counterexample :
  let evs := call_events empty_negotiation_store "c1" in
  fst (_build_call_record "c1" empty_negotiation_store) = Ok (VDict empty_negotiation_record) /\
  dict_get empty_negotiation_record "outcome" = VStr "dropped" /\
  (exists e, latest_event evs "negotiation_complete" = Some e) /\
  decision_table (is_False (eligibility evs)) true (accepted_of (accepted_value evs))
  = "no_deal".
Proof.
  cbv zeta. split; [run|]. split; [run|]. split; [|run].
  eexists. run.
Qed.

(** The reading of C6 in the specification: only the boolean True and the
    two strings count. *)
Definition explicitly_true (v : value) : bool :=
  match v with
  | VBool b => b
  | VStr s => String.eqb s "true" || String.eqb s "True"
  | _ => false
  end.

Lemma negotiation_agreed_witness :
  fst (_build_call_record "c1" booked_store) = Ok (VDict booked_record) /\
  dict_get booked_record "negotiation"
  = VDict (match dict_get booked_record "negotiation" with VDict ng => ng | _ => [] end) /\
  (dict_get (match dict_get booked_record "negotiation" with VDict ng => ng | _ => [] end)
            "agreed" = VBool true
   \/ dict_get (match dict_get booked_record "negotiation" with VDict ng => ng | _ => [] end)
               "agreed" = VBool false).
Proof.
  assert (H : fst (_build_call_record "c1" booked_store) = Ok (VDict booked_record))
    by run.
  assert (Hng : dict_get booked_record "negotiation"
                = VDict (match dict_get booked_record "negotiation" with
                         | VDict ng => ng | _ => [] end))
    by run.
  split; [exact H|]. split; [exact Hng|].
  exact (proj2 (negotiation_agreed_values "c1" booked_store booked_record _ H Hng)).
Defined.

(** C6 as the specification states it fails: the number 1 is accepted. *)
Lemma accepted_one_counterexample :
  fst (_build_call_record "c1" accepted_one_store) = Ok (VDict accepted_one_record) /\
  dict_get accepted_one_record "negotiation" = VDict accepted_one_negotiation /\
  accepted_value (call_events accepted_one_store "c1") = VInt 1 /\
  explicitly_true (accepted_value (call_events accepted_one_store "c1")) = false /\
  dict_get accepted_one_negotiation "agreed" = VBool true /\
  dict_get accepted_one_record "outcome" = VStr "booked".
Proof. run_each. Qed.

Lemma call_duration_witness :
  fst (_build_call_record "c1" booked_store) = Ok (VDict booked_record) /\
  reported_seconds (call_events booked_store "c1") = VInt 90 /\
  dict_get booked_record "call_duration_seconds" = VInt 90.
Proof.
  assert (H : fst (_build_call_record "c1" booked_store) = Ok (VDict booked_record))
    by run.
  assert (Hr : reported_seconds (call_events booked_store "c1") = VInt 90)
    by run.
  split; [exact H|]. split; [exact Hr|].
  destruct (call_duration_rule "c1" booked_store booked_record H)
    as (first_event & span & _ & _ & _ & _ & Hover & _).
  apply (Hover 90 Hr). discriminate.
Defined.

(** C7 fails on the code.  Every call with an event is to have a duration:
    the span of its events, or the duration reported, when that is not
    negative.  A reported duration that is an infinite float makes the
    conversion of line 457 raise, and the build with it; one that is no
    number does the same.  Where the build returns, the value reported is
    not taken as it is but as [int] converts it: 90.9 is recorded as 90, and
    -0.5, which is negative, replaces the span of 7 seconds with 0.  The
    last three lines are the default: the span, floored at zero, and 0 when a
    timestamp does not parse. *)
Theorem infinite_duration_raises :
  reported_seconds (call_events (duration_store "Infinity") "c1")
  = VFloat (S754_infinity false) /\
  fst (_build_call_record "c1" (duration_store "Infinity")) = Raise OverflowError /\
  fst (_build_call_record "c1" (duration_store "1e999")) = Raise OverflowError /\
  fst (_build_call_record "c1" (duration_store "NaN")) = Raise ValueError /\
  dict_get (record_of (_build_call_record "c1" (duration_store "90")))
           "call_duration_seconds" = VInt 90 /\
  dict_get (record_of (_build_call_record "c1" (duration_store "90.9")))
           "call_duration_seconds" = VInt 90 /\
  dict_get (record_of (_build_call_record "c1" (duration_store "-0.5")))
           "call_duration_seconds" = VInt 0 /\
  dict_get (record_of (_build_call_record "c1" (duration_store "-1")))
           "call_duration_seconds" = VInt 7 /\
  dict_get (record_of (_build_call_record "c1" unreported_duration_store))
           "call_duration_seconds" = VInt 7 /\
  dict_get (record_of (_build_call_record "c1" reversed_duration_store))
           "call_duration_seconds" = VInt 0 /\
  dict_get (record_of (_build_call_record "c1" undated_duration_store))
           "call_duration_seconds" = VInt 0.
Proof. run_each. Qed.

Lemma empty_negotiation_witness :
  fst (_build_call_record "c1" empty_negotiation_store) = Ok (VDict empty_negotiation_record) /\
  dict_get empty_negotiation_record "outcome" = VStr "dropped".
Proof.
  assert (H : fst (_build_call_record "c1" empty_negotiation_store)
              = Ok (VDict empty_negotiation_record))
    by run.
  split; [exact H|].
  refine (proj1 (empty_negotiation_is_dropped "c1" empty_negotiation_store
                   empty_negotiation_record
                   {| event_type := "negotiation_complete";
                      payload := Some (Ref.json "{}");
                      timestamp := "2024-01-01T00:00:20.000000Z" |} H _ _ _)).
  - vm_compute. reflexivity.
  - left. vm_compute. reflexivity.
  - vm_compute. discriminate.
Defined.

(** C10 as the specification states it fails: the events of the call
    include a [negotiation_complete] event with an empty payload and
    eligibility is not false, but a later negotiation was accepted; the
    builder keeps the later one and the outcome is [booked]. *)
Lemma superseded_negotiation_counterexample :
  let evs := call_events superseded_negotiation_store "c1" in
  (exists e, In e evs /\ event_key e = "negotiation_complete" /\
             _parse_payload (L := cpython) (text_column (payload e)) = VDict []) /\
  eligibility evs <> VBool false /\
  fst (_build_call_record "c1" superseded_negotiation_store)
  = Ok (VDict superseded_negotiation_record) /\
  dict_get superseded_negotiation_record "outcome" = VStr "booked".
Proof.
  cbv zeta. split; [|split; [vm_compute; discriminate|run_each]].
  exists {| event_type := "negotiation_complete";
            payload := Some (Ref.json "{}");
            timestamp := "2024-01-01T00:00:20.000000Z" |}.
  split; [right; left; run|run_each].
Qed.

Lemma last_write_wins_witness :
  fst (_build_call_record "c1" reverified_store) = Ok (VDict reverified_record) /\
  exists rec',
    fst (_build_call_record "c1" (prune_events reverified_store)) = Ok (VDict rec') /\
    dict_get rec' "verification_status" = dict_get reverified_record "verification_status".
Proof.
  assert (H : fst (_build_call_record "c1" reverified_store) = Ok (VDict reverified_record))
    by run.
  split; [exact H|].
  destruct (last_write_wins "c1" reverified_store reverified_record H)
    as (_ & rec' & Hb & Hf & _).
  exists rec'. split; [exact Hb|]. apply Hf; discriminate.
Defined.

(** C4 as the specification states it fails: with the superseded first
    event deleted the record starts thirty seconds later and spans nothing. *)
Lemma pruned_record_counterexample :
  fst (_build_call_record "c1" reverified_store) = Ok (VDict reverified_record) /\
  fst (_build_call_record "c1" (prune_events reverified_store))
  = Ok (VDict reverified_pruned_record) /\
  dict_get reverified_record "timestamp" = VStr "2024-01-01T00:00:00.000000Z" /\
  dict_get reverified_pruned_record "timestamp" = VStr "2024-01-01T00:00:30.000000Z" /\
  dict_get reverified_record "call_duration_seconds" = VInt 30 /\
  dict_get reverified_pruned_record "call_duration_seconds" = VInt 0.
Proof. run_each. Qed.

(** C5 fails on the code.  A [verify_mc_result] payload stored as a JSON
    string is not normalized: the builder raises where the same payload
    stored as an object gives a record; only the payload of
    [sentiment_classified] is decoded either way. *)
Theorem encoded_payload_raises :
  dict_get (record_of (_build_call_record "c1" native_verify_store)) "outcome"
  = VStr "failed_verification" /\
  fst (_build_call_record "c1" encoded_verify_store) = Raise AttributeError /\
  _payload_as_dict (L := cpython)
    (latest_payload (call_events encoded_verify_store "c1") "verify_mc_result")
  = [("eligible", VBool false)] /\
  fst (_build_call_record "c1" encoded_sentiment_store)
  = fst (_build_call_record "c1" native_sentiment_store) /\
  dict_get (record_of (_build_call_record "c1" encoded_sentiment_store)) "sentiment"
  = VStr "frustrated".
Proof. run_each. Qed.


(** * The record the builder returns

    Further facts about [_build_call_record], [safe_number_convert],
    [_payload_as_dict], [_normalize_sentiment] and [_first_reasoning], read
    off the code. *)

(** Destructs a successful build into the results of its steps. *)
Ltac invert_build H :=
  apply build_ok_iff in H;
  match type of H with
  | match ?evs with _ => _ end => destruct evs as [|first_event rest] eqn:Hev
  end; [discriminate|];
  destruct H as (classified & duration & verify & eligible & mc_number & carrier_name & neg
                 & load0 & negotiation & load_matched & sentiment & tone & reasoning & prefs
                 & Hc & Hd & Hv & Hci & Hn & Hl & Hg & Hb & Hs & Hp & Hrec).

Section Records.
Context {L : PyLib}.

Abbreviation pyval := (pyval_ pyfloat).
Abbreviation pydict := (list (string * pyval_ pyfloat)).

(** The keys of a call record, in the order of the dict literal of line 559. *)
Definition record_keys : list string :=
  [ "id"; "timestamp"; "mc_number"; "carrier_name"; "fmcsa_verified";
    "verification_status"; "load_matched"; "negotiation"; "outcome"; "sentiment";
    "sentiment_tone"; "sentiment_reasoning"; "call_duration_seconds"; "sales_rep_notes";
    "call_search_prefs" ].

(** The keys of [load_matched] (lines 475-489) and of [negotiation] (line 500). *)
Definition load_keys : list string :=
  [ "load_id"; "origin"; "destination"; "pickup_datetime"; "delivery_datetime";
    "equipment_type"; "loadboard_rate"; "weight"; "commodity_type"; "miles"; "notes";
    "num_of_pieces"; "dimensions" ].

Definition negotiation_keys : list string :=
  [ "rounds"; "initial_offer"; "counter_offers"; "final_rate"; "agreed" ].

(** [isinstance(v, (int, float))] with [bool] left out: a number of JSON. *)
Definition is_number (v : pyval) : bool :=
  match v with VInt _ | VFloat _ => true | _ => false end.

Definition is_float_or_none (v : pyval) : bool :=
  match v with VNone | VFloat _ => true | _ => false end.

Definition is_int_or_none (v : pyval) : bool :=
  match v with VNone | VInt _ => true | _ => false end.

Lemma py_or_truthy (a b : pyval) : truthy b = true -> truthy (py_or a b) = true.
Proof. intros Hb. unfold py_or. now destruct (truthy a) eqn:E. Qed.

Lemma py_or_falsy (a b : pyval) : truthy a = false -> py_or a b = b.
Proof. intros Ha. unfold py_or. now rewrite Ha. Qed.

Lemma normalize_sentiment_range (raw : pyval) (s : string) :
  _normalize_sentiment raw = Ok s ->
  In s ["positive"; "neutral"; "negative"; "frustrated"].
Proof.
  unfold _normalize_sentiment.
  destruct (truthy raw); simpl; [|intros H; inversion H; simpl; tauto].
  destruct raw as [| | | |r| |]; try discriminate.
  repeat match goal with
         | |- context [if ?b then _ else _] => destruct b
         end; intros H; inversion H; simpl; tauto.
Qed.

Lemma sentiment_of_range (by_type : gmap string (pyval * string)) sentiment tone reasoning :
  sentiment_of by_type = Ok (sentiment, tone, reasoning) ->
  In sentiment ["positive"; "neutral"; "negative"; "frustrated"].
Proof.
  unfold sentiment_of, mbind, res_mbind, res_bind.
  destruct (_normalize_sentiment _) as [s|] eqn:E; [|discriminate].
  intros H. inversion H; subst. now apply normalize_sentiment_range in E.
Qed.

Lemma outcome_of_range (verified : bool) (eligible : pyval) (neg : pydict) (accepted : bool) :
  In (outcome_of verified eligible neg accepted)
     ["failed_verification"; "dropped"; "booked"; "no_deal"].
Proof.
  unfold outcome_of.
  repeat match goal with
         | |- context [if ?b then _ else _] => destruct b
         end; simpl; tauto.
Qed.

Lemma verification_status_range (eligible : pyval) :
  In (verification_status_of eligible) ["failed"; "verified"; "pending"].
Proof.
  unfold verification_status_of.
  destruct (is_False eligible); [simpl; tauto|].
  destruct (is_True eligible); simpl; tauto.
Qed.

Lemma carrier_identity_name (verify : pydict) (st : store) eligible mc_number carrier_name :
  fst (carrier_identity verify st) = Ok (eligible, mc_number, carrier_name) ->
  truthy carrier_name = true.
Proof.
  unfold carrier_identity, mbind, M_mbind, lift, mret, M_mret, get_carrier_profile.
  destruct (as_dict _); simpl; [|discriminate].
  destruct (_ && _); simpl.
  - destruct (sqlite_adapt _); simpl; [|discriminate].
    intros H. inversion H. now apply py_or_truthy.
  - intros H. inversion H. now apply py_or_truthy.
Qed.

(** ** [safe_number_convert] (main.py, lines 62-75) *)

Lemma safe_number_convert_type (v : pyval) (t : target) (r : pyval) :
  safe_number_convert v t = Ok r ->
  match t with TInt => is_int_or_none r | TFloat => is_float_or_none r end = true.
Proof.
  destruct v as [|b|z|f|s|l|d], t; simpl; unfold convert_int, mbind, res_mbind, res_bind;
    try (intros H; inversion H; reflexivity).
  - destruct (float_of_int _); intros H; inversion H; reflexivity.
  - destruct (float_of_int _); intros H; inversion H; reflexivity.
  - destruct (int_of_float f); intros H; inversion H; reflexivity.
  - destruct (PyStr.is_empty _); [intros H; inversion H; reflexivity|].
    destruct (int_of_str _); intros H; inversion H; reflexivity.
  - destruct (PyStr.is_empty _); [intros H; inversion H; reflexivity|].
    destruct (float_of_str _); intros H; inversion H; reflexivity.
Qed.

Lemma float_or_zero_number (r : pyval) :
  is_float_or_none r = true -> is_number (py_or r (VInt 0)) = true.
Proof.
  destruct r; try discriminate; intros _; unfold py_or; simpl; [reflexivity|].
  now destruct (negb _).
Qed.

(** ** The matched load (lines 470-489 and 501-505) *)

Lemma match_load_inv (neg : pydict) (best_load load0 : pyval) :
  match_load neg best_load = Ok load0 ->
  let load_data := if truthy (py_or (dict_get neg "load_id") (dict_get neg "origin"))
                   then VDict neg else best_load in
  (load0 = VNone /\
   (truthy load_data = false \/
    exists d, load_data = VDict d /\
              truthy (py_or (dict_get d "load_id") (dict_get d "origin")) = false)) \/
  exists d loadboard_rate weight miles num_of_pieces,
    load_data = VDict d /\
    truthy (py_or (dict_get d "load_id") (dict_get d "origin")) = true /\
    is_float_or_none loadboard_rate = true /\
    is_float_or_none weight = true /\
    is_float_or_none miles = true /\
    is_int_or_none num_of_pieces = true /\
    load0 = VDict
      [ ("load_id", py_or (dict_get d "load_id") (VStr "—"));
        ("origin", py_or (dict_get d "origin") (VStr "Unknown"));
        ("destination", py_or (dict_get d "destination") (VStr "Unknown"));
        ("pickup_datetime", py_or (dict_get d "pickup_datetime") (VStr ""));
        ("delivery_datetime", py_or (dict_get d "delivery_datetime") (VStr ""));
        ("equipment_type", py_or (dict_get d "equipment_type") (VStr "Van"));
        ("loadboard_rate", py_or loadboard_rate (VInt 0));
        ("weight", py_or weight (VInt 0));
        ("commodity_type",
          py_or (py_or (dict_get d "commodity_type") (dict_get d "commodity")) (VStr ""));
        ("miles", py_or miles (VInt 0));
        ("notes", py_or (dict_get d "notes") (VStr ""));
        ("num_of_pieces", num_of_pieces);
        ("dimensions", py_or (dict_get d "dimensions") (VStr "")) ].
Proof.
  unfold match_load. cbv zeta.
  set (load_data := if truthy (py_or (dict_get neg "load_id") (dict_get neg "origin"))
                    then VDict neg else best_load).
  unfold load_snapshot, mbind, res_mbind, res_bind.
  destruct (truthy load_data); [|intros H; inversion H; left; split; [reflexivity|now left]].
  destruct (as_dict load_data) as [d|] eqn:Ed; [|discriminate].
  assert (Hd : load_data = VDict d) by (destruct load_data; try discriminate; now inversion Ed).
  destruct (truthy (py_or (dict_get d "load_id") (dict_get d "origin"))) eqn:Et;
    [|intros H; inversion H; left; split; [reflexivity|right; now exists d]].
  destruct (safe_number_convert (py_or _ _) TFloat) as [lr|] eqn:E1; [|discriminate].
  destruct (safe_number_convert (dict_get d "weight") TFloat) as [w|] eqn:E2; [|discriminate].
  destruct (safe_number_convert (dict_get d "miles") TFloat) as [m|] eqn:E3; [|discriminate].
  destruct (safe_number_convert _ TInt) as [n|] eqn:E4; [|discriminate].
  intros H. inversion H. right. exists d, lr, w, m, n.
  apply safe_number_convert_type in E1, E2, E3, E4.
  repeat split; assumption.
Qed.

(** The facts about a present [load_matched] that every consumer may rely
    on. *)
Definition load_shape (lm : pydict) : Prop :=
  map fst lm = load_keys /\
  Forall (fun k => truthy (dict_get lm k) = true)
         ["load_id"; "origin"; "destination"; "equipment_type"] /\
  Forall (fun k => is_number (dict_get lm k) = true) ["loadboard_rate"; "weight"; "miles"] /\
  is_int_or_none (dict_get lm "num_of_pieces") = true.

Lemma match_load_load_shape (neg : pydict) (best_load : pyval) (lm : pydict) :
  match_load neg best_load = Ok (VDict lm) -> load_shape lm.
Proof.
  intros H.
  apply match_load_inv in H as [[H _]|(d & lr & w & m & n & _ & _ & Hlr & Hw & Hm & Hn & H)];
    [discriminate|].
  inversion H; subst lm. unfold load_shape.
  split; [reflexivity|]. split; [|split].
  - repeat constructor; rewrite !dict_get_cons; simpl; now apply py_or_truthy.
  - repeat constructor; rewrite !dict_get_cons; simpl; now apply float_or_zero_number.
  - rewrite !dict_get_cons. simpl. exact Hn.
Qed.

Lemma negotiation_rounds_int (neg : pydict) (rounds : pyval) :
  negotiation_rounds neg = Ok rounds -> is_int rounds = true.
Proof.
  unfold negotiation_rounds. cbv zeta.
  destruct (is_int (py_or _ _)) eqn:E; [intros H; inversion H; subst; exact E|].
  destruct (py_int _) as [z|[]]; intros H; inversion H; reflexivity.
Qed.

Lemma counter_offers_numbers (xs co : list pyval) :
  mapM_res (fun x => y ← safe_number_convert x TFloat; Ok (py_or y (VInt 0))) xs = Ok co ->
  Forall (fun x => is_number x = true) co.
Proof.
  revert co. induction xs as [|x xs IH]; intros co; simpl.
  - intros H. inversion H. constructor.
  - unfold mbind, res_mbind, res_bind.
    destruct (safe_number_convert x TFloat) as [y|] eqn:E; [|discriminate].
    destruct (mapM_res _ xs) as [ys|]; [|discriminate].
    intros H. inversion H. constructor; [|now apply IH].
    apply float_or_zero_number. now apply safe_number_convert_type in E.
Qed.

Lemma negotiation_of_parts (neg : pydict) (load0 negotiation : pyval) :
  negotiation_of neg load0 = Ok negotiation ->
  (truthy load0 || truthy (VDict neg) = false /\ negotiation = VNone) \/
  (truthy load0 || truthy (VDict neg) = true /\
   exists rounds initial_offer counter_offers final_rate,
     is_int rounds = true /\
     is_float_or_none initial_offer = true /\
     Forall (fun x => is_number x = true) counter_offers /\
     is_float_or_none final_rate = true /\
     negotiation =
       VDict [ ("rounds", rounds);
               ("initial_offer",
                 py_or (py_or initial_offer (matched_rate load0)) (VInt 0));
               ("counter_offers", VList counter_offers);
               ("final_rate", final_rate);
               ("agreed", VBool (accepted_of (dict_get neg "accepted"))) ]).
Proof.
  unfold negotiation_of, mbind, res_mbind, res_bind.
  destruct (negotiation_rounds neg) as [rounds|] eqn:Er; [|discriminate].
  destruct (safe_number_convert (py_or (py_or (dict_get neg "loadboard_rate") _) _) TFloat)
    as [io|] eqn:Eio; [|discriminate].
  destruct (py_iter _) as [xs|]; [|discriminate].
  destruct (mapM_res _ xs) as [co|] eqn:Eco; [|discriminate].
  destruct (safe_number_convert (py_or (dict_get neg "final_price") _) TFloat)
    as [fr|] eqn:Efr; [|discriminate].
  destruct (truthy load0 || truthy (VDict neg)); intros H; inversion H; subst.
  - right. split; [reflexivity|]. exists rounds, io, co, fr.
    apply negotiation_rounds_int in Er. apply counter_offers_numbers in Eco.
    apply safe_number_convert_type in Eio, Efr. now repeat split.
  - left. now split.
Qed.

Lemma offer_number (io mr : pyval) :
  is_float_or_none io = true -> mr = VNone \/ is_number mr = true ->
  is_number (py_or (py_or io mr) (VInt 0)) = true.
Proof.
  intros Hio Hmr. unfold py_or.
  destruct io; try discriminate; simpl.
  - destruct Hmr as [->|Hmr]; [reflexivity|]. destruct (truthy mr); [exact Hmr|reflexivity].
  - destruct (negb (float_eq_int f 0)); simpl.
    + now destruct (negb (float_eq_int f 0)).
    + destruct Hmr as [->|Hmr]; [reflexivity|]. destruct (truthy mr); [exact Hmr|reflexivity].
Qed.

Lemma matched_rate_number (neg : pydict) (best_load load0 : pyval) :
  match_load neg best_load = Ok load0 ->
  matched_rate load0 = VNone \/ is_number (matched_rate load0) = true.
Proof.
  intros H. destruct load0 as [| | | | | |lm]; try (now left).
  right. apply match_load_load_shape in H as (_ & _ & Hn & _).
  now inversion Hn.
Qed.

Lemma backfill_rate_inv (load0 negotiation load_matched : pyval) :
  backfill_rate load0 negotiation = Ok load_matched ->
  load_matched = load0 \/
  exists lm ng fallback_rate,
    load0 = VDict lm /\ negotiation = VDict ng /\
    fallback_rate = py_or (dict_get ng "initial_offer") (dict_get ng "final_rate") /\
    py_eq_zero (py_or (dict_get lm "loadboard_rate") (VInt 0)) = true /\
    py_gt_zero fallback_rate = Ok true /\
    load_matched = VDict (dict_set lm "loadboard_rate" fallback_rate).
Proof.
  unfold backfill_rate.
  destruct load0 as [| | | | | |lm]; try (intros H; inversion H; now left).
  destruct negotiation as [| | | | | |ng]; try (intros H; inversion H; now left).
  destruct (_ && _ && _) eqn:E; [|intros H; inversion H; now left].
  apply andb_true_iff in E as [E _]. apply andb_true_iff in E as [_ E].
  cbv zeta.
  destruct (py_or (dict_get ng "initial_offer") (dict_get ng "final_rate")) eqn:Ef;
    try (intros H; inversion H; now left);
    unfold mbind, res_mbind, res_bind;
    (destruct (py_gt_zero _) as [[|]|] eqn:Eg; [| |discriminate]);
    intros H; inversion H; try (now left);
    right; exists lm, ng; eexists; repeat split; try reflexivity; try eassumption;
    rewrite Ef; first [exact Eg|reflexivity].
Qed.

Lemma dict_get_set_same (d : pydict) (k : string) (v : pyval) :
  dict_get (dict_set d k v) k = v.
Proof.
  unfold dict_get. induction d as [|[k' v'] d IH]; simpl.
  - now rewrite String.eqb_refl.
  - destruct (String.eqb k' k) eqn:E; simpl; rewrite E; [reflexivity|exact IH].
Qed.

Lemma dict_get_set_other (d : pydict) (k k' : string) (v : pyval) :
  k <> k' -> dict_get (dict_set d k v) k' = dict_get d k'.
Proof.
  intros Hk. unfold dict_get. induction d as [|[k0 v0] d IH]; simpl.
  - apply String.eqb_neq in Hk. now rewrite Hk.
  - destruct (String.eqb k0 k) eqn:E; simpl.
    + apply String.eqb_eq in E. subst k0. apply String.eqb_neq in Hk. now rewrite Hk.
    + destruct (String.eqb k0 k'); [reflexivity|exact IH].
Qed.

Lemma dict_set_keys (d : pydict) (k : string) (v : pyval) :
  In k (map fst d) -> map fst (dict_set d k v) = map fst d.
Proof.
  induction d as [|[k0 v0] d IH]; simpl; [tauto|].
  destruct (String.eqb k0 k) eqn:E; simpl; [reflexivity|].
  intros [->|Hin]; [now rewrite String.eqb_refl in E|]. now rewrite IH.
Qed.

Lemma backfill_rate_shape (neg : pydict) (best_load load0 negotiation load_matched : pyval)
      (lm : pydict) :
  match_load neg best_load = Ok load0 ->
  negotiation_of neg load0 = Ok negotiation ->
  backfill_rate load0 negotiation = Ok load_matched ->
  load_matched = VDict lm -> load_shape lm.
Proof.
  intros Hl Hg Hb ->.
  apply backfill_rate_inv in Hb as [<-|(lm0 & ng & fr & -> & -> & Hfr & _ & Hgt & Hb)].
  { now apply match_load_load_shape in Hl. }
  pose proof (matched_rate_number _ _ _ Hl) as Hmr.
  apply negotiation_of_parts in Hg as [[_ Hg]|[_ (r & io & co & f & _ & Hio & _ & Hf & Hg)]];
    [discriminate|].
  pose proof (offer_number io _ Hio Hmr) as Hoff.
  assert (Hnum : is_number fr = true).
  { inversion Hg; subst ng. rewrite !dict_get_cons in Hfr. simpl in Hfr.
    subst fr. unfold py_or at 1. unfold py_or at 1 in Hgt.
    destruct (truthy (py_or (py_or io _) (VInt 0))); [exact Hoff|].
    destruct f; try discriminate. reflexivity. }
  apply match_load_load_shape in Hl as (Hk & Ht & Hn & Hp).
  inversion Hb; subst lm. clear Hb. unfold load_shape.
  assert (Hin : In "loadboard_rate" (map fst lm0)) by (rewrite Hk; simpl; tauto).
  split; [now rewrite dict_set_keys|].
  repeat match goal with
         | H : Forall _ (_ :: _) |- _ => inversion_clear H
         end.
  split; [|split].
  - repeat constructor; rewrite dict_get_set_other by discriminate; assumption.
  - constructor; [now rewrite dict_get_set_same|].
    repeat constructor; rewrite dict_get_set_other by discriminate; assumption.
  - now rewrite dict_get_set_other by discriminate.
Qed.

(** ** Theorems about the record *)

Lemma build_returns_none (call_id : string) (st : store) :
  fst (_build_call_record call_id st) = Ok VNone <-> call_events st call_id = [].
Proof.
  split; intros H.
  - apply build_ok_iff in H. destruct (call_events st call_id); [reflexivity|].
    destruct H as (?&?&?&?&?&?&?&?&?&?&?&?&?&?&?&?&?&?&?&?&?&?&?&?&H). discriminate.
  - apply build_ok_iff. now rewrite H.
Qed.

(** X1.  The builder returns [None] exactly when the store holds no event of the
    call; with an event it returns a record, which is a dict, or raises. *)
Theorem build_none_iff_no_events (call_id : string) (st : store) :
  (fst (_build_call_record call_id st) = Ok VNone <-> call_events st call_id = []) /\
  (forall v, fst (_build_call_record call_id st) = Ok v ->
             v = VNone \/ exists rec, v = VDict rec).
Proof.
  split; [apply build_returns_none|].
  intros v H. apply build_ok_iff in H. destruct (call_events st call_id); [now left|].
  destruct H as (?&?&?&?&?&?&?&?&?&?&?&?&?&?&?&?&?&?&?&?&?&?&?&?&H).
  right. eexists. exact H.
Qed.

(** X2.  Every record has the fifteen keys of the dict literal, in its order; its
    [id] is the call id asked for, [timestamp] the timestamp of the first
    event of the call, [sales_rep_notes] [None]; [outcome],
    [verification_status] and [sentiment] are each one of their fixed labels;
    [mc_number] and [carrier_name] are never empty. *)
Theorem record_schema (call_id : string) (st : store) (rec : pydict) :
  fst (_build_call_record call_id st) = Ok (VDict rec) ->
  map fst rec = record_keys /\
  dict_get rec "id" = VStr call_id /\
  (exists first_event, hd_error (call_events st call_id) = Some first_event /\
                       dict_get rec "timestamp" = VStr (timestamp first_event)) /\
  dict_get rec "sales_rep_notes" = VNone /\
  (exists o, dict_get rec "outcome" = VStr o /\
             In o ["failed_verification"; "dropped"; "booked"; "no_deal"]) /\
  (exists v, dict_get rec "verification_status" = VStr v /\
             In v ["failed"; "verified"; "pending"]) /\
  (exists s, dict_get rec "sentiment" = VStr s /\
             In s ["positive"; "neutral"; "negative"; "frustrated"]) /\
  (exists b, dict_get rec "fmcsa_verified" = VBool b) /\
  truthy (dict_get rec "mc_number") = true /\
  truthy (dict_get rec "carrier_name") = true.
Proof.
  intros H. invert_build H. injection Hrec as Hrec. subst rec.
  split; [reflexivity|]. split; [reflexivity|].
  split; [exists first_event; now split|]. split; [reflexivity|].
  split; [eexists; split; [reflexivity|apply outcome_of_range]|].
  split; [eexists; split; [reflexivity|apply verification_status_range]|].
  split; [eexists; split; [reflexivity|now apply sentiment_of_range in Hs]|].
  split; [eexists; reflexivity|].
  split.
  - change (truthy (py_or mc_number (VStr "—")) = true). now apply py_or_truthy.
  - change (truthy carrier_name = true). now apply carrier_identity_name in Hci.
Qed.

(** X3.  The outcome agrees with the other fields of the record: it is
    [failed_verification] exactly when the verification status is [failed];
    a [booked] record carries a negotiation that was agreed, a [no_deal]
    record one that was not; a record without a negotiation is a failed
    verification or dropped. *)
Theorem outcome_consistency (call_id : string) (st : store) (rec : pydict) :
  fst (_build_call_record call_id st) = Ok (VDict rec) ->
  (dict_get rec "outcome" = VStr "failed_verification" <->
   dict_get rec "verification_status" = VStr "failed") /\
  (dict_get rec "outcome" = VStr "booked" ->
   exists ng, dict_get rec "negotiation" = VDict ng /\ dict_get ng "agreed" = VBool true) /\
  (dict_get rec "outcome" = VStr "no_deal" ->
   exists ng, dict_get rec "negotiation" = VDict ng /\ dict_get ng "agreed" = VBool false) /\
  (dict_get rec "negotiation" = VNone ->
   dict_get rec "outcome" = VStr "failed_verification"
   \/ dict_get rec "outcome" = VStr "dropped").
Proof.
  intros H. invert_build H. injection Hrec as Hrec.
  assert (Ho : dict_get rec "outcome"
               = VStr (outcome_of (is_True eligible) eligible neg
                                  (accepted_of (dict_get neg "accepted"))))
    by (rewrite Hrec; reflexivity).
  assert (Hvs : dict_get rec "verification_status" = VStr (verification_status_of eligible))
    by (rewrite Hrec; reflexivity).
  assert (Hng : dict_get rec "negotiation" = negotiation) by (rewrite Hrec; reflexivity).
  rewrite Ho, Hvs, Hng. clear Ho Hvs Hng Hrec.
  apply negotiation_of_parts in Hg.
  unfold outcome_of, verification_status_of.
  assert (Hneg : truthy (VDict neg) = true -> exists r io co fr,
            negotiation = VDict [ ("rounds", r); ("initial_offer", io);
                                  ("counter_offers", co); ("final_rate", fr);
                                  ("agreed", VBool (accepted_of (dict_get neg "accepted"))) ]).
  { intros Ht. rewrite Ht, orb_true_r in Hg.
    destruct Hg as [[Hg _]|[_ (r & io & co & fr & _ & _ & _ & _ & Hg)]]; [discriminate|].
    do 4 eexists. exact Hg. }
  split; [|split; [|split]].
  - destruct eligible as [|[|]| | | | |]; simpl; split; intros Hx; try reflexivity;
      exfalso; revert Hx;
      repeat match goal with
             | |- context [if ?b then _ else _] => destruct b
             end; discriminate.
  - destruct (negb (is_True eligible) && is_False eligible); [discriminate|].
    destruct (truthy (VDict neg)) eqn:Ht; [|discriminate]. cbn [negb].
    destruct (accepted_of (dict_get neg "accepted")) eqn:Ea; [|discriminate].
    intros _. destruct (Hneg eq_refl) as (r & io & co & fr & ->).
    eexists. split; reflexivity.
  - destruct (negb (is_True eligible) && is_False eligible); [discriminate|].
    destruct (truthy (VDict neg)) eqn:Ht; [|discriminate]. cbn [negb].
    destruct (accepted_of (dict_get neg "accepted")) eqn:Ea; [discriminate|].
    intros _. destruct (Hneg eq_refl) as (r & io & co & fr & ->).
    eexists. split; reflexivity.
  - intros ->. destruct Hg as [[Hg _]|[_ (r & io & co & fr & _ & _ & _ & _ & Hg)]];
      [|discriminate].
    apply orb_false_iff in Hg as [_ Hg]. rewrite Hg. simpl.
    destruct (negb (is_True eligible) && is_False eligible); auto.
Qed.

(** The payload the matched load is read from (line 472): the negotiation
    payload when it names a load or an origin, else the payload of the best
    load retrieved. *)
Definition load_source (evs : list event) : pyval :=
  let negp := negotiation_payload evs in
  if truthy (py_or (payload_field negp "load_id") (payload_field negp "origin"))
  then negp else latest_payload evs "best_load_retrieved".

Lemma payload_or_empty_fields (p : pyval) (d : pydict) :
  py_or p (VDict []) = VDict d -> forall k, dict_get d k = payload_field p k.
Proof.
  intros H k. apply (as_dict_or_empty_field p d k). now rewrite H.
Qed.

Lemma payload_or_empty_falsy (p : pyval) :
  truthy (py_or p (VDict [])) = false -> forall k, payload_field p k = VNone.
Proof.
  unfold py_or. destruct (truthy p) eqn:E; [congruence|]. intros _ k.
  destruct p as [| | | | | |[|]]; try reflexivity. discriminate.
Qed.

(** X4.  The matched load is absent exactly when its source names neither a
    load nor an origin.  A present one has the thirteen keys of its dict
    literal; its [load_id], [origin], [destination] and [equipment_type] are
    those of the source, or the defaults of the code, and never empty; its
    [loadboard_rate], [weight] and [miles] are numbers and [num_of_pieces] is
    an int or [None]. *)
Theorem load_matched_shape (call_id : string) (st : store) (rec : pydict) :
  fst (_build_call_record call_id st) = Ok (VDict rec) ->
  let source := load_source (call_events st call_id) in
  (dict_get rec "load_matched" = VNone <->
   truthy (py_or (payload_field source "load_id") (payload_field source "origin")) = false) /\
  (dict_get rec "load_matched" = VNone \/ exists lm, dict_get rec "load_matched" = VDict lm) /\
  forall lm, dict_get rec "load_matched" = VDict lm ->
    load_shape lm /\
    dict_get lm "load_id" = py_or (payload_field source "load_id") (VStr "—") /\
    dict_get lm "origin" = py_or (payload_field source "origin") (VStr "Unknown") /\
    dict_get lm "destination" = py_or (payload_field source "destination") (VStr "Unknown") /\
    dict_get lm "equipment_type" = py_or (payload_field source "equipment_type") (VStr "Van").
Proof.
  intros H source. invert_build H. injection Hrec as Hrec.
  assert (Hlm : dict_get rec "load_matched" = load_matched) by (rewrite Hrec; reflexivity).
  rewrite Hlm. clear Hlm Hrec.
  unfold payload_or_empty in Hn, Hl. rewrite !entry_payload_latest in Hn, Hl by reflexivity.
  set (evs := first_event :: rest) in *.
  pose proof (fun k => as_dict_or_empty_field _ _ k Hn) as Hneg.
  pose proof (fun lm => backfill_rate_shape _ _ _ _ _ lm Hl Hg Hb) as Hshape.
  (* the fields of the source *)
  assert (Hsrc : forall d,
            (if truthy (py_or (dict_get neg "load_id") (dict_get neg "origin"))
             then VDict neg else py_or (latest_payload evs "best_load_retrieved") (VDict []))
            = VDict d -> forall k, dict_get d k = payload_field source k).
  { intros d Hld k. unfold source, load_source. fold evs.
    change (negotiation_payload evs) with (latest_payload evs "negotiation_complete").
    rewrite <- !Hneg.
    destruct (truthy (py_or (dict_get neg "load_id") (dict_get neg "origin"))).
    - inversion Hld; subst d. apply Hneg.
    - now apply payload_or_empty_fields. }
  assert (Hnone : truthy
            (if truthy (py_or (dict_get neg "load_id") (dict_get neg "origin"))
             then VDict neg else py_or (latest_payload evs "best_load_retrieved") (VDict []))
            = false -> forall k, payload_field source k = VNone).
  { intros Hf k. unfold source, load_source. fold evs.
    change (negotiation_payload evs) with (latest_payload evs "negotiation_complete").
    rewrite <- !Hneg.
    destruct (truthy (py_or (dict_get neg "load_id") (dict_get neg "origin"))) eqn:Et.
    - exfalso. destruct neg; [discriminate Et|discriminate Hf].
    - now apply payload_or_empty_falsy. }
  apply match_load_inv in Hl. cbv zeta in Hl.
  destruct Hl as [[-> Hl]|(d & lr & w & m & n & Hld & Ht & _ & _ & _ & _ & Hl0)].
  - (* no load *)
    simpl in Hb. inversion Hb; subst load_matched.
    split; [|split; [now left|discriminate]].
    split; [intros _|reflexivity].
    destruct Hl as [Hl|(d & Hld & Hl)].
    + now rewrite !Hnone.
    + now rewrite <- !(Hsrc d Hld).
  - (* a load *)
    assert (Hpres : exists lm, load_matched = VDict lm /\
                      forall k, k <> "loadboard_rate" ->
                                dict_get lm k = payload_field (VDict (match load0 with VDict x => x | _ => [] end)) k).
    { apply backfill_rate_inv in Hb as [->|(lm0 & ng & fr & Hl1 & _ & _ & _ & _ & ->)].
      - subst load0. eexists. split; [reflexivity|]. reflexivity.
      - subst load0. inversion Hl1; subst lm0. eexists. split; [reflexivity|].
        intros k Hk. simpl payload_field. now rewrite dict_get_set_other by congruence. }
    destruct Hpres as (lm & -> & Hfields). subst load0. simpl in Hfields.
    split; [|split; [right; now exists lm|]].
    + split; [discriminate|]. rewrite <- !(Hsrc d Hld). congruence.
    + intros lm' Heq. inversion Heq; subst lm'. split; [now apply Hshape|].
      rewrite !Hfields by discriminate. rewrite !dict_get_cons. simpl.
      now rewrite !(Hsrc d Hld).
Qed.

(** X5.  A record has no negotiation exactly when it has no matched load and
    the negotiation payload is missing or empty.  A negotiation has the five
    keys of its dict literal; [rounds] is an int, [initial_offer] a number,
    [counter_offers] a list of numbers, [final_rate] a float or [None] and
    [agreed] a bool. *)
Theorem negotiation_shape (call_id : string) (st : store) (rec : pydict) :
  fst (_build_call_record call_id st) = Ok (VDict rec) ->
  (dict_get rec "negotiation" = VNone <->
   dict_get rec "load_matched" = VNone
   /\ truthy (negotiation_payload (call_events st call_id)) = false) /\
  (dict_get rec "negotiation" = VNone \/ exists ng, dict_get rec "negotiation" = VDict ng) /\
  forall ng, dict_get rec "negotiation" = VDict ng ->
    map fst ng = negotiation_keys /\
    is_int (dict_get ng "rounds") = true /\
    is_number (dict_get ng "initial_offer") = true /\
    (exists offers, dict_get ng "counter_offers" = VList offers /\
                    Forall (fun x => is_number x = true) offers) /\
    is_float_or_none (dict_get ng "final_rate") = true /\
    (exists b, dict_get ng "agreed" = VBool b).
Proof.
  intros H. invert_build H. injection Hrec as Hrec.
  assert (Hlm : dict_get rec "load_matched" = load_matched) by (rewrite Hrec; reflexivity).
  assert (Hng : dict_get rec "negotiation" = negotiation) by (rewrite Hrec; reflexivity).
  rewrite Hlm, Hng. clear Hlm Hng Hrec.
  unfold payload_or_empty in Hn. rewrite entry_payload_latest in Hn by reflexivity.
  pose proof (as_dict_or_empty_truthy _ _ Hn) as Htr.
  change (latest_payload (first_event :: rest) "negotiation_complete")
    with (negotiation_payload (first_event :: rest)) in Htr.
  rewrite <- Htr.
  pose proof (matched_rate_number _ _ _ Hl) as Hmr.
  assert (Hload : truthy load0 = false <-> load_matched = VNone).
  { apply match_load_inv in Hl. cbv zeta in Hl.
    destruct Hl as [[-> _]|(d & lr & w & m & n & _ & _ & _ & _ & _ & _ & ->)].
    - simpl in Hb. inversion Hb. split; reflexivity.
    - apply backfill_rate_inv in Hb as [->|(lm0 & ng & fr & _ & _ & _ & _ & _ & ->)];
        split; discriminate. }
  apply negotiation_of_parts in Hg.
  destruct Hg as [[Hor ->]|[Hor (r & io & co & fr & Hr & Hio & Hco & Hfr & ->)]].
  - apply orb_false_iff in Hor as [Hl0 Hneg].
    split; [|split; [now left|discriminate]].
    split; [intros _|reflexivity]. split; [now apply Hload|exact Hneg].
  - split; [|split; [right; eexists; reflexivity|]].
    + split; [discriminate|]. intros [Hl0 Hneg]. apply Hload in Hl0.
      rewrite Hl0, Hneg in Hor. discriminate.
    + intros ng Hng. inversion Hng; subst ng. clear Hng.
      split; [reflexivity|]. rewrite !dict_get_cons. simpl.
      split; [exact Hr|]. split; [now apply offer_number|].
      split; [now exists co|]. split; [exact Hfr|]. eexists. reflexivity.
Qed.

(** ** What a build depends on *)

(** What the builder takes from the events of a call: the payloads grouped
    by type, and the timestamps of the first and the last event. *)
Definition events_view (evs : list event)
  : option (gmap string (pyval * string) * string * string) :=
  match evs with
  | [] => None
  | first_event :: _ =>
      Some (group_by_type evs, timestamp first_event,
            timestamp (List.last evs first_event))
  end.

Lemma carrier_identity_profiles (verify : pydict) (st st' : store) :
  carrier_profiles st = carrier_profiles st' ->
  fst (carrier_identity verify st) = fst (carrier_identity verify st').
Proof.
  intros Hp.
  unfold carrier_identity, mbind, M_mbind, lift, mret, M_mret, get_carrier_profile.
  destruct (as_dict _); simpl; [|reflexivity].
  destruct (_ && _); simpl; [|reflexivity].
  rewrite Hp. destruct (sqlite_adapt _); reflexivity.
Qed.

Lemma build_by_view (call_id : string) (st st' : store) :
  events_view (call_events st call_id) = events_view (call_events st' call_id) ->
  carrier_profiles st = carrier_profiles st' ->
  call_search_prefs st = call_search_prefs st' ->
  fst (_build_call_record call_id st) = fst (_build_call_record call_id st').
Proof.
  intros Hview Hprof Hprefs.
  unfold _build_call_record, mbind, M_mbind, get_events_by_call_id, lift, mret, M_mret.
  fold (call_events st call_id). fold (call_events st' call_id).
  destruct (call_events st call_id) as [|e rest], (call_events st' call_id) as [|e' rest'];
    try discriminate; [reflexivity|].
  unfold events_view in Hview. cbv zeta.
  set (last_event := List.last (e :: rest) e) in *.
  set (last_event' := List.last (e' :: rest') e') in *.
  injection Hview as Hg Ht Hl. rewrite Hg, Ht, Hl.
  set (by_type := group_by_type (e' :: rest')).
  destruct (as_dict (payload_or_empty by_type "call_classified")); [|reflexivity].
  destruct (reported_duration _ _); [|reflexivity].
  destruct (as_dict (payload_or_empty by_type "verify_mc_result")) as [verify|];
    [|reflexivity].
  pose proof (carrier_identity_state verify st) as Hs1.
  pose proof (carrier_identity_state verify st') as Hs2.
  pose proof (carrier_identity_profiles verify st st' Hprof) as Hci.
  destruct (carrier_identity verify st) as [r1 s1], (carrier_identity verify st') as [r2 s2].
  cbn [fst snd] in *. subst s1 s2 r2.
  destruct r1 as [[[eligible mc_number] carrier_name]|]; [|reflexivity].
  destruct (as_dict (payload_or_empty by_type "negotiation_complete")); [|reflexivity].
  destruct (match_load _ _); [|reflexivity].
  destruct (negotiation_of _ _); [|reflexivity].
  destruct (backfill_rate _ _); [|reflexivity].
  destruct (sentiment_of by_type) as [[[sentiment tone] reasoning]|]; [|reflexivity].
  unfold get_call_search_prefs. cbn [fst snd]. rewrite Hprefs.
  match goal with
  | |- context [match ?p with Ok _ => _ | Raise _ => _ end] => destruct p
  end; reflexivity.
Qed.

(** Two events the builder cannot tell apart: the same type once white
    space and double quotes around it are stripped (line 445), the same
    payload and the same timestamp. *)
Definition same_event (e e' : event) : Prop :=
  event_key e = event_key e' /\ payload e = payload e' /\ timestamp e = timestamp e'.

Lemma group_step_same (m : gmap string (pyval * string)) (e e' : event) :
  same_event e e' -> group_step m e = group_step m e'.
Proof. intros (Hk & Hp & Ht). unfold group_step. now rewrite Hk, Hp, Ht. Qed.

Lemma foldl_group_same (evs evs' : list event) :
  Forall2 same_event evs evs' ->
  forall m, foldl group_step m evs = foldl group_step m evs'.
Proof.
  induction 1 as [|e e' evs evs' He _ IH]; intros m; [reflexivity|].
  simpl. rewrite (group_step_same m e e' He). apply IH.
Qed.

Lemma last_same (evs evs' : list event) :
  Forall2 same_event evs evs' ->
  forall d d', timestamp d = timestamp d' ->
  timestamp (List.last evs d) = timestamp (List.last evs' d').
Proof.
  induction 1 as [|e e' evs evs' He Hrest IH]; intros d d' Hd; [exact Hd|].
  destruct Hrest as [|e1 e1' evs1 evs1' He1 Hrest1].
  - simpl. apply He.
  - change (List.last (e :: e1 :: evs1) d) with (List.last (e1 :: evs1) d).
    change (List.last (e' :: e1' :: evs1') d') with (List.last (e1' :: evs1') d').
    now apply IH.
Qed.

Lemma events_view_same (evs evs' : list event) :
  Forall2 same_event evs evs' -> events_view evs = events_view evs'.
Proof.
  intros H. destruct H as [|e e' evs evs' He Hrest]; [reflexivity|].
  unfold events_view. f_equal. f_equal; [f_equal|].
  - unfold group_by_type. apply foldl_group_same. now constructor.
  - apply He.
  - apply last_same; [now constructor|apply He].
Qed.

(** X6.  The builder reads the type of an event only through its normalised
    form: stores whose events of the call differ in the white space or the
    double quotes around the event types give the same result. *)
Theorem event_type_read_normalised (call_id : string) (st st' : store) :
  Forall2 same_event (call_events st call_id) (call_events st' call_id) ->
  carrier_profiles st = carrier_profiles st' ->
  call_search_prefs st = call_search_prefs st' ->
  fst (_build_call_record call_id st) = fst (_build_call_record call_id st').
Proof.
  intros Hev Hprof Hprefs. apply build_by_view; [|assumption..].
  now apply events_view_same.
Qed.

(** ** The record of a call that reported nothing *)

Lemma payload_as_dict_falsy (p : pyval) : truthy p = false -> _payload_as_dict p = [].
Proof.
  intros Hp. rewrite payload_as_dict_unfold.
  destruct p as [| | | |s| |d]; try reflexivity.
  - unfold _parse_payload. now rewrite Hp.
  - now destruct d.
Qed.

(** X7.  When none of the five event types the builder reads has a payload
    (there is no such event, or its payload is null, empty or does not
    decode), the other events of the call still give a record: the defaults
    of every field, with the timestamp of the first event and the span to the
    last one. *)
Theorem unreported_call_record (call_id : string) (st : store) (first_event : event)
        (prefs : pyval) :
  let evs := call_events st call_id in
  hd_error evs = Some first_event ->
  Forall (fun key => truthy (latest_payload evs key) = false)
         [ "call_classified"; "verify_mc_result"; "negotiation_complete";
           "best_load_retrieved"; "sentiment_classified" ] ->
  prefs_of call_id st = Ok prefs ->
  fst (_build_call_record call_id st) =
  Ok (VDict [ ("id", VStr call_id);
              ("timestamp", VStr (timestamp first_event));
              ("mc_number", VStr "—");
              ("carrier_name", VStr "Unknown");
              ("fmcsa_verified", VBool false);
              ("verification_status", VStr "pending");
              ("load_matched", VNone);
              ("negotiation", VNone);
              ("outcome", VStr "dropped");
              ("sentiment", VStr "neutral");
              ("sentiment_tone", VNone);
              ("sentiment_reasoning", VNone);
              ("call_duration_seconds",
                VInt (span_seconds (timestamp first_event)
                                   (timestamp (List.last evs first_event))));
              ("sales_rep_notes", VNone);
              ("call_search_prefs", prefs) ]).
Proof.
  intros evs Hhd Hnone Hprefs.
  repeat match goal with
         | H : Forall _ (_ :: _) |- _ => inversion_clear H
         end.
  apply build_ok_iff. fold evs.
  destruct evs as [|e rest] eqn:Hev; [discriminate|].
  injection Hhd as ->.
  unfold record_built. cbv zeta.
  assert (Hempty : forall key, PyStr.is_empty key = false ->
            truthy (latest_payload (first_event :: rest) key) = false ->
            payload_or_empty (group_by_type (first_event :: rest)) key = VDict []).
  { intros key Hk Hf. unfold payload_or_empty. rewrite entry_payload_latest by exact Hk.
    now apply py_or_falsy. }
  exists [], (span_seconds (timestamp first_event)
                (timestamp (List.last (first_event :: rest) first_event))),
         [], VNone, (VStr ""), (VStr "Unknown"), [], VNone, VNone, VNone,
         "neutral", VNone, VNone, prefs.
  rewrite !Hempty by (reflexivity || assumption).
  repeat split; try reflexivity; try assumption.
  unfold sentiment_of. rewrite !entry_payload_latest by reflexivity.
  rewrite !payload_as_dict_falsy by assumption. reflexivity.
Qed.

(** ** [_first_reasoning] (lines 528-553) *)

Lemma first_key_hit_nonblank (d : pydict) (keys : list string) (r : string) :
  first_key_hit d keys = Some r -> PyStr.is_empty r = false.
Proof.
  induction keys as [|k keys IH]; simpl; [discriminate|].
  destruct (dict_get d k) as [| | | |v| |]; try exact IH.
  destruct (PyStr.is_empty (PyStr.strip v)) eqn:E; [exact IH|].
  intros H. now inversion H; subst.
Qed.

Lemma first_found_some (round : string -> option string) (names : list string) (r : string) :
  first_found round names = Some r -> exists name, In name names /\ round name = Some r.
Proof.
  induction names as [|name names IH]; simpl; [discriminate|].
  destruct (round name) as [found|] eqn:E.
  - intros H. inversion H; subst. exists name. auto.
  - intros H. destruct (IH H) as (n & Hin & Hn). exists n. auto.
Qed.

Lemma first_reasoning_fuel_nonblank (fuel : nat) :
  forall (d : pyval) (r : string),
  first_reasoning_fuel fuel d = Some r -> PyStr.is_empty r = false.
Proof.
  induction fuel as [|fuel IH]; intros d r; destruct d as [| | | | | |dd];
    cbn [first_reasoning_fuel]; try discriminate.
  - destruct (first_key_hit dd _reasoning_keys) eqn:E; [|discriminate].
    intros H. inversion H; subst. now apply first_key_hit_nonblank in E.
  - destruct (first_key_hit dd _reasoning_keys) eqn:E.
    + intros H. inversion H; subst. now apply first_key_hit_nonblank in E.
    + intros H. apply first_found_some in H as (name & _ & H).
      unfold nested_search in H.
      destruct (dict_get dd name) as [| | | |sub| |sub]; try discriminate.
      * destruct (json_loads sub) as [[| | | | | |parsed]|]; try discriminate.
        now apply IH in H.
      * now apply IH in H.
Qed.

Lemma first_reasoning_nonblank (d : pydict) (r : string) :
  _first_reasoning d = Some r -> PyStr.is_empty r = false.
Proof. unfold _first_reasoning. apply first_reasoning_fuel_nonblank. Qed.

(** The recursive call of the source on a nested value: a dict is searched,
    anything else holds nothing. *)
Definition reasoning_in (v : pyval) : option string :=
  match v with
  | VDict d => _first_reasoning d
  | _ => None
  end.

(** X8.  The search for a reasoning follows the recursion of the source (its
    nested calls end, the nested values being smaller): the first of the
    nine keys that holds a string that is not blank gives the result, that
    string stripped; failing that, the first of [payload], [data] and [body]
    whose value, a dict or the JSON text of one, holds a reasoning.  The
    result is never an empty string, and so [sentiment_reasoning] of a record
    is [None] or a string that is not empty. *)
Theorem first_reasoning_search :
  (forall d : pydict,
     _first_reasoning d =
     match first_key_hit d _reasoning_keys with
     | Some v => Some v
     | None => first_found (nested_search reasoning_in d) ["payload"; "data"; "body"]
     end) /\
  (forall (d : pydict) (r : string),
     _first_reasoning d = Some r -> PyStr.is_empty r = false) /\
  (forall (call_id : string) (st : store) (rec : pydict),
     fst (_build_call_record call_id st) = Ok (VDict rec) ->
     dict_get rec "sentiment_reasoning" = VNone
     \/ exists r, dict_get rec "sentiment_reasoning" = VStr r /\ PyStr.is_empty r = false).
Proof.
  split; [|split].
  - intros d. unfold _first_reasoning at 1.
    change (pyweight (VDict d)) with (S (list_sum (map member_weight d))).
    cbn [first_reasoning_fuel].
    destruct (first_key_hit d _reasoning_keys); [reflexivity|].
    apply first_found_ext. intros name. apply nested_search_ext.
    intros v Hv. destruct v as [| | | | | |sub];
      try (now destruct (list_sum (map member_weight d))).
    unfold reasoning_in. apply first_reasoning_enough.
    rewrite (pyweight_dict d) in Hv. lia.
  - intros d r. apply first_reasoning_nonblank.
  - intros call_id st rec H. invert_build H. injection Hrec as Hrec.
    assert (Hr : dict_get rec "sentiment_reasoning" = reasoning)
      by (rewrite Hrec; reflexivity).
    rewrite Hr. clear Hr Hrec.
    unfold sentiment_of, mbind, res_mbind, res_bind in Hs.
    destruct (_normalize_sentiment _); [|discriminate].
    inversion Hs as [[H1 H2 H3]]. clear Hs H1 H2 H3.
    pose proof (first_reasoning_nonblank
                  (_payload_as_dict (entry_payload (group_by_type (first_event :: rest))
                                                   "sentiment_classified"))) as Hr1.
    pose proof (first_reasoning_nonblank
                  (_payload_as_dict (entry_payload (group_by_type (first_event :: rest))
                                                   "call_classified"))) as Hr2.
    destruct (_first_reasoning (_payload_as_dict
                (entry_payload (group_by_type (first_event :: rest))
                               "sentiment_classified"))) as [r|].
    + right. exists r. split; [reflexivity|]. now apply Hr1.
    + destruct (_first_reasoning (_payload_as_dict
                  (entry_payload (group_by_type (first_event :: rest))
                                 "call_classified"))) as [r|].
      * right. exists r. split; [reflexivity|]. now apply Hr2.
      * left. reflexivity.
Qed.

(** ** [safe_number_convert], [_normalize_sentiment] and [_payload_as_dict] *)

(** X9.  [safe_number_convert] returns [None] or a number of the target type,
    and converting its result again changes nothing; it raises on numbers
    only (an int too large for a float, a float that is no int), never on a
    string; on [None], on a blank string and on a list or a dict it gives
    [None]. *)
Theorem safe_number_convert_result :
  (forall (v r : pyval) (t : target),
     safe_number_convert v t = Ok r ->
     match t with TInt => is_int_or_none r | TFloat => is_float_or_none r end = true
     /\ safe_number_convert r t = Ok r) /\
  (forall (v : pyval) (t : target) (e : exn),
     safe_number_convert v t = Raise e ->
     match v with VBool _ | VInt _ | VFloat _ => True | _ => False end) /\
  (forall (s : string) (t : target),
     PyStr.is_empty (PyStr.strip s) = true -> safe_number_convert (VStr s) t = Ok VNone) /\
  (forall (t : target) (l : list pyval) (d : pydict),
     safe_number_convert VNone t = Ok VNone
     /\ safe_number_convert (VList l) t = Ok VNone
     /\ safe_number_convert (VDict d) t = Ok VNone).
Proof.
  split; [|split; [|split]].
  - intros v r t H. split; [now apply safe_number_convert_type in H|].
    apply safe_number_convert_type in H.
    destruct t, r; try discriminate; reflexivity.
  - intros v t e. destruct v as [|b|z|f|s|l|d]; simpl; try discriminate; try tauto.
    destruct (PyStr.is_empty _); [discriminate|]. destruct t.
    + destruct (int_of_str _); discriminate.
    + destruct (float_of_str _); discriminate.
  - intros s t H. simpl. now rewrite H.
  - intros t l d. now repeat split.
Qed.

(** X10.  The classifier is idempotent: each category it returns is a label it
    maps to itself. *)
Theorem normalize_sentiment_idempotent (raw : pyval) (s : string) :
  _normalize_sentiment raw = Ok s -> _normalize_sentiment (VStr s) = Ok s.
Proof.
  intros H. apply normalize_sentiment_range in H. simpl in H.
  destruct H as [<-|[<-|[<-|[<-|[]]]]]; reflexivity.
Qed.

(** X11.  An object encoded as JSON text any number of times over is normalised
    to the object. *)
Theorem payload_as_dict_decodes (t : string) (d : pydict) :
  encoded t d -> _payload_as_dict (VStr t) = d.
Proof.
  induction 1 as [t d H|t t' d H _ IH]; rewrite payload_as_dict_unfold;
    unfold _parse_payload; simpl truthy;
    rewrite (json_loads_nonempty _ _ H); simpl; rewrite H; simpl.
  - reflexivity.
  - exact IH.
Qed.

(** ** The carrier and the preferences (lines 460-467 and 555-558) *)

Lemma py_or_default_chain (a d : pyval) :
  truthy d = true -> py_or (py_or a (VStr "")) d = py_or a d.
Proof.
  intros Hd. unfold py_or. destruct (truthy a) eqn:E; [now rewrite E|reflexivity].
Qed.

(** The row [get_carrier_profile] finds for an MC number given as text. *)
Definition profile_of (st : store) (mc_number : string) : option pydict :=
  List.find (fun row => sql_text_eq (dict_get row "mc_number") (SqlText mc_number))
            (carrier_profiles st).

(** X12.  The MC number of a record is that of the carrier of the latest
    verification payload, else that of the payload itself, else a dash.  The
    carrier name is the name or the legal name the payload gives its carrier;
    when it gives none, the legal name of the carrier profile stored under the
    MC number; and [Unknown] when there is no MC number, no such profile or
    no legal name in it. *)
Theorem carrier_identity_resolution (call_id : string) (st : store) (rec : pydict) :
  fst (_build_call_record call_id st) = Ok (VDict rec) ->
  let verification := latest_payload (call_events st call_id) "verify_mc_result" in
  let carrier := payload_field verification "carrier" in
  let named := py_or (payload_field carrier "name") (payload_field carrier "legal_name") in
  let mc := py_or (payload_field carrier "mc_number") (payload_field verification "mc_number") in
  dict_get rec "mc_number" = py_or mc (VStr "—") /\
  (truthy named = true -> dict_get rec "carrier_name" = named) /\
  (truthy named = false -> truthy mc = false ->
   dict_get rec "carrier_name" = VStr "Unknown") /\
  (truthy named = false -> forall number, mc = VStr number -> number <> "" ->
   dict_get rec "carrier_name" =
   py_or (dict_get (default [] (profile_of st number)) "legal_name") (VStr "Unknown")).
Proof.
  intros H verification carrier named mc. invert_build H. injection Hrec as Hrec.
  assert (Hm : dict_get rec "mc_number" = py_or mc_number (VStr "—"))
    by (rewrite Hrec; reflexivity).
  assert (Hc' : dict_get rec "carrier_name" = carrier_name) by (rewrite Hrec; reflexivity).
  rewrite Hm, Hc'. clear Hm Hc' Hrec.
  unfold payload_or_empty in Hv. rewrite entry_payload_latest in Hv by reflexivity.
  pose proof (fun k => as_dict_or_empty_field _ _ k Hv) as Hver. fold verification in Hver.
  unfold carrier_identity, mbind, M_mbind, lift, mret, M_mret in Hci.
  rewrite !Hver in Hci. fold carrier in Hci.
  destruct (as_dict (py_or carrier (VDict []))) as [c|] eqn:Ec; [|discriminate].
  pose proof (fun k => as_dict_or_empty_field _ _ k Ec) as Hcar.
  cbn [fst snd] in Hci. rewrite !Hcar in Hci. fold named mc in Hci.
  assert (Hmc : truthy (py_or mc (VStr "")) = truthy mc).
  { unfold py_or. now destruct (truthy mc) eqn:E. }
  assert (Hnamed : truthy (py_or named (VStr "")) = truthy named).
  { unfold py_or. now destruct (truthy named) eqn:E. }
  rewrite Hmc, Hnamed in Hci.
  destruct (truthy named) eqn:En; cbn [negb andb] in Hci.
  - cbn [fst] in Hci. inversion Hci; subst.
    split; [now apply py_or_default_chain|].
    split; [intros _; rewrite py_or_default_chain by reflexivity;
            unfold py_or; now rewrite En|].
    split; discriminate.
  - destruct (truthy mc) eqn:Em.
    + unfold get_carrier_profile in Hci. cbn [fst snd] in Hci.
      destruct (sqlite_adapt (py_or mc (VStr ""))) as [param|] eqn:Ep; [|discriminate].
      cbn [fst snd res_bind mbind res_mbind] in Hci. inversion Hci; subst.
      split; [now apply py_or_default_chain|].
      split; [discriminate|]. split; [discriminate|].
      intros _ number Hnum _. rewrite Hnum in Ep. unfold py_or in Ep.
      rewrite Hnum in Em. rewrite Em in Ep. simpl in Ep. inversion Ep; subst param.
      unfold profile_of. now rewrite py_or_default_chain.
    + cbn [fst] in Hci. inversion Hci; subst.
      split; [now apply py_or_default_chain|].
      split; [discriminate|]. split.
      * intros _ _. rewrite py_or_default_chain by reflexivity. now apply py_or_falsy.
      * intros _ number Hnum Hne. exfalso. rewrite Hnum in Em. simpl in Em.
        destruct number; [now apply Hne|discriminate Em].
Qed.

(** The keys of the preferences a record shows (line 558). *)
Definition prefs_keys : list string :=
  [ "origin_city"; "origin_state"; "destination_city"; "destination_state";
    "equipment_type"; "weight_capacity"; "min_temp"; "max_temp"; "notes"; "pickup_date";
    "departure_date"; "latest_departure_date" ].

(** The row [get_call_search_prefs] finds for a call id. *)
Definition prefs_row_of (st : store) (call_id : string) : option pydict :=
  List.find (fun row => sql_text_eq (dict_get row "call_id") (SqlText call_id))
            (call_search_prefs st).

(** X13.  A record shows no preferences when none are stored for its call.
    Otherwise it shows twelve of the columns of the stored row and no other:
    nine as they are stored, the weight capacity as an int or [None] and the
    two temperatures as floats or [None]. *)
Theorem call_search_prefs_snapshot (call_id : string) (st : store) (rec : pydict) :
  fst (_build_call_record call_id st) = Ok (VDict rec) ->
  match prefs_row_of st call_id with
  | None => dict_get rec "call_search_prefs" = VNone
  | Some [] => dict_get rec "call_search_prefs" = VNone
  | Some row =>
      exists shown,
        dict_get rec "call_search_prefs" = VDict shown /\
        map fst shown = prefs_keys /\
        Forall (fun k => dict_get shown k = dict_get row k)
               [ "origin_city"; "origin_state"; "destination_city"; "destination_state";
                 "equipment_type"; "notes"; "pickup_date"; "departure_date";
                 "latest_departure_date" ] /\
        safe_number_convert (dict_get row "weight_capacity") TInt
        = Ok (dict_get shown "weight_capacity") /\
        safe_number_convert (dict_get row "min_temp") TFloat = Ok (dict_get shown "min_temp") /\
        safe_number_convert (dict_get row "max_temp") TFloat = Ok (dict_get shown "max_temp")
  end.
Proof.
  intros H. invert_build H. injection Hrec as Hrec.
  assert (Hp' : dict_get rec "call_search_prefs" = prefs) by (rewrite Hrec; reflexivity).
  rewrite Hp'. clear Hp' Hrec.
  unfold prefs_of, get_call_search_prefs in Hp. cbn [fst] in Hp.
  fold (prefs_row_of st call_id) in Hp.
  destruct (prefs_row_of st call_id) as [[|kv row]|]; try (now inversion Hp).
  cbn [truthy] in Hp. unfold prefs_snapshot, mbind, res_mbind, res_bind in Hp.
  destruct (safe_number_convert (dict_get (kv :: row) "weight_capacity") TInt)
    as [w|] eqn:Ew; [|discriminate].
  destruct (safe_number_convert (dict_get (kv :: row) "min_temp") TFloat)
    as [lo|] eqn:Elo; [|discriminate].
  destruct (safe_number_convert (dict_get (kv :: row) "max_temp") TFloat)
    as [hi|] eqn:Ehi; [|discriminate].
  inversion Hp. eexists. split; [reflexivity|]. split; [reflexivity|].
  split; [repeat constructor|]. now repeat split.
Qed.

End Records.


(** * The JSON encoder

    A reference implementation of [json.dumps] with its default settings
    ([ensure_ascii], separators [, ] and [: ], [allow_nan]). *)

Module RefText.

(** *** [repr] of a float

    The shortest decimal text that reads back as the same float and, among
    those, the nearest to it; in exponent form when the decimal point would
    be more than sixteen digits to the right or more than four to the left. *)

Definition same_float (a b : spec_float) : bool :=
  match a, b with
  | S754_finite s m e, S754_finite s' m' e' => Bool.eqb s s' && Pos.eqb m m' && Z.eqb e e'
  | S754_zero s, S754_zero s' => Bool.eqb s s'
  | S754_infinity s, S754_infinity s' => Bool.eqb s s'
  | S754_nan, S754_nan => true
  | _, _ => false
  end.

(** Whether [c * 10 ^ p] is nearer to [m * 2 ^ e] than [(c + 1) * 10 ^ p]. *)
Definition lower_is_nearer (m e c p : Z) : bool :=
  let twice_x := 2 * m * 2 ^ (Z.max e 0) * 10 ^ (Z.max (- p) 0) in
  let ends := (2 * c + 1) * 10 ^ (Z.max p 0) * 2 ^ (Z.max (- e) 0) in
  twice_x <=? ends.

(** The digits [c] and the exponent [p] of the shortest decimal [c * 10 ^ p]
    that reads back as [m * 2 ^ e], tried with [n] digits and more. *)
Fixpoint shortest_from (fuel : nat) (n : Z) (m : positive) (e k : Z) : Z * Z :=
  let p := k - n + 1 in
  let lo := Ref.floor_scaled (Zpos m) e p in
  let back c := same_float (Ref.decimal_to_float false c p) (S754_finite false m e) in
  match fuel with
  | O => (Ref.scaled (Zpos m) e p, p)
  | S fuel' =>
      if back lo && back (lo + 1) then
        (if lower_is_nearer (Zpos m) e lo p then lo else lo + 1, p)
      else if back lo then (lo, p)
      else if back (lo + 1) then (lo + 1, p)
      else shortest_from fuel' (n + 1) m e k
  end.

(** Trailing zeros of the digits moved into the exponent. *)
Fixpoint drop_zeros (fuel : nat) (c p : Z) : Z * Z :=
  match fuel with
  | O => (c, p)
  | S fuel' => if (c mod 10 =? 0) && negb (c =? 0) then drop_zeros fuel' (c / 10) (p + 1)
               else (c, p)
  end.

Definition float_repr (x : spec_float) : string :=
  match x with
  | S754_nan => "nan"
  | S754_zero s => if s then "-0.0" else "0.0"
  | S754_infinity s => if s then "-inf" else "inf"
  | S754_finite s m e =>
      let k := Ref.decimal_exponent (Zpos m) e in
      let '(c0, p0) := shortest_from 16 1 m e k in
      let '(c, p) := drop_zeros 17 c0 p0 in
      let digits := Ref.Z_to_string c in
      let n := Z.of_nat (String.length digits) in
      let decpt := n + p in
      let body :=
        if (decpt <? -3) || (16 <? decpt) then
          let x10 := decpt - 1 in
          PyStr.take_str 1 digits
          +:+ (match PyStr.drop_str 1 digits with EmptyString => "" | t => "." +:+ t end)
          +:+ "e" +:+ (if x10 <? 0 then "-" else "+")
          +:+ (if Z.abs x10 <? 10 then "0" else "") +:+ Ref.Z_to_string (Z.abs x10)
        else if decpt <=? 0 then
          "0." +:+ Ref.zeros (Z.to_nat (- decpt)) +:+ digits
        else if n <=? decpt then
          digits +:+ Ref.zeros (Z.to_nat (decpt - n)) +:+ ".0"
        else
          PyStr.take_str (Z.to_nat decpt) digits +:+ "."
          +:+ PyStr.drop_str (Z.to_nat decpt) digits
      in
      (if s then "-" else "") +:+ body
  end.

(** *** Strings *)

Definition hex_digit (n : N) : ascii :=
  ascii_of_N (if (n <? 10)%N then 48 + n else 87 + n)%N.

(** [\uXXXX] *)
Definition u_escape (cp : N) : string :=
  "\u" +:+ String (hex_digit (cp / 4096 mod 16))
             (String (hex_digit (cp / 256 mod 16))
                (String (hex_digit (cp / 16 mod 16))
                   (String (hex_digit (cp mod 16)) EmptyString))).

(** The code point the UTF-8 text starts with, and the rest; a byte that
    starts no character stands for itself. *)
Definition utf8_next (a : ascii) (r : string) : N * string :=
  let x := PyStr.code a in
  let cont (s : string) : option (N * string) :=
    match s with
    | String b s' =>
        let y := PyStr.code b in
        if ((128 <=? y) && (y <? 192))%N then Some ((y - 128)%N, s') else None
    | EmptyString => None
    end in
  if (x <? 192)%N then (x, r)
  else if (x <? 224)%N then
    match cont r with
    | Some (b, r1) => (((x - 192) * 64 + b)%N, r1)
    | None => (x, r)
    end
  else if (x <? 240)%N then
    match cont r with
    | Some (b, r1) =>
        match cont r1 with
        | Some (c, r2) => (((x - 224) * 4096 + b * 64 + c)%N, r2)
        | None => (x, r)
        end
    | None => (x, r)
    end
  else
    match cont r with
    | Some (b, r1) =>
        match cont r1 with
        | Some (c, r2) =>
            match cont r2 with
            | Some (d, r3) => (((x - 240) * 262144 + b * 4096 + c * 64 + d)%N, r3)
            | None => (x, r)
            end
        | None => (x, r)
        end
    | None => (x, r)
    end.

Definition escape_code_point (cp : N) : string :=
  if (cp =? 34)%N then "\" +:+ String PyStr.dquote EmptyString
  else if (cp =? 92)%N then "\\"
  else if (cp =? 10)%N then "\n"
  else if (cp =? 13)%N then "\r"
  else if (cp =? 9)%N then "\t"
  else if (cp =? 8)%N then "\b"
  else if (cp =? 12)%N then "\f"
  else if ((32 <=? cp) && (cp <=? 126))%N then String (ascii_of_N cp) EmptyString
  else if (cp <? 65536)%N then u_escape cp
  else
    let v := (cp - 65536)%N in
    u_escape (55296 + v / 1024)%N +:+ u_escape (56320 + v mod 1024)%N.

Fixpoint escape_fuel (fuel : nat) (s : string) : string :=
  match fuel, s with
  | S fuel', String a r =>
      let '(cp, rest) := utf8_next a r in
      escape_code_point cp +:+ escape_fuel fuel' rest
  | _, _ => EmptyString
  end.

Definition dumps_str (s : string) : string :=
  String PyStr.dquote (escape_fuel (String.length s) s)
  +:+ String PyStr.dquote EmptyString.

(** *** Values *)

Definition dumps_float (x : spec_float) : string :=
  match x with
  | S754_nan => "NaN"
  | S754_infinity s => if s then "-Infinity" else "Infinity"
  | _ => float_repr x
  end.

Fixpoint join (sep : string) (l : list string) : string :=
  match l with
  | [] => EmptyString
  | [x] => x
  | x :: r => x +:+ sep +:+ join sep r
  end.

Fixpoint json_dumps (v : pyval_ spec_float) : string :=
  match v with
  | VNone => "null"
  | VBool b => if b then "true" else "false"
  | VInt z => Ref.Z_to_string z
  | VFloat x => dumps_float x
  | VStr s => dumps_str s
  | VList l => "[" +:+ join ", " (map json_dumps l) +:+ "]"
  | VDict d =>
      "{" +:+ join ", " (map (fun kv => dumps_str (fst kv) +:+ ": " +:+ json_dumps (snd kv)) d)
      +:+ "}"
  end.

End RefText.


(** * [str.strip] leaves nothing to strip *)

Module PyStrFacts.
Import PyStr.

Lemma drop_str_remaining (k : nat) (s : string) :
  String.length (drop_str k s) = (String.length s - k)%nat.
Proof.
  revert s. induction k as [|k IH]; intros [|a s]; simpl; try lia. apply IH.
Qed.

Lemma space_prefix_bound (s : string) :
  (space_prefix s <= String.length s)%nat.
Proof.
  destruct s as [|a [|b [|c s]]]; simpl;
    repeat match goal with |- context [if ?b then _ else _] => destruct b end; lia.
Qed.

Lemma space_suffix_bound (l : list ascii) :
  (space_suffix l <= length l)%nat.
Proof.
  destruct l as [|a [|b [|c l]]]; simpl;
    repeat match goal with |- context [if ?b then _ else _] => destruct b end; lia.
Qed.

Lemma lstrip_fuel_clean (fuel : nat) (s : string) :
  (String.length s <= fuel)%nat -> space_prefix (lstrip_fuel fuel s) = 0%nat.
Proof.
  revert s. induction fuel as [|fuel IH]; intros s Hs.
  - destruct s; [reflexivity|simpl in Hs; lia].
  - cbn [lstrip_fuel]. destruct (space_prefix s) as [|k] eqn:E; [exact E|].
    apply IH. rewrite drop_str_remaining. pose proof (space_prefix_bound s). lia.
Qed.

Lemma lstrip_fuel_fixed (fuel : nat) (s : string) :
  space_prefix s = 0%nat -> lstrip_fuel fuel s = s.
Proof. intros E. destruct fuel; [reflexivity|]. cbn [lstrip_fuel]. now rewrite E. Qed.

Lemma rstrip_fuel_clean (fuel : nat) (l : list ascii) :
  (length l <= fuel)%nat -> space_suffix (rstrip_fuel fuel l) = 0%nat.
Proof.
  revert l. induction fuel as [|fuel IH]; intros l Hl.
  - destruct l; [reflexivity|simpl in Hl; lia].
  - cbn [rstrip_fuel]. destruct (space_suffix l) as [|k] eqn:E; [exact E|].
    apply IH. rewrite length_drop. pose proof (space_suffix_bound l). lia.
Qed.

Lemma rstrip_fuel_fixed (fuel : nat) (l : list ascii) :
  space_suffix l = 0%nat -> rstrip_fuel fuel l = l.
Proof. intros E. destruct fuel; [reflexivity|]. cbn [rstrip_fuel]. now rewrite E. Qed.

Lemma rstrip_fuel_drop (fuel : nat) (l : list ascii) :
  exists k, rstrip_fuel fuel l = drop k l.
Proof.
  revert l. induction fuel as [|fuel IH]; intros l; [now exists 0%nat|].
  cbn [rstrip_fuel]. destruct (space_suffix l) as [|k]; [now exists 0%nat|].
  destruct (IH (drop (S k) l)) as [j Hj]. exists (j + S k)%nat.
  now rewrite Hj, drop_drop, Nat.add_comm.
Qed.

(** What [rstrip] keeps is a prefix of the string. *)
Lemma rstrip_take (s : string) :
  exists n, rstrip s = string_of_list_ascii (take n (list_ascii_of_string s)).
Proof.
  unfold rstrip.
  destruct (rstrip_fuel_drop (String.length s) (rev (list_ascii_of_string s))) as [k ->].
  exists (length (list_ascii_of_string s) - k)%nat.
  f_equal. now rewrite List.skipn_rev, rev_involutive.
Qed.

Lemma space_prefix_take (n : nat) (l : list ascii) :
  space_prefix (string_of_list_ascii l) = 0%nat ->
  space_prefix (string_of_list_ascii (take n l)) = 0%nat.
Proof.
  destruct l as [|a [|b [|c l]]]; destruct n as [|[|[|n]]]; simpl; try reflexivity;
    repeat match goal with |- context [if ?b then _ else _] => destruct b end;
    try reflexivity; try discriminate.
Qed.

Lemma rstrip_keeps_clean (s : string) :
  space_prefix s = 0%nat -> space_prefix (rstrip s) = 0%nat.
Proof.
  intros E. destruct (rstrip_take s) as [n ->]. apply space_prefix_take.
  now rewrite string_of_list_ascii_of_string.
Qed.

Lemma lstrip_fixed (s : string) : space_prefix s = 0%nat -> lstrip s = s.
Proof. apply lstrip_fuel_fixed. Qed.

Lemma rstrip_rstrip (s : string) : rstrip (rstrip s) = rstrip s.
Proof.
  unfold rstrip at 1 2.
  set (kept := rstrip_fuel (String.length s) (rev (list_ascii_of_string s))).
  rewrite list_ascii_of_string_of_list_ascii, rev_involutive.
  rewrite rstrip_fuel_fixed; [reflexivity|].
  apply rstrip_fuel_clean. rewrite length_rev.
  clear. induction s; simpl; lia.
Qed.

Lemma strip_strip (s : string) : strip (strip s) = strip s.
Proof.
  unfold strip. rewrite (lstrip_fixed (rstrip (lstrip s))).
  - apply rstrip_rstrip.
  - apply rstrip_keeps_clean, lstrip_fuel_clean. reflexivity.
Qed.

End PyStrFacts.


(** * Writing events and listing calls

    [log_event] and [get_distinct_call_ids] of [app/storage.py], and the
    endpoints of [app/main.py] that write events or list calls:
    [_effective_call_id], [log_event], [call_output], [api_list_calls] and
    [api_get_call].  The endpoints are modelled from the point their handler
    runs: the check of the API key is a dependency resolved before it. *)

(** [json.dumps], library code like the operations of [PyLib]. *)
Class PyJson (L : PyLib) : Type := {
  json_dumps : pyval_ pyfloat -> string
}.

Section Writes.
Context {L : PyLib} {J : PyJson L}.

Abbreviation pyval := (pyval_ pyfloat).
Abbreviation pydict := (list (string * pyval_ pyfloat)).

(** [_effective_call_id] (main.py, lines 57-59) *)
Definition _effective_call_id (call_id : option string) : string :=
  let stripped := PyStr.strip (default "" call_id) in
  if PyStr.is_empty stripped then "unknown" else stripped.

(** [log_event] of storage.py (lines 92-102), which main.py imports as
    [db_log_event]: one row is inserted.  [now] is the text of
    [datetime.utcnow().isoformat()] at the call. *)
Definition db_log_event (now : string) (call_id event_type : string) (payload : pyval)
  : M bool :=
  fun st =>
    (Ok true,
     {| events := (events st ++ [ {| ev_call_id := call_id;
                                     ev_event_type := event_type;
                                     ev_payload := Some (json_dumps payload);
                                     ev_timestamp := now +:+ "Z" |} ])%list;
        carrier_profiles := carrier_profiles st;
        call_search_prefs := call_search_prefs st |}).

(** The WHERE clause of [get_distinct_call_ids]: [TRIM] takes the spaces
    off both ends. *)
Definition listed_call_id (call_id : string) : bool :=
  negb (PyStr.is_empty (PyStr.strip_char " " call_id))
  && negb (String.eqb call_id "unknown").

(** One id for each group, at the place of its last row. *)
Fixpoint last_occurrences (ids : list string) : list string :=
  match ids with
  | [] => []
  | c :: later =>
      if existsb (String.eqb c) later then last_occurrences later
      else c :: last_occurrences later
  end.

(** [get_distinct_call_ids] (storage.py, lines 221-233):
    SELECT call_id FROM events WHERE ... GROUP BY call_id ORDER BY MAX(id) DESC *)
Definition distinct_call_ids (rows : list event_row) : list string :=
  rev (last_occurrences (List.filter listed_call_id (map ev_call_id rows))).

Definition get_distinct_call_ids : M (list string) :=
  fun st => (Ok (distinct_call_ids (events st)), st).

(** ** The endpoints *)

(** What a handler does: it returns a response body, raises an
    [HTTPException], or lets an exception escape. *)
Inductive reply (A : Type) : Type :=
| Respond (body : A)
| HttpError (status_code : Z) (detail : string)
| Uncaught (e : exn).
Arguments Respond {A} body.
Arguments HttpError {A} status_code detail.
Arguments Uncaught {A} e.

Record LogEventRequest := {
  le_call_id : option string;
  le_event_type : option string;
  le_payload : option pydict
}.

(** [log_event] (main.py, lines 164-176) *)
Definition log_event (now : string) (req : LogEventRequest) : M pyval :=
  match le_payload req with
  | None =>
      mret (VDict [ ("ok", VBool true); ("schema_probe", VBool true);
                    ("expected_body",
                      VDict [ ("call_id", VStr "string"); ("event_type", VStr "string");
                              ("payload", VDict []) ]) ])
  | Some payload =>
      let call_id :=
        let stripped := PyStr.strip (default "" (le_call_id req)) in
        if PyStr.is_empty stripped then "unknown" else stripped in
      let event_type := PyStr.strip (default "" (le_event_type req)) in
      if PyStr.is_empty event_type then
        _ ← db_log_event now call_id "log_event" (VDict payload);
        mret (VDict [ ("ok", VBool true);
                      ("warning",
                        VStr "event_type was empty; payload logged under event_type 'log_event'") ])
      else
        _ ← db_log_event now call_id event_type (VDict payload);
        let out := [("ok", VBool true)] in
        mret (VDict
                (if String.eqb call_id "unknown" then
                   dict_set out "warning"
                     (VStr "call_id was empty; event logged with call_id 'unknown'. Set call_id in your workflow so this call appears in the call log.")
                 else out))
  end.

Record CallOutputRequest := {
  co_call_id : string;
  co_event_type : string;
  co_payload : pyval   (* a dict or a str *)
}.

(** [call_output] (main.py, lines 179-183) *)
Definition call_output (now : string) (req : CallOutputRequest) : M pyval :=
  let cid := _effective_call_id (Some (co_call_id req)) in
  let event_type := PyStr.strip (co_event_type req) in
  _ ← db_log_event now cid (if PyStr.is_empty event_type then "call_output" else event_type)
                   (co_payload req);
  mret (VDict [ ("ok", VBool true); ("call_id", VStr (co_call_id req));
                ("event_type", VStr (co_event_type req)); ("payload", co_payload req) ]).

(** [api_get_call] (main.py, lines 695-700) *)
Definition api_get_call (call_id : string) (st : store) : reply pyval :=
  match fst (_build_call_record call_id st) with
  | Raise e => Uncaught e
  | Ok rec => if truthy rec then Respond rec else HttpError 404 "Call not found"
  end.

(** ** Logging an event *)

(** The row as [get_events_by_call_id] returns it. *)
Definition logged_event (now event_type : string) (payload : pyval) : event :=
  {| event_type := event_type;
     payload := Some (json_dumps payload);
     timestamp := now +:+ "Z" |}.

Lemma select_events_snoc (call_id : string) (rows : list event_row) (r : event_row) :
  select_events call_id (rows ++ [r])%list =
  (select_events call_id rows
   ++ (if String.eqb (ev_call_id r) call_id
       then [ {| event_type := ev_event_type r; payload := ev_payload r;
                 timestamp := ev_timestamp r |} ]
       else []))%list.
Proof.
  unfold select_events. rewrite List.filter_app, List.map_app. simpl.
  now destruct (String.eqb (ev_call_id r) call_id).
Qed.

Lemma call_events_logged (now call_id event_type : string) (payload : pyval) (st : store)
      (other : string) :
  call_events (snd (db_log_event now call_id event_type payload st)) other =
  if String.eqb call_id other
  then (call_events st other ++ [logged_event now event_type payload])%list
  else call_events st other.
Proof.
  unfold call_events, db_log_event. cbn [snd events]. rewrite select_events_snoc. simpl.
  destruct (String.eqb call_id other); [reflexivity|apply app_nil_r].
Qed.

(** X14.  [log_event] inserts one row and touches nothing else: read back with
    [get_events_by_call_id], the events of the call are the earlier ones
    followed by the new one, which carries the JSON text of the payload and
    the clock reading with a Z; the events of every other call, the carrier
    profiles and the search preferences are as before. *)
Theorem log_event_appends (now call_id event_type : string) (payload : pyval) (st : store) :
  let st' := snd (db_log_event now call_id event_type payload st) in
  fst (db_log_event now call_id event_type payload st) = Ok true /\
  fst (get_events_by_call_id call_id st')
  = Ok (call_events st call_id ++ [logged_event now event_type payload])%list /\
  (forall other, other <> call_id ->
     fst (get_events_by_call_id other st') = fst (get_events_by_call_id other st)) /\
  carrier_profiles st' = carrier_profiles st /\
  call_search_prefs st' = call_search_prefs st.
Proof.
  intros st'. split; [reflexivity|]. split; [|split; [|split; reflexivity]].
  - unfold get_events_by_call_id. cbn [fst]. f_equal. fold (call_events st' call_id).
    unfold st'. rewrite call_events_logged. now rewrite String.eqb_refl.
  - intros other Hne. unfold get_events_by_call_id. cbn [fst]. f_equal.
    fold (call_events st' other). fold (call_events st other).
    unfold st'. rewrite call_events_logged.
    destruct (String.eqb call_id other) eqn:E; [|reflexivity].
    apply String.eqb_eq in E. congruence.
Qed.

(** X15.  An event logged for one call leaves the record of every other call as
    it was. *)
Theorem log_event_other_call (now call_id event_type : string) (payload : pyval)
        (st : store) (other : string) :
  other <> call_id ->
  fst (_build_call_record other (snd (db_log_event now call_id event_type payload st)))
  = fst (_build_call_record other st).
Proof.
  intros Hne. apply build_by_view; [|reflexivity..].
  rewrite call_events_logged.
  destruct (String.eqb call_id other) eqn:E; [|reflexivity].
  apply String.eqb_eq in E. congruence.
Qed.

(** X16.  The event just logged is the one the builder reads for its type.
    In the grouping the builder makes of the events of the call (lines
    443-447), the entry under the normalised type of the new event is the
    parsed JSON text of the payload logged, with the time of the log, and the
    entries of the other types are as before; where the JSON library gives
    the payload back from its text, the payload the builder reads is the
    payload logged.  An event whose type normalises to the empty string is
    not read: the grouping is as before. *)
Theorem logged_payload_is_read (now call_id event_type : string) (payload : pyval)
        (st : store) :
  let st' := snd (db_log_event now call_id event_type payload st) in
  let key := event_key (logged_event now event_type payload) in
  let by_type := group_by_type (call_events st call_id) in
  let by_type' := group_by_type (call_events st' call_id) in
  (PyStr.is_empty key = true -> by_type' = by_type) /\
  (PyStr.is_empty key = false ->
   by_type' !! key = Some (_parse_payload (VStr (json_dumps payload)), now +:+ "Z") /\
   (json_loads (json_dumps payload) = Some payload ->
    entry_payload by_type' key = payload /\
    payload_or_empty by_type' key = py_or payload (VDict [])) /\
   (forall other_key, other_key <> key -> by_type' !! other_key = by_type !! other_key)).
Proof.
  intros st' key by_type by_type'. unfold by_type', st'.
  rewrite call_events_logged, String.eqb_refl, group_by_type_snoc.
  fold by_type. unfold group_step. fold key. split.
  - intros E. now rewrite E.
  - intros E. rewrite E. unfold logged_event. simpl (text_column _). simpl (timestamp _).
    assert (Hentry : <[key:=(_parse_payload (VStr (json_dumps payload)), now +:+ "Z")]> by_type
                     !! key
                     = Some (_parse_payload (VStr (json_dumps payload)), now +:+ "Z"))
      by apply lookup_insert_eq.
    split; [exact Hentry|]. split.
    + intros Hv. unfold payload_or_empty, entry_payload. rewrite Hentry.
      unfold _parse_payload. simpl truthy.
      rewrite (json_loads_nonempty _ _ Hv). simpl. rewrite Hv. now split.
    + intros other_key Hne. apply lookup_insert_ne. congruence.
Qed.

(** ** The list of calls *)

Lemma last_occurrences_in (ids : list string) (c : string) :
  In c (last_occurrences ids) <-> In c ids.
Proof.
  induction ids as [|x ids IH]; simpl; [tauto|].
  destruct (existsb (String.eqb x) ids) eqn:E; simpl; rewrite IH; [|tauto].
  split; [tauto|]. intros [->|H]; [|exact H].
  apply existsb_exists in E as (y & Hy & Exy). apply String.eqb_eq in Exy. now subst.
Qed.

Lemma last_occurrences_nodup (ids : list string) : List.NoDup (last_occurrences ids).
Proof.
  induction ids as [|x ids IH]; simpl; [constructor|].
  destruct (existsb (String.eqb x) ids) eqn:E; [exact IH|].
  constructor; [|exact IH]. rewrite last_occurrences_in. intros Hin.
  assert (existsb (String.eqb x) ids = true); [|congruence].
  apply existsb_exists. exists x. split; [exact Hin|apply String.eqb_refl].
Qed.

Lemma last_occurrences_snoc (ids : list string) (c : string) :
  exists before, last_occurrences (ids ++ [c])%list = (before ++ [c])%list.
Proof.
  induction ids as [|x ids (before & IH)]; simpl.
  - now exists [].
  - destruct (existsb (String.eqb x) (ids ++ [c])%list).
    + now exists before.
    + exists (x :: before). now rewrite IH.
Qed.

Lemma call_events_nonempty (st : store) (call_id : string) :
  call_events st call_id <> [] <-> In call_id (map ev_call_id (events st)).
Proof.
  unfold call_events, select_events. rewrite in_map_iff. split.
  - intros H. destruct (List.filter _ (events st)) as [|r rows] eqn:E; [now destruct H|].
    assert (Hin : In r (List.filter (fun r => String.eqb (ev_call_id r) call_id) (events st)))
      by (rewrite E; now left).
    apply filter_In in Hin as [Hin Hr]. apply String.eqb_eq in Hr. now exists r.
  - intros (r & Hr & Hin) Hnil.
    assert (Hf : In r (List.filter (fun r => String.eqb (ev_call_id r) call_id) (events st))).
    { apply filter_In. split; [exact Hin|]. now apply String.eqb_eq. }
    destruct (List.filter _ (events st)); [destruct Hf|discriminate].
Qed.

(** X17.  [get_distinct_call_ids] reads only; it lists each call id once; a call
    id is listed exactly when the call has an event and the id is neither
    spaces only nor [unknown]; the call of the latest row, when it is
    listed, comes first; and every call listed has a record or raises: the
    builder never answers [None] for it. *)
Theorem distinct_call_ids_listing (st : store) :
  let ids := distinct_call_ids (events st) in
  get_distinct_call_ids st = (Ok ids, st) /\
  List.NoDup ids /\
  (forall c, In c ids <-> call_events st c <> [] /\ listed_call_id c = true) /\
  ~ In "unknown" ids /\ ~ In "" ids /\
  (forall rows r, events st = (rows ++ [r])%list -> listed_call_id (ev_call_id r) = true ->
                  hd_error ids = Some (ev_call_id r)) /\
  (forall c, In c ids -> fst (_build_call_record c st) <> Ok VNone).
Proof.
  intros ids.
  assert (Hin : forall c, In c ids <-> call_events st c <> [] /\ listed_call_id c = true).
  { intros c. unfold ids, distinct_call_ids.
    rewrite <- in_rev, last_occurrences_in, filter_In, call_events_nonempty. tauto. }
  split; [reflexivity|]. split; [|split; [exact Hin|]].
  { unfold ids, distinct_call_ids. apply List.NoDup_rev, last_occurrences_nodup. }
  split; [|split; [|split]].
  - intros H. apply Hin in H as [_ H]. discriminate.
  - intros H. apply Hin in H as [_ H]. discriminate.
  - intros rows r Hrows Hr. unfold ids, distinct_call_ids.
    rewrite Hrows, List.map_app, List.filter_app. simpl. rewrite Hr.
    destruct (last_occurrences_snoc (List.filter listed_call_id (map ev_call_id rows))
                                    (ev_call_id r)) as (before & ->).
    now rewrite rev_app_distr.
  - intros c Hc Hnone. apply Hin in Hc as [Hc _].
    apply build_returns_none in Hnone. contradiction.
Qed.

(** ** The endpoints that write *)

Lemma distinct_call_ids_unlisted (rows : list event_row) (r : event_row) :
  listed_call_id (ev_call_id r) = false ->
  distinct_call_ids (rows ++ [r])%list = distinct_call_ids rows.
Proof.
  intros Hr. unfold distinct_call_ids.
  rewrite List.map_app, List.filter_app. simpl. rewrite Hr. now rewrite app_nil_r.
Qed.

(** X18.  The [log_event] endpoint answers [ok] whatever it is sent.  A request
    without a payload is a probe and writes nothing.  Any other request
    inserts exactly one row: its call id is the stripped call id of the
    request, or [unknown] when that is missing or blank; its event type is the
    stripped type of the request, or [log_event] when that is missing or
    blank; neither is ever empty.  A row stored under [unknown] does not
    change the list of calls. *)
Theorem log_event_endpoint (now : string) (req : LogEventRequest) (st : store) :
  let st' := snd (log_event now req st) in
  (exists body, fst (log_event now req st) = Ok (VDict body)
                /\ dict_get body "ok" = VBool true) /\
  (le_payload req = None -> st' = st) /\
  (forall payload, le_payload req = Some payload ->
     exists row,
       events st' = (events st ++ [row])%list /\
       carrier_profiles st' = carrier_profiles st /\
       call_search_prefs st' = call_search_prefs st /\
       ev_call_id row = _effective_call_id (le_call_id req) /\
       ev_call_id row <> "" /\
       ev_event_type row
       = (let event_type := PyStr.strip (default "" (le_event_type req)) in
          if PyStr.is_empty event_type then "log_event" else event_type) /\
       ev_event_type row <> "" /\
       ev_payload row = Some (json_dumps (VDict payload)) /\
       ev_timestamp row = now +:+ "Z" /\
       (ev_call_id row = "unknown" ->
        distinct_call_ids (events st') = distinct_call_ids (events st))).
Proof.
  intros st'. unfold st', log_event.
  destruct (le_payload req) as [payload|] eqn:Ep.
  2:{ split; [eexists; split; reflexivity|]. split; [reflexivity|discriminate]. }
  cbv zeta. fold (_effective_call_id (le_call_id req)).
  assert (Hcid : _effective_call_id (le_call_id req) <> "").
  { unfold _effective_call_id. cbv zeta.
    destruct (PyStr.strip (default "" (le_call_id req))) eqn:E; simpl; discriminate. }
  assert (Hunlisted : forall rows r, ev_call_id r = "unknown" ->
            distinct_call_ids (rows ++ [r])%list = distinct_call_ids rows).
  { intros rows r Hr. apply distinct_call_ids_unlisted. now rewrite Hr. }
  destruct (PyStr.is_empty (PyStr.strip (default "" (le_event_type req)))) eqn:Ee.
  - split; [eexists; split; reflexivity|]. split; [discriminate|].
    intros p Hp. inversion Hp; subst p. eexists. split; [reflexivity|].
    cbn [ev_call_id ev_event_type ev_payload ev_timestamp events snd].
    repeat split; try assumption; try discriminate.
    intros Hu. now apply Hunlisted.
  - split.
    { destruct (String.eqb (_effective_call_id (le_call_id req)) "unknown");
        eexists; split; reflexivity. }
    split; [discriminate|].
    intros p Hp. inversion Hp; subst p. eexists. split; [reflexivity|].
    cbn [ev_call_id ev_event_type ev_payload ev_timestamp events snd].
    repeat split; try assumption.
    + intros He. rewrite He in Ee. discriminate.
    + intros Hu. now apply Hunlisted.
Qed.

(** X19.  The [call_output] endpoint inserts exactly one row and echoes the
    request.  The row's call id and event type are never empty ([unknown]
    and [call_output] stand in for blank ones), and its payload is the JSON
    text of the payload as received.  A payload sent as a string is so
    stored as a JSON string: where the JSON library gives the string back
    from its text, the payload read from the row is that string, and no
    mapping. *)
Theorem call_output_endpoint (now : string) (req : CallOutputRequest) (st : store) :
  let st' := snd (call_output now req st) in
  fst (call_output now req st)
  = Ok (VDict [ ("ok", VBool true); ("call_id", VStr (co_call_id req));
                ("event_type", VStr (co_event_type req)); ("payload", co_payload req) ]) /\
  exists row,
    events st' = (events st ++ [row])%list /\
    carrier_profiles st' = carrier_profiles st /\
    call_search_prefs st' = call_search_prefs st /\
    ev_call_id row = _effective_call_id (Some (co_call_id req)) /\
    ev_call_id row <> "" /\
    ev_event_type row <> "" /\
    (PyStr.is_empty (PyStr.strip (co_event_type req)) = true ->
     ev_event_type row = "call_output") /\
    ev_payload row = Some (json_dumps (co_payload req)) /\
    (forall text, co_payload req = VStr text ->
       json_loads (json_dumps (VStr text)) = Some (VStr text) ->
       _parse_payload (text_column (ev_payload row)) = VStr text /\
       forall d, _parse_payload (text_column (ev_payload row)) <> VDict d).
Proof.
  intros st'. unfold st', call_output. cbv zeta. split; [reflexivity|].
  eexists. split; [reflexivity|].
  cbn [ev_call_id ev_event_type ev_payload ev_timestamp events snd].
  do 3 (split; [reflexivity|]). split; [|split; [|split; [|split; [reflexivity|]]]].
  - unfold _effective_call_id. cbv zeta.
    destruct (PyStr.strip (default "" (Some (co_call_id req)))) eqn:E; simpl; discriminate.
  - destruct (PyStr.is_empty (PyStr.strip (co_event_type req))) eqn:E; [discriminate|].
    intros He. rewrite He in E. discriminate.
  - intros E. now rewrite E.
  - intros text Hp Hv. rewrite Hp. simpl. unfold _parse_payload. simpl truthy.
    rewrite (json_loads_nonempty _ _ Hv). simpl. rewrite Hv. simpl.
    split; [reflexivity|discriminate].
Qed.

(** X20.  The call id under which the endpoints store an event is never empty
    and has no white space around it, and normalising it again changes
    nothing: it is the stripped id of the request, or [unknown] when that
    is missing or blank. *)
Theorem effective_call_id_normal (call_id : option string) :
  let cid := _effective_call_id call_id in
  cid <> "" /\
  PyStr.strip cid = cid /\
  _effective_call_id (Some cid) = cid /\
  (cid = "unknown" <->
   PyStr.strip (default "" call_id) = "" \/ PyStr.strip (default "" call_id) = "unknown").
Proof.
  unfold _effective_call_id. cbv zeta.
  destruct (PyStr.strip (default "" call_id)) as [|a s] eqn:E; cbn [PyStr.is_empty].
  - split; [discriminate|]. split; [reflexivity|]. split; [reflexivity|]. tauto.
  - assert (Hs : PyStr.strip (String a s) = String a s)
      by (rewrite <- E; apply PyStrFacts.strip_strip).
    split; [discriminate|]. split; [exact Hs|].
    split; [change (default "" (Some (String a s))) with (String a s); now rewrite Hs|].
    split; [now right|]. now intros [H|H].
Qed.

(** ** The endpoints that read *)

(** X21.  [api_get_call] answers 404 exactly when the store holds no event of
    the call, and otherwise the record of the builder, or the exception the
    builder raised. *)
Theorem api_get_call_answers (call_id : string) (st : store) :
  (api_get_call call_id st = HttpError 404 "Call not found"
   <-> call_events st call_id = []) /\
  (forall rec, api_get_call call_id st = Respond rec <->
               fst (_build_call_record call_id st) = Ok rec /\ rec <> VNone) /\
  (forall e, api_get_call call_id st = Uncaught e <->
             fst (_build_call_record call_id st) = Raise e).
Proof.
  unfold api_get_call.
  pose proof (build_returns_none call_id st) as Hnone.
  destruct (fst (_build_call_record call_id st)) as [rec|e] eqn:E.
  - assert (Hrec : rec = VNone \/ exists r, rec = VDict r /\ truthy rec = true).
    { apply build_ok_iff in E. destruct (call_events st call_id); [now left|].
      destruct E as (?&?&?&?&?&?&?&?&?&?&?&?&?&?&?&?&?&?&?&?&?&?&?&?&E).
      right. subst rec. eexists. split; reflexivity. }
    destruct Hrec as [->|(r & -> & Ht)].
    + simpl. split; [|split].
      * split; [intros _; now apply Hnone|reflexivity].
      * intros rec. split; [discriminate|]. intros [H Hn]. inversion H. congruence.
      * intros e. split; discriminate.
    + rewrite Ht. split; [|split].
      * split; [discriminate|]. intros H. apply Hnone in H. discriminate.
      * intros rec. split.
        -- intros H. inversion H. split; [reflexivity|discriminate].
        -- intros [H _]. now inversion H.
      * intros e. split; discriminate.
  - split; [|split].
    + split; [discriminate|]. intros H. apply Hnone in H. discriminate.
    + intros rec. split; [discriminate|]. intros [H _]. discriminate.
    + intros e'. split; intros H; inversion H; reflexivity.
Qed.

End Writes.

(** ** The list of call records

    [str] and [str.lower] (on every character, unlike [PyStr.lower]) are
    library code; the listing is modelled over any two functions in their
    place. *)

Section Listing.
Context {L : PyLib}.
Variable py_str : pyval_ pyfloat -> string.
Variable str_lower : string -> string.

Abbreviation pyval := (pyval_ pyfloat).
Abbreviation pydict := (list (string * pyval_ pyfloat)).

(** [haystack] of [api_list_calls] (line 688) *)
Definition haystack (rec : pydict) : res string :=
  let text v := py_str (py_or v (VStr "")) in
  (* (rec.get(load_matched) or empty).get(...), for each of the three fields *)
  load ← as_dict (py_or (dict_get rec "load_matched") (VDict []));
  prefs ← as_dict (py_or (dict_get rec "call_search_prefs") (VDict []));
  Ok (str_lower
        (RefText.join " "
           [ text (dict_get rec "mc_number");
             text (dict_get rec "carrier_name");
             text (dict_get load "load_id");
             text (dict_get load "origin");
             text (dict_get load "destination");
             text (dict_get prefs "origin_city");
             text (dict_get prefs "destination_city");
             text (dict_get prefs "equipment_type") ])).

(** A query parameter that is given and not empty. *)
Definition given (p : option string) : option string :=
  match p with
  | Some s => if PyStr.is_empty s then None else Some s
  | None => None
  end.

(** The body of the loop of [api_list_calls] once a record is built
    (lines 680-691): whether the record is kept. *)
Definition keeps (q outcome sentiment : option string) (rec : pyval) : res bool :=
  if negb (truthy rec) then Ok false
  else
    r ← as_dict rec;
    if match given outcome with
       | Some o => negb (py_eq_str (dict_get r "outcome") o)
       | None => false
       end then Ok false
    else if match given sentiment with
            | Some s => negb (py_eq_str (dict_get r "sentiment") s)
            | None => false
            end then Ok false
    else
      match given q with
      | Some text =>
          h ← haystack r;
          Ok (PyStr.contains (str_lower text) h)
      | None => Ok true
      end.

(** The loop of lines 675-691; a build that raises is skipped. *)
Fixpoint list_calls_loop (q outcome sentiment : option string) (call_ids : list string)
  : M (list pyval) :=
  match call_ids with
  | [] => mret []
  | cid :: rest =>
      fun st =>
        match _build_call_record cid st with
        | (Raise _, st') => list_calls_loop q outcome sentiment rest st'
        | (Ok rec, st') =>
            (keep ← lift (keeps q outcome sentiment rec);
             records ← list_calls_loop q outcome sentiment rest;
             mret (if (keep : bool) then rec :: records else records)) st'
        end
  end.

(** [api_list_calls] (main.py, lines 671-692) *)
Definition api_list_calls (q outcome sentiment : option string) : M (list pyval) :=
  call_ids ← get_distinct_call_ids;
  list_calls_loop q outcome sentiment call_ids.

Lemma py_eq_str_true (v : pyval) (s : string) : py_eq_str v s = true -> v = VStr s.
Proof.
  destruct v; simpl; try discriminate. intros H. apply String.eqb_eq in H. now subst.
Qed.

Lemma prefs_of_shape (call_id : string) (st : store) (prefs : pyval) :
  prefs_of call_id st = Ok prefs -> prefs = VNone \/ exists d, prefs = VDict d.
Proof.
  unfold prefs_of. destruct (fst (get_call_search_prefs call_id st)) as [[row|]|];
    try discriminate; [|intros H; inversion H; now left].
  destruct (truthy (VDict row)); [|intros H; inversion H; now left].
  unfold prefs_snapshot, mbind, res_mbind, res_bind.
  repeat (destruct (safe_number_convert _ _); [|discriminate]).
  intros H. inversion H. right. eexists. reflexivity.
Qed.

(** What the listing relies on in a record: it is a dict, and its matched
    load and its preferences are dicts or [None]. *)
Lemma built_record_parts (call_id : string) (st : store) (rec : pyval) :
  fst (_build_call_record call_id st) = Ok rec ->
  rec = VNone \/
  exists r, rec = VDict r /\ truthy rec = true /\
    (dict_get r "load_matched" = VNone \/ exists lm, dict_get r "load_matched" = VDict lm) /\
    (dict_get r "call_search_prefs" = VNone
     \/ exists p, dict_get r "call_search_prefs" = VDict p).
Proof.
  intros H. apply build_ok_iff in H.
  destruct (call_events st call_id) as [|first_event rest]; [now left|].
  destruct H as (classified & duration & verify & eligible & mc_number & carrier_name & neg
                 & load0 & negotiation & load_matched & sentiment & tone & reasoning & prefs
                 & Hc & Hd & Hv & Hci & Hn & Hl & Hg & Hb & Hs & Hp & Hrec).
  right. subst rec. eexists. split; [reflexivity|]. split; [reflexivity|].
  rewrite !dict_get_cons. simpl. split.
  - apply match_load_inv in Hl. cbv zeta in Hl.
    destruct Hl as [[-> _]|(d & lr & w & m & n & _ & _ & _ & _ & _ & _ & ->)].
    + simpl in Hb. inversion Hb. now left.
    + apply backfill_rate_inv in Hb as [->|(lm0 & ng & fr & _ & _ & _ & _ & _ & ->)];
        right; eexists; reflexivity.
  - now apply prefs_of_shape in Hp.
Qed.

Lemma as_dict_none_or_dict (v : pyval) :
  v = VNone \/ (exists d, v = VDict d) -> exists d, as_dict (py_or v (VDict [])) = Ok d.
Proof.
  intros [->|(d & ->)]; [now exists []|].
  unfold py_or. destruct (truthy (VDict d)); eexists; reflexivity.
Qed.

Lemma keeps_total (q outcome sentiment : option string) (call_id : string) (st : store)
      (rec : pyval) :
  fst (_build_call_record call_id st) = Ok rec ->
  exists keep, keeps q outcome sentiment rec = Ok keep /\
    (keep = true ->
     exists r, rec = VDict r /\
       (forall o, given outcome = Some o -> dict_get r "outcome" = VStr o) /\
       (forall s, given sentiment = Some s -> dict_get r "sentiment" = VStr s) /\
       (forall text, given q = Some text ->
          exists h, haystack r = Ok h /\ PyStr.contains (str_lower text) h = true)) /\
    (given q = None -> given outcome = None -> given sentiment = None ->
     keep = truthy rec).
Proof.
  intros H. apply built_record_parts in H as [->|(r & -> & Ht & Hload & Hprefs)].
  { exists false. repeat split; discriminate || reflexivity. }
  unfold keeps. rewrite Ht.
  simpl negb. cbn [as_dict mbind res_mbind res_bind].
  apply as_dict_none_or_dict in Hload as (load & Hload).
  apply as_dict_none_or_dict in Hprefs as (prefs & Hprefs).
  assert (Hhay : exists h, haystack r = Ok h).
  { unfold haystack. cbv zeta. rewrite Hload, Hprefs. eexists. reflexivity. }
  destruct Hhay as (h & Hh).
  unfold mbind, res_mbind, res_bind. rewrite Hh.
  destruct (given outcome) as [o|] eqn:Eo;
    [destruct (py_eq_str (dict_get r "outcome") o) eqn:Exo; [apply py_eq_str_true in Exo|]|];
    (destruct (given sentiment) as [s0|] eqn:Es;
     [destruct (py_eq_str (dict_get r "sentiment") s0) eqn:Exs;
      [apply py_eq_str_true in Exs|]|]);
    destruct (given q) as [text|] eqn:Eq; cbn [negb];
    (eexists; split; [reflexivity|]; split;
     [ intros Hk;
       first [ discriminate Hk
             | exists r; split; [reflexivity|]; split; [|split];
               intros x E;
               first [discriminate E
                     | inversion E; subst; first [assumption | now exists h]] ]
     | intros Hq Ho Hs; first [discriminate | reflexivity] ]).
Qed.

(** The record a call id contributes to the unfiltered list: the record of
    the builder, nothing when the build raises. *)
Definition record_or_skip (st : store) (call_id : string) : option pyval :=
  match fst (_build_call_record call_id st) with
  | Ok (VDict r) => Some (VDict r)
  | _ => None
  end.

(** What is true of every record of the list. *)
Definition listed_record (q outcome sentiment : option string) (call_ids : list string)
           (st : store) (rec : pyval) : Prop :=
  exists cid r,
    In cid call_ids /\
    fst (_build_call_record cid st) = Ok rec /\ rec = VDict r /\
    (forall o, given outcome = Some o -> dict_get r "outcome" = VStr o) /\
    (forall s, given sentiment = Some s -> dict_get r "sentiment" = VStr s) /\
    (forall text, given q = Some text ->
       exists h, haystack r = Ok h /\ PyStr.contains (str_lower text) h = true).

Lemma omap_cons {A B} (f : A -> option B) (x : A) (l : list A) :
  omap f (x :: l) = match f x with Some y => y :: omap f l | None => omap f l end.
Proof. reflexivity. Qed.

Lemma list_calls_loop_result (q outcome sentiment : option string) (st : store)
      (call_ids : list string) :
  exists records,
    list_calls_loop q outcome sentiment call_ids st = (Ok records, st) /\
    Forall (listed_record q outcome sentiment call_ids st) records /\
    (given q = None -> given outcome = None -> given sentiment = None ->
     records = omap (record_or_skip st) call_ids).
Proof.
  induction call_ids as [|cid rest (records & IHrun & IHall & IHplain)].
  { exists []. repeat split; constructor. }
  assert (Hweaken : Forall (listed_record q outcome sentiment (cid :: rest) st) records).
  { eapply List.Forall_impl; [|exact IHall].
    intros rec (c & r & Hin & Hrest). exists c, r. split; [now right|exact Hrest]. }
  cbn [list_calls_loop].
  pose proof (reads_only_build cid st) as Hst.
  destruct (_build_call_record cid st) as [[rec|e] st'] eqn:Eb; cbn [snd] in Hst; subst st'.
  - assert (Hb : fst (_build_call_record cid st) = Ok rec) by now rewrite Eb.
    destruct (keeps_total q outcome sentiment cid st rec Hb) as (keep & Hk & Hkeep & Hplain).
    unfold mbind, M_mbind, lift, mret, M_mret. rewrite Hk, IHrun.
    destruct keep.
    + exists (rec :: records). split; [reflexivity|].
      destruct (Hkeep eq_refl) as (r & Hr & Hrest). split.
      * constructor; [|exact Hweaken].
        exists cid, r. split; [now left|]. split; [exact Hb|]. split; [exact Hr|exact Hrest].
      * intros Hq Ho Hs. rewrite omap_cons. unfold record_or_skip at 1. rewrite Hb, Hr.
        f_equal. now apply IHplain.
    + exists records. split; [reflexivity|]. split; [exact Hweaken|].
      intros Hq Ho Hs. specialize (Hplain Hq Ho Hs).
      rewrite omap_cons. unfold record_or_skip at 1. rewrite Hb.
      apply built_record_parts in Hb as [->|(r & -> & Ht & _)]; [now apply IHplain|].
      congruence.
  - exists records. split; [exact IHrun|]. split; [exact Hweaken|].
    intros Hq Ho Hs. rewrite omap_cons. unfold record_or_skip at 1. rewrite Eb.
    now apply IHplain.
Qed.

(** X22.  [api_list_calls] never fails and writes nothing: a call whose build
    raises is skipped.  Every record listed is the record of a listed call
    id, has the outcome and the sentiment asked for, when one is asked for,
    and holds the lower-cased search text in its haystack, when one is given;
    without filters the list holds the record of every listed call that
    builds, most recent call first. *)
Theorem api_list_calls_result (q outcome sentiment : option string) (st : store) :
  exists records,
    api_list_calls q outcome sentiment st = (Ok records, st) /\
    Forall (listed_record q outcome sentiment (distinct_call_ids (events st)) st) records /\
    (given q = None -> given outcome = None -> given sentiment = None ->
     records = omap (record_or_skip st) (distinct_call_ids (events st))).
Proof.
  unfold api_list_calls, mbind, M_mbind, get_distinct_call_ids.
  apply list_calls_loop_result.
Qed.

End Listing.


(** * The overview of the metrics

    [_parse_timestamp_safe] and [api_metrics_overview] of [app/main.py].
    [str], [datetime.fromisoformat], the subtraction of floats and the two
    roundings are library code: the endpoint is modelled over any functions
    in their place. *)

(** A [datetime]: its reading in microseconds since 1970-01-01T00:00:00 on
    its own clock, and the offset of that clock from UTC, in microseconds,
    when it has a [tzinfo]. *)
Record datetime := {
  reading : Z;
  utcoffset : option Z
}.

(** [a > b] on two [datetime]: one with and one without [tzinfo] cannot be
    ordered. *)
Definition datetime_gt (a b : datetime) : res bool :=
  match utcoffset a, utcoffset b with
  | Some oa, Some ob => Ok (reading b - ob <? reading a - oa)
  | None, None => Ok (reading b <? reading a)
  | _, _ => Raise TypeError
  end.

Section Metrics.
Context {L : PyLib}.
Variable py_str : pyval_ pyfloat -> string.
Variable fromisoformat : string -> option datetime.
(** [round(a / b * 100, 1)] on two [int] and [round(sum(l) / len(l), 0)] *)
Variable percentage : Z -> Z -> pyfloat.
Variable rounded_mean : list (pyval_ pyfloat) -> pyfloat.
Variable float_sub : pyfloat -> pyfloat -> pyfloat.

Abbreviation pyval := (pyval_ pyfloat).
Abbreviation pydict := (list (string * pyval_ pyfloat)).

(** [_parse_timestamp_safe] (main.py, lines 703-714); [None] of
    [fromisoformat] is its [ValueError]. *)
Definition _parse_timestamp_safe (ts : pyval) : option datetime :=
  let blank := match ts with
               | VNone => true
               | VStr s => PyStr.is_empty (PyStr.strip s)
               | _ => false
               end in
  if blank then None
  else
    let s := PyStr.replace_char "Z" "+00:00" (py_str ts) in
    match fromisoformat s with
    | Some dt =>
        Some (match utcoffset dt with
              | None => {| reading := reading dt; utcoffset := Some 0 |}
              | Some _ => dt
              end)
    | None => None
    end.

(** The loop of lines 720-727: the records of the calls that build. *)
Fixpoint built_records (call_ids : list string) : M (list pyval) :=
  match call_ids with
  | [] => mret []
  | cid :: rest =>
      fun st =>
        match _build_call_record cid st with
        | (Raise _, st') => built_records rest st'
        | (Ok rec, st') =>
            (records ← built_records rest;
             mret (if truthy rec then rec :: records else records)) st'
        end
  end.

(** [sum(1 for r in records if test(r))], where the test starts with
    [r.get]. *)
Fixpoint count_where (test : pydict -> res bool) (records : list pyval) : res Z :=
  match records with
  | [] => Ok 0
  | r :: rest =>
      d ← as_dict r;
      hit ← test d;
      n ← count_where test rest;
      Ok (if (hit : bool) then 1 + n else n)
  end.

Definition has_outcome (label : string) (d : pydict) : res bool :=
  Ok (py_eq_str (dict_get d "outcome") label).

(** [float(x)] *)
Definition py_float (x : pyval) : res pyfloat :=
  match x with
  | VFloat f => Ok f
  | VInt z => from_option Ok (Raise OverflowError) (float_of_int z)
  | VBool b => from_option Ok (Raise OverflowError) (float_of_int (if b then 1 else 0))
  | VStr s => from_option Ok (Raise ValueError) (float_of_str s)
  | _ => Raise TypeError
  end.

Definition is_none (v : pyval) : bool :=
  match v with VNone => true | _ => false end.

(** The body of the loop of lines 734-740: what a record adds to [spreads]. *)
Definition spread_of (r : pyval) : res (option pyval) :=
  d ← as_dict r;
  let neg := py_or (dict_get d "negotiation") (VDict []) in
  let load := py_or (dict_get d "load_matched") (VDict []) in
  load ← as_dict load;
  lb ← safe_number_convert (py_or (dict_get load "loadboard_rate") (dict_get load "rate"))
                           TFloat;
  neg ← as_dict neg;
  fr ← safe_number_convert (dict_get neg "final_rate") TFloat;
  if negb (is_none lb) && negb (is_none fr) then
    a ← py_float fr;
    b ← py_float lb;
    let x := float_sub a b in
    (* max(0, x) *)
    Ok (Some (if float_gt_zero x then VFloat x else VInt 0))
  else Ok None.

Fixpoint spreads_of (records : list pyval) : res (list pyval) :=
  match records with
  | [] => Ok []
  | r :: rest =>
      s ← spread_of r;
      spreads ← spreads_of rest;
      Ok (from_option (fun x => x :: spreads) spreads s)
  end.

(** The test of the loop of lines 745-748. *)
Definition is_since (cutoff : datetime) (d : pydict) : res bool :=
  match _parse_timestamp_safe (dict_get d "timestamp") with
  | Some dt => datetime_gt dt cutoff
  | None => Ok false
  end.

(** [if s in dist: dist[s] += 1] for a string [s] *)
Fixpoint bump (s : string) (dist : list (string * Z)) : list (string * Z) :=
  match dist with
  | [] => []
  | (k, n) :: rest => if String.eqb k s then (k, n + 1) :: rest else (k, n) :: bump s rest
  end.

(** The loop of lines 750-753.  Looking a list or a dict up in a dict
    raises: they cannot be hashed. *)
Fixpoint sentiment_tally (dist : list (string * Z)) (records : list pyval)
  : res (list (string * Z)) :=
  match records with
  | [] => Ok dist
  | r :: rest =>
      d ← as_dict r;
      match py_or (dict_get d "sentiment") (VStr "neutral") with
      | VStr s => sentiment_tally (bump s dist) rest
      | VList _ | VDict _ => Raise TypeError
      | _ => sentiment_tally dist rest
      end
  end.

Definition counters (dist : list (string * Z)) : pyval :=
  VDict (map (fun kn => (fst kn, VInt (snd kn))) dist).

Definition day : Z := 86400000000.

(** [api_metrics_overview] (main.py, lines 717-755); [now] is the reading
    of [datetime.now(timezone.utc)]. *)
Definition api_metrics_overview (now : Z) : M pyval :=
  call_ids ← get_distinct_call_ids;
  records ← built_records call_ids;
  lift
    (let total := Z.of_nat (length records) in
     verified_booked ← count_where (has_outcome "booked") records;
     verified_no_deal ← count_where (has_outcome "no_deal") records;
     failed_verification ← count_where (has_outcome "failed_verification") records;
     dropped_incomplete ← count_where (has_outcome "dropped") records;
     let conversion_rate :=
       if total =? 0 then VInt 0 else VFloat (percentage verified_booked total) in
     spreads ← spreads_of records;
     let avg_spread :=
       match spreads with [] => VInt 0 | _ => VFloat (rounded_mean spreads) end in
     let cutoff := {| reading := now - day; utcoffset := Some 0 |} in
     calls_today ← count_where (is_since cutoff) records;
     sentiment_distribution ←
       sentiment_tally [("positive", 0); ("neutral", 0); ("negative", 0); ("frustrated", 0)]
                       records;
     Ok (VDict [ ("total_calls", VInt total);
                 ("conversion_rate", conversion_rate);
                 ("avg_negotiation_spread", avg_spread);
                 ("calls_today", VInt calls_today);
                 ("call_outcomes",
                   counters [ ("verified_booked", verified_booked);
                              ("verified_no_deal", verified_no_deal);
                              ("failed_verification", failed_verification);
                              ("dropped_incomplete", dropped_incomplete) ]);
                 ("sentiment_distribution", counters sentiment_distribution) ])).

(** ** What the overview relies on in a record *)

(** A rate as the builder stores it: a float, or the int 0. *)
Definition is_rate (v : pyval) : bool :=
  match v with VFloat _ => true | VInt z => z =? 0 | _ => false end.

Definition overview_ready (r : pydict) : Prop :=
  (exists o, dict_get r "outcome" = VStr o /\
             In o ["failed_verification"; "dropped"; "booked"; "no_deal"]) /\
  (exists s, dict_get r "sentiment" = VStr s /\
             In s ["positive"; "neutral"; "negative"; "frustrated"]) /\
  (exists ts, dict_get r "timestamp" = VStr ts) /\
  (dict_get r "negotiation" = VNone \/
   exists ng, dict_get r "negotiation" = VDict ng /\
              is_float_or_none (dict_get ng "final_rate") = true) /\
  (dict_get r "load_matched" = VNone \/
   exists lm, dict_get r "load_matched" = VDict lm /\
              is_rate (dict_get lm "loadboard_rate") = true /\
              dict_get lm "rate" = VNone).

Lemma rate_or_zero (v : pyval) : is_float_or_none v = true -> is_rate (py_or v (VInt 0)) = true.
Proof.
  destruct v; try discriminate; intros _; unfold py_or; simpl; [reflexivity|].
  now destruct (negb _).
Qed.

Lemma dict_set_rate_absent (lm : pydict) (v : pyval) :
  dict_get (dict_set lm "loadboard_rate" v) "rate" = dict_get lm "rate".
Proof. now apply dict_get_set_other. Qed.

Lemma built_overview_ready (call_id : string) (st : store) (r : pydict) :
  fst (_build_call_record call_id st) = Ok (VDict r) -> overview_ready r.
Proof.
  intros H. invert_build H. injection Hrec as Hrec. subst r. unfold overview_ready.
  rewrite !dict_get_cons. simpl.
  split; [eexists; split; [reflexivity|apply outcome_of_range]|].
  split; [eexists; split; [reflexivity|now apply sentiment_of_range in Hs]|].
  split; [eexists; reflexivity|].
  pose proof (negotiation_of_parts _ _ _ Hg) as Hparts.
  split.
  - destruct Hparts as [[_ ->]|[_ (rounds & io & co & fr & _ & _ & _ & Hfr & ->)]];
      [now left|].
    right. eexists. split; [reflexivity|]. rewrite !dict_get_cons. simpl. exact Hfr.
  - apply match_load_inv in Hl. cbv zeta in Hl.
    destruct Hl as [[-> _]|(d & lr & w & m & n & _ & _ & Hlr & _ & _ & _ & ->)].
    { simpl in Hb. inversion Hb. now left. }
    right.
    apply backfill_rate_inv in Hb as [->|(lm0 & ng & fb & Hlm0 & Hng & Hfb & _ & Hgt & ->)].
    { eexists. split; [reflexivity|]. rewrite !dict_get_cons. simpl.
      split; [now apply rate_or_zero|reflexivity]. }
    eexists. split; [reflexivity|].
    rewrite dict_get_set_same, dict_set_rate_absent. inversion Hlm0; subst lm0.
    split; [|reflexivity].
    destruct Hparts as [[_ ->]|[_ (rounds & io & co & fr & _ & Hio & _ & Hfr & Hneg)]];
      [discriminate|].
    rewrite Hneg in Hng. inversion Hng; subst ng. clear Hng.
    rewrite !dict_get_cons in Hfb. simpl in Hfb.
    assert (Hoffer : is_rate (py_or (py_or io (py_or lr (VInt 0))) (VInt 0)) = true).
    { unfold py_or at 1. destruct (truthy (py_or io (py_or lr (VInt 0)))) eqn:E;
        [|reflexivity].
      unfold py_or at 1. unfold py_or at 1 in E. destruct (truthy io).
      - now destruct io.
      - now apply rate_or_zero. }
    subst fb. unfold py_or at 1. unfold py_or at 1 in Hgt.
    destruct (truthy (py_or (py_or io (py_or lr (VInt 0))) (VInt 0))); [exact Hoffer|].
    now destruct fr.
Qed.

Lemma built_records_result (st : store) (call_ids : list string) :
  built_records call_ids st = (Ok (omap (record_or_skip st) call_ids), st).
Proof.
  induction call_ids as [|cid rest IH]; [reflexivity|].
  cbn [built_records]. rewrite omap_cons. unfold record_or_skip at 1.
  pose proof (reads_only_build cid st) as Hst.
  destruct (_build_call_record cid st) as [[rec|e] st'] eqn:Eb; cbn [snd] in Hst; subst st'.
  - assert (Hb : fst (_build_call_record cid st) = Ok rec) by now rewrite Eb.
    unfold mbind, M_mbind, mret, M_mret. rewrite IH. cbn [fst].
    apply built_record_parts in Hb as [->|(r & -> & Ht & _)]; [reflexivity|].
    now rewrite Ht.
  - cbn [fst]. exact IH.
Qed.

(** The records of the overview are dicts on which its loops cannot fail. *)
Definition ready (rec : pyval) : Prop := exists r, rec = VDict r /\ overview_ready r.

Lemma records_ready (st : store) (call_ids : list string) :
  Forall ready (omap (record_or_skip st) call_ids).
Proof.
  induction call_ids as [|cid rest IH]; [constructor|].
  rewrite omap_cons. unfold record_or_skip at 1.
  destruct (fst (_build_call_record cid st)) as [[| | | | | |r]|] eqn:E; try exact IH.
  constructor; [|exact IH]. exists r. split; [reflexivity|].
  now apply built_overview_ready in E.
Qed.

(** ** The counters *)

Lemma count_where_bounds (test : pydict -> res bool) (records : list pyval) :
  Forall (fun rec => exists r hit, rec = VDict r /\ test r = Ok hit) records ->
  exists n, count_where test records = Ok n /\ 0 <= n <= Z.of_nat (length records).
Proof.
  induction 1 as [|rec records (r & hit & -> & Hhit) _ (n & IH & Hn)].
  - exists 0. split; [reflexivity|simpl; lia].
  - cbn [count_where as_dict mbind res_mbind res_bind]. rewrite Hhit, IH.
    exists (if hit then 1 + n else n). split; [reflexivity|].
    cbn [length]. destruct hit; lia.
Qed.

Lemma count_outcome_cons (label : string) (r : pydict) (records : list pyval) :
  count_where (has_outcome label) (VDict r :: records) =
  n ← count_where (has_outcome label) records;
  Ok (if py_eq_str (dict_get r "outcome") label then 1 + n else n).
Proof. reflexivity. Qed.

Lemma outcome_counts_partition (records : list pyval) :
  Forall ready records ->
  exists b n f d,
    count_where (has_outcome "booked") records = Ok b /\
    count_where (has_outcome "no_deal") records = Ok n /\
    count_where (has_outcome "failed_verification") records = Ok f /\
    count_where (has_outcome "dropped") records = Ok d /\
    0 <= b /\ 0 <= n /\ 0 <= f /\ 0 <= d /\
    b + n + f + d = Z.of_nat (length records).
Proof.
  induction 1 as [|rec records (r & -> & (o & Ho & Hin) & _) _
                   (b & n & f & d & Hb & Hn & Hf & Hd & ? & ? & ? & ? & Hsum)].
  - exists 0, 0, 0, 0. repeat split; reflexivity || lia.
  - rewrite !count_outcome_cons, Hb, Hn, Hf, Hd, Ho.
    cbn [length mbind res_mbind res_bind].
    simpl in Hin. destruct Hin as [<-|[<-|[<-|[<-|[]]]]]; simpl py_eq_str; cbv iota;
      do 4 eexists; repeat split; try reflexivity; lia.
Qed.

Lemma spread_of_ready (rec : pyval) : ready rec -> exists s, spread_of rec = Ok s.
Proof.
  intros (r & -> & _ & _ & _ & Hneg & Hload).
  assert (Hlb : exists load lb,
            as_dict (py_or (dict_get r "load_matched") (VDict [])) = Ok load /\
            safe_number_convert
              (py_or (dict_get load "loadboard_rate") (dict_get load "rate")) TFloat = Ok lb /\
            is_float_or_none lb = true).
  { destruct Hload as [->|(lm & -> & Hrate & Hnone)].
    - exists [], VNone. now repeat split.
    - assert (Hlm : as_dict (py_or (VDict lm) (VDict [])) = Ok lm).
      { unfold py_or. destruct (truthy (VDict lm)) eqn:E; [reflexivity|].
        destruct lm; [reflexivity|discriminate E]. }
      exists lm. rewrite Hnone.
      destruct (dict_get lm "loadboard_rate") eqn:E; try discriminate Hrate.
      + simpl in Hrate. apply Z.eqb_eq in Hrate. subst z.
        exists VNone. now repeat split.
      + unfold py_or. destruct (truthy (VFloat f)).
        * exists (VFloat f). now repeat split.
        * exists VNone. now repeat split. }
  destruct Hlb as (load & lb & Hload' & Hlb & Hlbt).
  assert (Hfr : exists neg fr,
            as_dict (py_or (dict_get r "negotiation") (VDict [])) = Ok neg /\
            safe_number_convert (dict_get neg "final_rate") TFloat = Ok fr /\
            is_float_or_none fr = true).
  { destruct Hneg as [->|(ng & -> & Hfinal)].
    - exists [], VNone. now repeat split.
    - assert (Hng : as_dict (py_or (VDict ng) (VDict [])) = Ok ng).
      { unfold py_or. destruct (truthy (VDict ng)) eqn:E; [reflexivity|].
        destruct ng; [reflexivity|discriminate E]. }
      exists ng, (dict_get ng "final_rate"). split; [exact Hng|].
      split; [|exact Hfinal]. now destruct (dict_get ng "final_rate"). }
  destruct Hfr as (neg & fr & Hneg' & Hfr & Hfrt).
  unfold spread_of, mbind, res_mbind, res_bind. cbv zeta. cbn [as_dict].
  rewrite Hload', Hlb, Hneg', Hfr.
  destruct lb; try discriminate Hlbt; destruct fr; try discriminate Hfrt; simpl;
    eexists; reflexivity.
Qed.

Lemma spreads_of_ready (records : list pyval) :
  Forall ready records ->
  exists spreads, spreads_of records = Ok spreads /\
                  (length spreads <= length records)%nat.
Proof.
  induction 1 as [|rec records Hrec _ (spreads & IH & Hlen)].
  { exists []. split; [reflexivity|simpl; lia]. }
  destruct (spread_of_ready rec Hrec) as (s & Hs).
  cbn [spreads_of mbind res_mbind res_bind]. rewrite Hs, IH. eexists.
  split; [reflexivity|]. destruct s; simpl; lia.
Qed.

Lemma parse_timestamp_has_tzinfo (ts : pyval) (dt : datetime) :
  _parse_timestamp_safe ts = Some dt -> exists offset, utcoffset dt = Some offset.
Proof.
  unfold _parse_timestamp_safe. cbv zeta.
  destruct (match ts with VNone => true | VStr s => _ | _ => false end); [discriminate|].
  destruct (fromisoformat _) as [d|]; [|discriminate].
  destruct (utcoffset d) as [o|] eqn:E; intros H; inversion H; subst.
  - now exists o.
  - now exists 0.
Qed.

Lemma is_since_total (now : Z) (r : pydict) :
  exists hit, is_since {| reading := now - day; utcoffset := Some 0 |} r = Ok hit.
Proof.
  unfold is_since.
  destruct (_parse_timestamp_safe (dict_get r "timestamp")) as [dt|] eqn:E;
    [|now exists false].
  apply parse_timestamp_has_tzinfo in E as (offset & E).
  unfold datetime_gt. rewrite E. cbn [utcoffset]. eexists. reflexivity.
Qed.

Definition tally_sum (dist : list (string * Z)) : Z :=
  fold_right (fun kn acc => snd kn + acc) 0 dist.

Lemma bump_keys (s : string) (dist : list (string * Z)) :
  map fst (bump s dist) = map fst dist.
Proof.
  induction dist as [|[k n] dist IH]; [reflexivity|]. simpl.
  destruct (String.eqb k s); simpl; [reflexivity|now rewrite IH].
Qed.

Lemma bump_sum (s : string) (dist : list (string * Z)) :
  In s (map fst dist) -> tally_sum (bump s dist) = tally_sum dist + 1.
Proof.
  induction dist as [|[k n] dist IH]; simpl; [tauto|].
  destruct (String.eqb k s) eqn:E; unfold tally_sum in *; simpl.
  - intros _. lia.
  - intros [->|Hin]; [now rewrite String.eqb_refl in E|]. rewrite IH by exact Hin. lia.
Qed.

Lemma bump_nonneg (s : string) (dist : list (string * Z)) :
  Forall (fun kn => 0 <= snd kn) dist -> Forall (fun kn => 0 <= snd kn) (bump s dist).
Proof.
  induction 1 as [|[k n] dist Hn Hrest IH]; [constructor|]. simpl in *.
  destruct (String.eqb k s); constructor; simpl; try assumption; lia.
Qed.

Lemma sentiment_tally_sum (records : list pyval) (dist : list (string * Z)) :
  Forall ready records ->
  map fst dist = ["positive"; "neutral"; "negative"; "frustrated"] ->
  Forall (fun kn => 0 <= snd kn) dist ->
  exists dist',
    sentiment_tally dist records = Ok dist' /\
    map fst dist' = ["positive"; "neutral"; "negative"; "frustrated"] /\
    Forall (fun kn => 0 <= snd kn) dist' /\
    tally_sum dist' = tally_sum dist + Z.of_nat (length records).
Proof.
  intros Hall. revert dist.
  induction Hall as [|rec records (r & -> & _ & (s & Hs & Hin) & _) _ IH]; intros dist Hk Hnn.
  - exists dist. repeat split; try assumption. simpl. lia.
  - cbn [sentiment_tally as_dict mbind res_mbind res_bind]. rewrite Hs.
    assert (Ht : py_or (VStr s) (VStr "neutral") = VStr s).
    { simpl in Hin. now destruct Hin as [<-|[<-|[<-|[<-|[]]]]]. }
    rewrite Ht.
    destruct (IH (bump s dist)) as (dist' & Hrun & Hk' & Hnn' & Hsum).
    { now rewrite bump_keys. }
    { now apply bump_nonneg. }
    exists dist'. split; [exact Hrun|]. split; [exact Hk'|]. split; [exact Hnn'|].
    rewrite Hsum, bump_sum by now rewrite Hk. cbn [length]. lia.
Qed.

(** X23.  The overview never fails and writes nothing.  [total_calls] is the
    number of listed calls that build; the four counters of [call_outcomes]
    add up to it, and so do the four counters of [sentiment_distribution];
    [calls_today] lies between 0 and it; without a call the two rates are
    the int 0. *)
Theorem metrics_overview_totals (now : Z) (st : store) :
  let total := Z.of_nat (length (omap (record_or_skip st) (distinct_call_ids (events st)))) in
  exists body booked no_deal failed dropped positive neutral negative frustrated today,
    api_metrics_overview now st = (Ok (VDict body), st) /\
    map fst body = [ "total_calls"; "conversion_rate"; "avg_negotiation_spread";
                     "calls_today"; "call_outcomes"; "sentiment_distribution" ] /\
    dict_get body "total_calls" = VInt total /\
    dict_get body "call_outcomes"
    = VDict [ ("verified_booked", VInt booked); ("verified_no_deal", VInt no_deal);
              ("failed_verification", VInt failed); ("dropped_incomplete", VInt dropped) ] /\
    0 <= booked /\ 0 <= no_deal /\ 0 <= failed /\ 0 <= dropped /\
    booked + no_deal + failed + dropped = total /\
    dict_get body "sentiment_distribution"
    = VDict [ ("positive", VInt positive); ("neutral", VInt neutral);
              ("negative", VInt negative); ("frustrated", VInt frustrated) ] /\
    0 <= positive /\ 0 <= neutral /\ 0 <= negative /\ 0 <= frustrated /\
    positive + neutral + negative + frustrated = total /\
    dict_get body "calls_today" = VInt today /\ 0 <= today <= total /\
    (total = 0 -> dict_get body "conversion_rate" = VInt 0 /\
                  dict_get body "avg_negotiation_spread" = VInt 0).
Proof.
  intros total. unfold api_metrics_overview, mbind at 1 2, M_mbind, get_distinct_call_ids.
  rewrite built_records_result. unfold lift. fold total.
  pose proof (records_ready st (distinct_call_ids (events st))) as Hready.
  set (records := omap (record_or_skip st) (distinct_call_ids (events st))) in *.
  destruct (outcome_counts_partition records Hready)
    as (b & n & f & d & -> & -> & -> & -> & Hb & Hn & Hf & Hd & Hsum).
  destruct (spreads_of_ready records Hready) as (spreads & -> & Hlen).
  destruct (count_where_bounds (is_since {| reading := now - day; utcoffset := Some 0 |})
                               records) as (today & -> & Htoday).
  { eapply List.Forall_impl; [|exact Hready]. intros rec (r & -> & _).
    destruct (is_since_total now r) as (hit & Hhit). now exists r, hit. }
  destruct (sentiment_tally_sum records
              [("positive", 0); ("neutral", 0); ("negative", 0); ("frustrated", 0)] Hready)
    as (dist & -> & Hkeys & Hnn & Hdist).
  { reflexivity. }
  { repeat constructor; simpl; lia. }
  destruct dist as [|[k1 p] [|[k2 u] [|[k3 g] [|[k4 x] [|]]]]]; try discriminate Hkeys.
  simpl in Hkeys. inversion Hkeys; subst k1 k2 k3 k4.
  unfold tally_sum in Hdist. simpl in Hdist.
  repeat match goal with H : Forall _ (_ :: _) |- _ => inversion_clear H end.
  simpl in *.
  exists [ ("total_calls", VInt total);
           ("conversion_rate",
             if total =? 0 then VInt 0 else VFloat (percentage b total));
           ("avg_negotiation_spread",
             match spreads with [] => VInt 0 | _ => VFloat (rounded_mean spreads) end);
           ("calls_today", VInt today);
           ("call_outcomes",
             counters [ ("verified_booked", b); ("verified_no_deal", n);
                        ("failed_verification", f); ("dropped_incomplete", d) ]);
           ("sentiment_distribution",
             counters [ ("positive", p); ("neutral", u); ("negative", g);
                        ("frustrated", x) ]) ].
  exists b, n, f, d, p, u, g, x, today.
  split; [reflexivity|]. split; [reflexivity|].
  rewrite !dict_get_cons. simpl.
  repeat (split; [first [reflexivity | assumption | lia]|]).
  intros Hzero. rewrite Hzero. split; [reflexivity|].
  destruct spreads; [reflexivity|]. unfold total in Hzero. simpl in Hlen. lia.
Qed.

(** ** The negotiations

    [_effective_loadboard_rate] and [api_metrics_negotiations] of
    [app/main.py]. *)

(** A number of Python: a [bool] counts as an [int]. *)
Inductive number :=
| NInt (z : Z)
| NFloat (f : pyfloat).





















(** *** What the negotiations rely on in a record *)











(** *** The loops *)


















End Metrics.


(** * The further properties on concrete calls *)

#[global] Instance cpython_json : PyJson cpython := {|
  json_dumps := RefText.json_dumps
|}.

(** A call of which only events the builder does not read are stored. *)
Definition unreported_store : store :=
  events_only
    [ stored "c1" "call_started" "{'agent': 'a1'}" "2024-01-01T00:00:00.000000Z";
      stored "c1" "verify_mc_requested" "{'mc_number': '123'}"
             "2024-01-01T00:00:05.000000Z" ].

(** The call of [failed_store] with white space and double quotes around
    the type of its event. *)
Definition quoted_type_store : store :=
  events_only
    [ {| ev_call_id := "c1";
         ev_event_type := Ref.json " 'verify_mc_result' ";
         ev_payload := Some (Ref.json "{'eligible': false}");
         ev_timestamp := "2024-01-01T00:00:00.000000Z" |} ].

Lemma record_schema_witness :
  fst (_build_call_record "c1" booked_store) = Ok (VDict booked_record) /\
  map fst booked_record = record_keys /\
  dict_get booked_record "id" = VStr "c1".
Proof.
  assert (H : fst (_build_call_record "c1" booked_store) = Ok (VDict booked_record))
    by run.
  split; [exact H|].
  destruct (record_schema "c1" booked_store booked_record H) as (Hk & Hid & _).
  split; [exact Hk|exact Hid].
Defined.

Lemma outcome_consistency_witness :
  fst (_build_call_record "c1" booked_store) = Ok (VDict booked_record) /\
  dict_get booked_record "outcome" = VStr "booked" /\
  exists ng, dict_get booked_record "negotiation" = VDict ng
             /\ dict_get ng "agreed" = VBool true.
Proof.
  assert (H : fst (_build_call_record "c1" booked_store) = Ok (VDict booked_record))
    by run.
  assert (Ho : dict_get booked_record "outcome" = VStr "booked") by run.
  split; [exact H|]. split; [exact Ho|].
  destruct (outcome_consistency "c1" booked_store booked_record H) as (_ & Hb & _).
  exact (Hb Ho).
Defined.

Lemma load_matched_shape_witness :
  fst (_build_call_record "c1" booked_store) = Ok (VDict booked_record) /\
  (dict_get booked_record "load_matched" = VNone
   \/ exists lm, dict_get booked_record "load_matched" = VDict lm).
Proof.
  assert (H : fst (_build_call_record "c1" booked_store) = Ok (VDict booked_record))
    by run.
  split; [exact H|].
  destruct (load_matched_shape "c1" booked_store booked_record H) as (_ & Hd & _).
  exact Hd.
Defined.

Lemma negotiation_shape_witness :
  fst (_build_call_record "c1" booked_store) = Ok (VDict booked_record) /\
  (dict_get booked_record "negotiation" = VNone
   \/ exists ng, dict_get booked_record "negotiation" = VDict ng).
Proof.
  assert (H : fst (_build_call_record "c1" booked_store) = Ok (VDict booked_record))
    by run.
  split; [exact H|].
  destruct (negotiation_shape "c1" booked_store booked_record H) as (_ & Hd & _).
  exact Hd.
Defined.

Lemma event_type_read_normalised_witness :
  Forall2 same_event (call_events failed_store "c1") (call_events quoted_type_store "c1") /\
  fst (_build_call_record "c1" failed_store)
  = fst (_build_call_record "c1" quoted_type_store).
Proof.
  assert (H : Forall2 same_event (call_events failed_store "c1")
                                 (call_events quoted_type_store "c1")).
  { unfold call_events, select_events. simpl List.filter. simpl map.
    constructor; [|constructor]. unfold same_event. run_each. }
  split; [exact H|].
  exact (event_type_read_normalised "c1" failed_store quoted_type_store H eq_refl eq_refl).
Defined.

Definition call_started : event :=
  {| event_type := "call_started";
     payload := Some (Ref.json "{'agent': 'a1'}");
     timestamp := "2024-01-01T00:00:00.000000Z" |}.

Definition unreported_record : list (string * value) :=
  Eval vm_compute in record_of (_build_call_record "c1" unreported_store).

Lemma unreported_call_record_witness :
  hd_error (call_events unreported_store "c1") = Some call_started /\
  prefs_of (L := cpython) "c1" unreported_store = Ok VNone /\
  fst (_build_call_record (L := cpython) "c1" unreported_store)
  = Ok (VDict unreported_record) /\
  dict_get unreported_record "outcome" = VStr "dropped" /\
  dict_get unreported_record "call_duration_seconds" = VInt 5.
Proof.
  assert (H1 : hd_error (call_events unreported_store "c1") = Some call_started) by run.
  assert (H2 : Forall (fun key => truthy (latest_payload (L := cpython)
                                            (call_events unreported_store "c1") key) = false)
                      [ "call_classified"; "verify_mc_result"; "negotiation_complete";
                        "best_load_retrieved"; "sentiment_classified" ])
    by (repeat constructor; vm_compute; reflexivity).
  assert (H3 : prefs_of (L := cpython) "c1" unreported_store = Ok VNone) by run.
  split; [exact H1|]. split; [exact H3|]. split; [|split; run].
  rewrite (unreported_call_record "c1" unreported_store call_started VNone H1 H2 H3).
  run.
Defined.

Lemma normalize_sentiment_idempotent_witness :
  _normalize_sentiment (L := cpython) (VStr "Really Positive") = Ok "positive" /\
  _normalize_sentiment (L := cpython) (VStr "positive") = Ok "positive".
Proof.
  assert (H : _normalize_sentiment (L := cpython) (VStr "Really Positive") = Ok "positive")
    by run.
  split; [exact H|].
  exact (normalize_sentiment_idempotent (VStr "Really Positive") "positive" H).
Defined.

Lemma payload_as_dict_decodes_witness :
  encoded (L := cpython) (Ref.json "'{\'a\':1}'") [("a", VInt 1)] /\
  _payload_as_dict (L := cpython) (VStr (Ref.json "'{\'a\':1}'")) = [("a", VInt 1)].
Proof.
  assert (H : encoded (L := cpython) (Ref.json "'{\'a\':1}'") [("a", VInt 1)]).
  { apply encoded_string with (t' := Ref.json "{'a':1}"); [run|].
    apply encoded_object. run. }
  split; [exact H|].
  exact (payload_as_dict_decodes _ _ H).
Defined.

Lemma log_event_other_call_witness :
  "c1" <> "c2" /\
  fst (_build_call_record "c1"
         (snd (db_log_event "2024-01-01T00:10:00.000000" "c2" "verify_mc_result"
                            (VDict [("eligible", VBool true)]) booked_store)))
  = fst (_build_call_record "c1" booked_store).
Proof.
  assert (H : "c1" <> "c2") by discriminate.
  split; [exact H|].
  exact (log_event_other_call (L := cpython) "2024-01-01T00:10:00.000000" "c2"
           "verify_mc_result" (VDict [("eligible", VBool true)]) booked_store "c1" H).
Defined.

Lemma carrier_identity_resolution_witness :
  fst (_build_call_record "c1" booked_store) = Ok (VDict booked_record) /\
  dict_get booked_record "mc_number" = VStr "123" /\
  dict_get booked_record "carrier_name" = VStr "ACME".
Proof.
  assert (H : fst (_build_call_record "c1" booked_store) = Ok (VDict booked_record))
    by run.
  pose proof (carrier_identity_resolution "c1" booked_store booked_record H) as T.
  cbv zeta in T. destruct T as (Hm & _ & _ & Hp).
  split; [exact H|]. split; [rewrite Hm; run|].
  rewrite (Hp ltac:(run) "123" ltac:(run) ltac:(discriminate)). run.
Defined.

(** The call of [booked_store] with search preferences stored for it. *)
Definition preferring_store : store :=
  {| events := events booked_store;
     carrier_profiles := carrier_profiles booked_store;
     call_search_prefs :=
       [ [ ("id", VInt 1); ("call_id", VStr "c1"); ("mc_number", VStr "123");
           ("origin_city", VStr "Dallas"); ("origin_state", VStr "TX");
           ("destination_city", VStr "Reno"); ("destination_state", VStr "NV");
           ("pickup_date", VNone); ("departure_date", VNone);
           ("latest_departure_date", VNone); ("equipment_type", VStr "Reefer");
           ("weight_capacity", VInt 42000); ("origin_lat", VNone); ("origin_lng", VNone);
           ("origin_radius_miles", VInt 50); ("dest_lat", VNone); ("dest_lng", VNone);
           ("dest_radius_miles", VInt 50); ("min_temp", VNone); ("max_temp", VNone);
           ("notes", VStr "no tarps");
           ("updated_at", VStr "2024-01-01T00:00:00.000000Z") ] ] |}.

Definition preferring_record : list (string * value) :=
  Eval vm_compute in record_of (_build_call_record "c1" preferring_store).

Lemma call_search_prefs_snapshot_witness :
  fst (_build_call_record "c1" preferring_store) = Ok (VDict preferring_record) /\
  exists shown,
    dict_get preferring_record "call_search_prefs" = VDict shown /\
    map fst shown = prefs_keys.
Proof.
  assert (H : fst (_build_call_record "c1" preferring_store) = Ok (VDict preferring_record))
    by run.
  split; [exact H|].
  pose proof (call_search_prefs_snapshot "c1" preferring_store preferring_record H) as T.
  change (prefs_row_of preferring_store "c1")
    with (Some (hd [] (call_search_prefs preferring_store))) in T.
  destruct T as (shown & Hs & Hk & _). exists shown. now split.
Defined.

(** The subtraction of binary64 floats; the text and the roundings do not
    bear on the counts below. *)
Definition float_sub : spec_float -> spec_float -> spec_float := SFsub 53 1024.


Lemma logged_payload_is_read_witness :
  json_loads (json_dumps (VDict [("eligible", VBool false)]))
  = Some (VDict [("eligible", VBool false)]) /\
  payload_or_empty
    (group_by_type
       (call_events
          (snd (db_log_event (L := cpython) "2024-01-01T00:10:00.000000" "c1"
                             " verify_mc_result " (VDict [("eligible", VBool false)])
                             booked_store)) "c1"))
    "verify_mc_result"
  = VDict [("eligible", VBool false)].
Proof.
  assert (Hround : json_loads (json_dumps (VDict [("eligible", VBool false)]))
                   = Some (VDict [("eligible", VBool false)])) by run.
  split; [exact Hround|].
  pose proof (logged_payload_is_read (L := cpython) "2024-01-01T00:10:00.000000" "c1"
                " verify_mc_result " (VDict [("eligible", VBool false)]) booked_store) as T.
  cbv zeta in T. destruct T as (_ & T).
  assert (Hkey : event_key (logged_event "2024-01-01T00:10:00.000000" " verify_mc_result "
                                         (VDict [("eligible", VBool false)]))
                 = "verify_mc_result") by run.
  rewrite Hkey in T. destruct (T eq_refl) as (_ & Hread & _).
  destruct (Hread Hround) as (_ & Hp). exact Hp.
Defined.

Lemma call_output_endpoint_witness :
  exists row,
    events (snd (call_output (L := cpython) "2024-01-01T00:10:00.000000"
                   {| co_call_id := "c1"; co_event_type := "verify_mc_result";
                      co_payload := VStr (Ref.json "{'eligible': false}") |}
                   booked_store))
    = (events booked_store ++ [row])%list /\
    _parse_payload (L := cpython) (text_column (ev_payload row))
    = VStr (Ref.json "{'eligible': false}").
Proof.
  destruct (call_output_endpoint (L := cpython) "2024-01-01T00:10:00.000000"
              {| co_call_id := "c1"; co_event_type := "verify_mc_result";
                 co_payload := VStr (Ref.json "{'eligible': false}") |} booked_store)
    as (_ & row & Hrow & _ & _ & _ & _ & _ & _ & _ & Hstr).
  exists row. split; [exact Hrow|].
  refine (proj1 (Hstr _ eq_refl _)). run.
Defined.

(** A verification result posted to [log_event] on an empty store, then the
    record of the call: the payload logged is the payload read. *)
Example posted_event_is_built :
  let req := {| le_call_id := Some " c9 ";
                le_event_type := Some "verify_mc_result";
                le_payload := Some [("eligible", VBool false); ("mc_number", VStr "123")] |} in
  let st := snd (log_event (L := cpython) "2024-01-01T00:00:00.000000" req (events_only [])) in
  fst (get_distinct_call_ids st) = Ok ["c9"] /\
  latest_payload (L := cpython) (call_events st "c9") "verify_mc_result"
  = VDict [("eligible", VBool false); ("mc_number", VStr "123")] /\
  dict_get (record_of (_build_call_record "c9" st)) "outcome" = VStr "failed_verification" /\
  dict_get (record_of (_build_call_record "c9" st)) "timestamp"
  = VStr "2024-01-01T00:00:00.000000Z".
Proof. cbv zeta. run_each. Qed.
